(** * The allocation decision engine [agentAllocateSingle]

    A shallow embedding of the lab-workstation allocation engine and the
    properties its specification states about it.

    Conventions of the embedding.
    - A JavaScript [number] that holds a minute count is an [option Z]:
      [None] is [NaN], [Some z] an integer.  Sequence numbers and demands
      are integers ([Z]); a demand that is missing is [None].
    - A time of day is a string of the form [HH:mm], digits around a
      colon.  [Number] is embedded for the strings such a time is made
      of, runs of decimal digits and the empty string; see [Number]
      for what this leaves out.
    - A Firestore collection is the list of its documents in the order
      the store hands them out; a document is named by its [id] field,
      as the three interfaces of the source declare it.
    - A transaction is a sequence of reads and writes that takes effect
      as a whole or not at all.  As the client of the store has it, the
      reads of a transaction come before its writes: a read after a
      write throws, and the transaction fails; an update of a document
      that does not exist makes it fail as well.
    - The engine reads, plans, and then writes.  The reads observe the
      store [snap]; the writes land on the store [live], which is the
      store at the moment the writes are applied.  A run that no other
      writer interleaves with has [live = snap].
    - [Date.now()] and the server time stamp are inputs of a run.
    - Line numbers refer to the source file of the engine. *)

From stdpp Require Import gmap strings list pretty sorting.
From Stdlib Require Import ZArith Lia Ascii.

Open Scope Z_scope.

#[local] Set Warnings "-clear-no-such-hyp".

(** ** Data model (the three document interfaces) *)

Inductive Role := ADMIN | FACULTY | STUDENT.
Inductive SystemType := i7 | i9.
Inductive RequestStatus := pending | accepted | rejected.
Inductive SystemStatus := available | occupied | maintenance | reserved.

#[global] Instance Role_eq_dec : EqDecision Role.
Proof. solve_decision. Defined.
#[global] Instance SystemType_eq_dec : EqDecision SystemType.
Proof. solve_decision. Defined.
#[global] Instance RequestStatus_eq_dec : EqDecision RequestStatus.
Proof. solve_decision. Defined.
#[global] Instance SystemStatus_eq_dec : EqDecision SystemStatus.
Proof. solve_decision. Defined.

Module RequestDoc.
Record t := mk {
  id : string;
  loginId : string;
  requesterName : string;
  role : Role;
  purpose : string;
  date : string;
  inTime : string;
  outTime : string;
  numSystems : option Z;  (* [None]: the field is missing *)
  status : RequestStatus;
  updatedAt : option Z
}.

(** [update({ status, updatedAt })] *)
Definition set_status (st : RequestStatus) (ts : Z) (r : t) : t :=
  mk (id r) (loginId r) (requesterName r) (role r) (purpose r) (date r)
     (inTime r) (outTime r) (numSystems r) st (Some ts).
End RequestDoc.

Module AllocationDoc.
Record t := mk {
  id : string;
  requestId : string;
  loginId : string;
  requesterName : string;
  systems : list Z;
  date : string;
  inTime : string;
  outTime : string;
  createdAt : option Z;
  createdBy : string;
  updatedAt : option Z
}.

(** [alloc.systems = ...]: the in-memory assignment of one field. *)
Definition set_systems (l : list Z) (a : t) : t :=
  mk (id a) (requestId a) (loginId a) (requesterName a) l (date a)
     (inTime a) (outTime a) (createdAt a) (createdBy a) (updatedAt a).

(** [tx.update(ref, { systems, updatedAt })] *)
Definition update_systems (l : list Z) (ts : Z) (a : t) : t :=
  mk (id a) (requestId a) (loginId a) (requesterName a) l (date a)
     (inTime a) (outTime a) (createdAt a) (createdBy a) (Some ts).
End AllocationDoc.

Module SystemDoc.
Record t := mk {
  id : string;
  systemNumber : Z;
  type : SystemType;
  status : SystemStatus
}.
End SystemDoc.

(** One relocation move, [{ moveAllocationId, from, to }]. *)
Record Move := mkMove {
  moveAllocationId : string;
  move_from : Z;
  move_to : Z
}.

#[global] Instance Move_eq_dec : EqDecision Move.
Proof. solve_decision. Defined.

Record Store := mkStore {
  requests : list RequestDoc.t;
  systems : list SystemDoc.t;
  allocations : list AllocationDoc.t
}.

(** What a call produces: one of the two result objects, or a rejected
    promise when a transaction or a write fails (nothing is written
    then). *)
Inductive Outcome :=
| Failure (reason : string)
| Success (mode : string) (chosen : list Z) (reshuffles : list Move)
| Rejects.

Definition RESERVED_I7 : nat := 2.
Definition RESERVED_I9 : nat := 3.

(** ** Time windows *)

Definition digit_value (c : Ascii.ascii) : option Z :=
  let n := Z.of_N (N_of_ascii c) in
  if bool_decide (48 <= n <= 57) then Some (n - 48) else None.

Fixpoint digits_value (acc : Z) (s : string) : option Z :=
  match s with
  | EmptyString => Some acc
  | String c s' =>
      match digit_value c with
      | Some d => digits_value (acc * 10 + d) s'
      | None => None
      end
  end.

(** [Number(s)] on the strings a time of day is made of: a run of
    decimal digits is its value and the empty string is 0.  Every other
    string is taken to [NaN] here, although JavaScript reads more of
    them as numbers: blanks around the digits, a sign, a fraction, an
    exponent, the prefixes [0x], [0o] and [0b], and [Infinity].  So
    [Some] is what the code computes, and [None] is what it computes
    on the strings that hold none of these forms; a statement whose
    hypothesis is that a time is not read as a number says so by the
    shape of the string (no colon), not by [None].  The value is the
    exact integer; a double holds it exactly below 2^53, which a run of
    up to fifteen digits stays under. *)
Definition Number (s : string) : option Z := digits_value 0 s.

(** [t.split(":")] *)
Fixpoint split_colon (cur : string) (s : string) : list string :=
  match s with
  | EmptyString => [String.rev cur]
  | String c s' =>
      if bool_decide (c = ":"%char) then String.rev cur :: split_colon EmptyString s'
      else split_colon (String c cur) s'
  end.

(** [const [h, m] = t.split(":").map(Number); return h * 60 + m;]
    A missing second component is [undefined], and the sum is [NaN]. *)
Definition toMinutes (t : string) : option Z :=
  match Number <$> split_colon EmptyString t with
  | Some h :: Some m :: _ => Some (h * 60 + m)
  | _ => None
  end.

(** [Math.max(aS, bS) < Math.min(aE, bE)]; a comparison with [NaN] is
    false. *)
Definition overlaps (aS aE bS bE : option Z) : bool :=
  match aS, aE, bS, bE with
  | Some aS, Some aE, Some bS, Some bE =>
      bool_decide (Z.max aS bS < Z.min aE bE)
  | _, _, _, _ => false
  end.

(** The window of a commitment overlaps the window [s, e). *)
Definition alloc_overlaps (s e : option Z) (a : AllocationDoc.t) : bool :=
  overlaps s e (toMinutes (AllocationDoc.inTime a))
               (toMinutes (AllocationDoc.outTime a)).

(** ** Reads *)

(** [db.doc(`requests/${requestId}`).get()] *)
Definition get_request (st : Store) (requestId : string) : option RequestDoc.t :=
  snd <$> list_find (fun r => RequestDoc.id r = requestId) (requests st).

Definition le_systemNumber (a b : SystemDoc.t) : Prop :=
  SystemDoc.systemNumber a <= SystemDoc.systemNumber b.

#[global] Instance le_systemNumber_dec a b : Decision (le_systemNumber a b).
Proof. unfold le_systemNumber. apply _. Defined.

(** [db.collection("systems").orderBy("systemNumber").get()] *)
Definition query_systems (st : Store) : list SystemDoc.t :=
  merge_sort le_systemNumber (systems st).

(** [db.collection("allocations").where("date", "==", date).get()] *)
Definition query_allocations (st : Store) (date : string) : list AllocationDoc.t :=
  filter (fun a => AllocationDoc.date a = date) (allocations st).

(** ** The reserved carve-out (lines 62-65) *)

(** [systems.filter(s => s.type === ty).map(s => s.systemNumber).sort((a,b)=>a-b)] *)
Definition typeNums (ty : SystemType) (syss : list SystemDoc.t) : list Z :=
  merge_sort Z.le
    (SystemDoc.systemNumber <$> filter (fun s => SystemDoc.type s = ty) syss).

(** [l.slice(-k)]: the last [k] entries; [slice(-0)] is [slice(0)]. *)
Definition slice_neg (k : nat) (l : list Z) : list Z :=
  match k with
  | O => l
  | _ => drop (length l - k)%nat l
  end.

Definition reservedI7 (syss : list SystemDoc.t) : gset Z :=
  list_to_set (slice_neg RESERVED_I7 (typeNums i7 syss)).
Definition reservedI9 (syss : list SystemDoc.t) : gset Z :=
  list_to_set (slice_neg RESERVED_I9 (typeNums i9 syss)).

(** [sys.type === "i7" ? reservedI7.has(n) : reservedI9.has(n)] *)
Definition isRes (syss : list SystemDoc.t) (sys : SystemDoc.t) : bool :=
  match SystemDoc.type sys with
  | i7 => bool_decide (SystemDoc.systemNumber sys ∈ reservedI7 syss)
  | i9 => bool_decide (SystemDoc.systemNumber sys ∈ reservedI9 syss)
  end.

(** ** Availability (lines 73-90) *)

(** [a.systems.forEach(n => set.add(n))] *)
Definition add_all (set : gset Z) (l : list Z) : gset Z :=
  foldl (fun acc n => {[ n ]} ∪ acc) set l.

(** The busy set of the window [s, e) (lines 73-79). *)
Definition busy (s e : option Z) (allocs : list AllocationDoc.t) : gset Z :=
  foldl (fun acc a =>
           if alloc_overlaps s e a then add_all acc (AllocationDoc.systems a)
           else acc) ∅ allocs.

(** Lines 81-88. *)
Definition nonReservedFree (syss : list SystemDoc.t) (bsy : gset Z) : list Z :=
  SystemDoc.systemNumber <$>
    filter (fun sys => (isRes syss sys = false)
                       ∧ (SystemDoc.systemNumber sys ∉ bsy)
                       ∧ (SystemDoc.status sys ≠ maintenance)) syss.

(** [Math.max(1, req.numSystems || 1)] *)
Definition need (req : RequestDoc.t) : Z :=
  Z.max 1 (match RequestDoc.numSystems req with
           | None => 1
           | Some n => if bool_decide (n = 0) then 1 else n
           end).

(** [l.length >= need] *)
Definition length_ge (l : list Z) (nd : Z) : bool :=
  bool_decide (nd <= Z.of_nat (length l)).

(** [l.slice(0, need)] *)
Definition slice0 (nd : Z) (l : list Z) : list Z := take (Z.to_nat nd) l.

(** ** The reshuffle pass (lines 112-160) *)

(** Lines 116-120: record commitment [i] under each of its resources.
    The array cells of the map hold references to the snapshot's
    objects: a reference is the object's index in [allocations]. *)
Definition index_systems (i : nat) (m : gmap Z (list nat)) (l : list Z)
  : gmap Z (list nat) :=
  foldl (fun acc n => <[ n := default [] (acc !! n) ++ [i] ]> acc) m l.

(** Lines 112-121. *)
Definition sysToOverlaps (s e : option Z) (allocs : list AllocationDoc.t)
  : gmap Z (list nat) :=
  foldl (fun acc ia =>
           if alloc_overlaps s e ia.2
           then index_systems ia.1 acc (AllocationDoc.systems ia.2)
           else acc) ∅ (imap pair allocs).

(** Lines 126-128. *)
Definition nonReservedAll (syss : list SystemDoc.t) : list Z :=
  SystemDoc.systemNumber <$> filter (fun sys => isRes syss sys = false) syss.

(** Lines 139-145: the resources of every other commitment that
    overlaps the window of [alloc] itself. *)
Definition busyForAlloc (allocs : list AllocationDoc.t) (alloc : AllocationDoc.t)
  : gset Z :=
  foldl (fun acc a =>
           if bool_decide (AllocationDoc.id a = AllocationDoc.id alloc) then acc
           else if alloc_overlaps (toMinutes (AllocationDoc.inTime alloc))
                                  (toMinutes (AllocationDoc.outTime alloc)) a
                then add_all acc (AllocationDoc.systems a)
                else acc) ∅ allocs.

(** Line 146. *)
Definition candidateTargets (nra : list Z) (bfa : gset Z) (sysNum : Z) : list Z :=
  filter (fun n => (n ∉ bfa) ∧ (n ≠ sysNum)) nra.

(** [n => (n === from ? to : n)] *)
Definition swap (from to : Z) (n : Z) : Z :=
  if bool_decide (n = from) then to else n.

(** The variables the pass mutates: the busy set, the snapshot's
    commitment objects, the moves and the chosen resources. *)
Record PlanState := mkPlan {
  ps_busy : gset Z;
  ps_allocations : list AllocationDoc.t;
  ps_reshuffles : list Move;
  ps_chosen : list Z
}.

Definition push_chosen (n : Z) (st : PlanState) : PlanState :=
  mkPlan (ps_busy st) (ps_allocations st) (ps_reshuffles st) (ps_chosen st ++ [n]).

(** Lines 148-151: the effects of one relocation of the commitment at
    index [i]. *)
Definition relocate (i : nat) (alloc : AllocationDoc.t) (sysNum target : Z)
    (st : PlanState) : PlanState :=
  mkPlan (ps_busy st ∖ {[ sysNum ]})
         (<[ i := AllocationDoc.set_systems
                    (swap sysNum target <$> AllocationDoc.systems alloc) alloc ]>
            (ps_allocations st))
         (ps_reshuffles st ++ [mkMove (AllocationDoc.id alloc) sysNum target])
         (ps_chosen st).

(** Lines 138-155: the first commitment occupying [sysNum] that has a
    target is moved; [None] when [freed] stays false. *)
Fixpoint free_system (nra : list Z) (sysNum : Z) (overlapsForSys : list nat)
    (st : PlanState) : option PlanState :=
  match overlapsForSys with
  | [] => None
  | i :: rest =>
      match ps_allocations st !! i with
      | None => free_system nra sysNum rest st
      | Some alloc =>
          match candidateTargets nra (busyForAlloc (ps_allocations st) alloc) sysNum with
          | target :: _ => Some (relocate i alloc sysNum target st)
          | [] => free_system nra sysNum rest st
          end
      end
  end.

(** Lines 130-160: the loop over the candidates still to visit. *)
Fixpoint reshuffle_loop (nd : Z) (s2o : gmap Z (list nat)) (nra : list Z)
    (todo : list Z) (st : PlanState) : PlanState :=
  match todo with
  | [] => st
  | sysNum :: rest =>
      if bool_decide (sysNum ∉ ps_busy st) then
        let st1 := push_chosen sysNum st in
        if length_ge (ps_chosen st1) nd then st1
        else reshuffle_loop nd s2o nra rest st1
      else
        match free_system nra sysNum (default [] (s2o !! sysNum)) st with
        | Some st1 =>
            let st2 := push_chosen sysNum st1 in
            if length_ge (ps_chosen st2) nd then st2
            else reshuffle_loop nd s2o nra rest st2
        | None => reshuffle_loop nd s2o nra rest st
        end
  end.

(** The state the pass ends in, from the snapshot of one request. *)
Definition reshuffle (nd : Z) (s e : option Z) (syss : list SystemDoc.t)
    (allocs : list AllocationDoc.t) : PlanState :=
  let nra := nonReservedAll syss in
  reshuffle_loop nd (sysToOverlaps s e allocs) nra nra
    (mkPlan (busy s e allocs) allocs [] []).

(** ** Writes (lines 94-108, 163-186, 190-193) *)

(** [`alloc_${req.id}_${Date.now()}`] *)
Definition planId (req : RequestDoc.t) (now : Z) : string :=
  "alloc_" +:+ RequestDoc.id req +:+ "_" +:+ pretty now.

(** The document of lines 95-106 and 173-184. *)
Definition newAllocation (req : RequestDoc.t) (now ts : Z) (chosen : list Z)
  : AllocationDoc.t :=
  AllocationDoc.mk (planId req now) (RequestDoc.id req) (RequestDoc.loginId req)
    (RequestDoc.requesterName req) chosen (RequestDoc.date req)
    (RequestDoc.inTime req) (RequestDoc.outTime req) (Some ts) "agent" None.

(** [tx.set(db.doc(`allocations/${id}`), doc)]: create or overwrite. *)
Definition set_allocation (doc : AllocationDoc.t) (allocs : list AllocationDoc.t)
  : list AllocationDoc.t :=
  match list_find (fun a => AllocationDoc.id a = AllocationDoc.id doc) allocs with
  | Some (i, _) => <[ i := doc ]> allocs
  | None => allocs ++ [doc]
  end.

(** Lines 165-170: what one turn of the loop over the moves writes.
    The document the turn reads is the stored one. *)
Definition apply_move (ts : Z) (allocs : list AllocationDoc.t) (r : Move)
  : list AllocationDoc.t :=
  match list_find (fun a => AllocationDoc.id a = moveAllocationId r) allocs with
  | None => allocs
  | Some (i, data) =>
      <[ i := AllocationDoc.update_systems
                (swap (move_from r) (move_to r) <$> AllocationDoc.systems data)
                ts data ]> allocs
  end.

(** [update(db.doc(`requests/${id}`), { status, updatedAt })]: fails on a
    document that does not exist. *)
Definition update_request (id : string) (status : RequestStatus) (ts : Z)
    (reqs : list RequestDoc.t) : option (list RequestDoc.t) :=
  match list_find (fun r => RequestDoc.id r = id) reqs with
  | None => None
  | Some (i, r) => Some (<[ i := RequestDoc.set_status status ts r ]> reqs)
  end.

(** The transaction of lines 94-108. *)
Definition commit_direct (now ts : Z) (req : RequestDoc.t) (chosen : list Z)
    (live : Store) : option Store :=
  let allocs := set_allocation (newAllocation req now ts chosen) (allocations live) in
  reqs ← update_request (RequestDoc.id req) accepted ts (requests live);
  Some (mkStore reqs (systems live) allocs).

(** Lines 164-171: the loop over the moves.  [written] tells whether
    the transaction has a write in its batch.  [tx.get] throws when it
    has one, so a turn that comes after a turn that wrote makes the
    transaction fail; a turn whose document does not exist writes
    nothing ([continue]). *)
Fixpoint replay_moves (ts : Z) (written : bool) (allocs : list AllocationDoc.t)
    (reshuffles : list Move) : option (list AllocationDoc.t) :=
  match reshuffles with
  | [] => Some allocs
  | r :: rest =>
      if written then None
      else
        match list_find (fun a => AllocationDoc.id a = moveAllocationId r) allocs with
        | None => replay_moves ts false allocs rest
        | Some _ => replay_moves ts true (apply_move ts allocs r) rest
        end
  end.

(** The transaction of lines 163-186. *)
Definition commit_reshuffle (now ts : Z) (req : RequestDoc.t) (chosen : list Z)
    (reshuffles : list Move) (live : Store) : option Store :=
  moved ← replay_moves ts false (allocations live) reshuffles;
  let allocs := set_allocation (newAllocation req now ts chosen) moved in
  reqs ← update_request (RequestDoc.id req) accepted ts (requests live);
  Some (mkStore reqs (systems live) allocs).

(** Lines 190-193. *)
Definition reject_request (ts : Z) (requestId : string) (live : Store)
  : option Store :=
  reqs ← update_request requestId rejected ts (requests live);
  Some (mkStore reqs (systems live) (allocations live)).

(** ** The engine (lines 50-195) *)

(** The window of the request, in minutes (lines 70-71). *)
Definition window_start (req : RequestDoc.t) : option Z :=
  toMinutes (RequestDoc.inTime req).
Definition window_end (req : RequestDoc.t) : option Z :=
  toMinutes (RequestDoc.outTime req).

(** The busy set and the directly-free list of a request, as the
    snapshot gives them (lines 59-88). *)
Definition snapshot_busy (snap : Store) (req : RequestDoc.t) : gset Z :=
  busy (window_start req) (window_end req)
       (query_allocations snap (RequestDoc.date req)).

Definition directly_free (snap : Store) (req : RequestDoc.t) : list Z :=
  nonReservedFree (query_systems snap) (snapshot_busy snap req).

(** The reshuffle pass on the snapshot of a request (lines 112-160). *)
Definition reshuffle_pass (snap : Store) (req : RequestDoc.t) : PlanState :=
  reshuffle (need req) (window_start req) (window_end req)
    (query_systems snap) (query_allocations snap (RequestDoc.date req)).

(** What planning decides before anything is written (lines 90-92,
    162, 187-190). *)
Inductive Plan :=
| PlanDirect (chosen : list Z)
| PlanReshuffle (chosen : list Z) (reshuffles : list Move)
| PlanNone.

Definition plan (snap : Store) (req : RequestDoc.t) : Plan :=
  let nd := need req in
  let free := directly_free snap req in
  if length_ge free nd then PlanDirect (slice0 nd free)
  else
    let st := reshuffle_pass snap req in
    if length_ge (ps_chosen st) nd
    then PlanReshuffle (slice0 nd (ps_chosen st)) (ps_reshuffles st)
    else PlanNone.

Definition agentAllocateSingle (now ts : Z) (requestId : string)
    (snap live : Store) : Outcome * Store :=
  match get_request snap requestId with
  | None => (Failure "request_not_found", live)
  | Some req =>
      if bool_decide (RequestDoc.status req ≠ pending)
      then (Failure "not_pending", live)
      else
        match plan snap req with
        | PlanDirect chosen =>
            match commit_direct now ts req chosen live with
            | Some live' => (Success "direct" chosen [], live')
            | None => (Rejects, live)
            end
        | PlanReshuffle chosen reshuffles =>
            match commit_reshuffle now ts req chosen reshuffles live with
            | Some live' => (Success "minimal_reshuffle" chosen reshuffles, live')
            | None => (Rejects, live)
            end
        | PlanNone =>
            match reject_request ts requestId live with
            | Some live' => (Failure "no_feasible_plan", live')
            | None => (Rejects, live)
            end
        end
  end.

(** A run that no other writer interleaves with. *)
Definition run (now ts : Z) (requestId : string) (st : Store) : Outcome * Store :=
  agentAllocateSingle now ts requestId st st.

(** ** The pass as a step relation

    One turn of the loop of lines 130-160 that changes the state either
    accepts a candidate that is not busy, or relocates a commitment off
    a busy candidate and accepts that candidate. *)
Inductive plan_step (nra : list Z) : PlanState → PlanState → Prop :=
| step_choose st sysNum :
    sysNum ∈ nra →
    sysNum ∉ ps_busy st →
    plan_step nra st (push_chosen sysNum st)
| step_relocate st i alloc sysNum target rest :
    sysNum ∈ nra →
    sysNum ∈ ps_busy st →
    ps_allocations st !! i = Some alloc →
    candidateTargets nra (busyForAlloc (ps_allocations st) alloc) sysNum
    = target :: rest →
    plan_step nra st (push_chosen sysNum (relocate i alloc sysNum target st)).

(** The fields of a commitment that a relocation has no business with. *)
Definition same_booking (a b : AllocationDoc.t) : Prop :=
  AllocationDoc.id a = AllocationDoc.id b
  ∧ AllocationDoc.requestId a = AllocationDoc.requestId b
  ∧ AllocationDoc.loginId a = AllocationDoc.loginId b
  ∧ AllocationDoc.requesterName a = AllocationDoc.requesterName b
  ∧ AllocationDoc.date a = AllocationDoc.date b
  ∧ AllocationDoc.inTime a = AllocationDoc.inTime b
  ∧ AllocationDoc.outTime a = AllocationDoc.outTime b
  ∧ AllocationDoc.createdAt a = AllocationDoc.createdAt b
  ∧ AllocationDoc.createdBy a = AllocationDoc.createdBy b.

(** One turn of the loop of lines 130-160 that changes the state, with
    what it does to the commitment objects spelled out.  A turn accepts
    a candidate and touches no commitment and records no move; or it
    records one move [r], of a commitment that holds the source of [r],
    and leaves in its place a commitment whose resource list is the old
    one with the source replaced by the target and whose other fields
    are the old ones, and it accepts the source. *)
Inductive pass_turn : PlanState → PlanState → Prop :=
| turn_accept st sysNum :
    pass_turn st (push_chosen sysNum st)
| turn_relocate st i a a' r :
    ps_allocations st !! i = Some a →
    moveAllocationId r = AllocationDoc.id a →
    move_from r ∈ AllocationDoc.systems a →
    move_from r ≠ move_to r →
    same_booking a a' →
    AllocationDoc.updatedAt a' = AllocationDoc.updatedAt a →
    AllocationDoc.systems a'
    = (fun n => if bool_decide (n = move_from r) then move_to r else n)
        <$> AllocationDoc.systems a →
    pass_turn st (mkPlan (ps_busy st ∖ {[ move_from r ]})
                         (<[ i := a' ]> (ps_allocations st))
                         (ps_reshuffles st ++ [r])
                         (ps_chosen st ++ [move_from r])).

(** ** Stores that differ in the stored status of their systems *)

(** The system [sys] with the status [g sys] in place of its own. *)
Definition restatus (g : SystemDoc.t → SystemStatus) (sys : SystemDoc.t)
  : SystemDoc.t :=
  SystemDoc.mk (SystemDoc.id sys) (SystemDoc.systemNumber sys)
    (SystemDoc.type sys) (g sys).

Definition restatus_store (g : SystemDoc.t → SystemStatus) (st : Store) : Store :=
  mkStore (requests st) (restatus g <$> systems st) (allocations st).

(** ** The runs of the merge sort under a map

    The stack of sorted runs that [merge_sort] keeps, mapped run by
    run. *)
Definition stack_fmap {A B : Type} (f : A → B) (st : list (option (list A)))
  : list (option (list B)) :=
  (fun o : option (list A) => (fun l : list A => f <$> l) <$> o) <$> st.

(** ** The booking invariant *)

Definition windows_overlap (a b : AllocationDoc.t) : bool :=
  alloc_overlaps (toMinutes (AllocationDoc.inTime a))
                 (toMinutes (AllocationDoc.outTime a)) b.

(** No two commitments of one date with overlapping windows share a
    resource. *)
Definition no_double_booking (allocs : list AllocationDoc.t) : Prop :=
  ∀ i j a b n,
    i ≠ j → allocs !! i = Some a → allocs !! j = Some b →
    AllocationDoc.date a = AllocationDoc.date b →
    windows_overlap a b = true →
    n ∈ AllocationDoc.systems a → n ∉ AllocationDoc.systems b.

(** The stored status of the resource numbered [n], when it has one. *)
Definition status_of (st : Store) (n : Z) : option SystemStatus :=
  SystemDoc.status <$>
    (snd <$> list_find (fun sys => SystemDoc.systemNumber sys = n) (systems st)).

(** ** The checks a guarded commit would make

    On the store as it is at commit time: a chosen resource is still
    free for the window of the request, and a commitment that is to be
    relocated is still there and still holds the resource it is moved
    away from. *)
Definition still_free (live : Store) (req : RequestDoc.t) (n : Z) : Prop :=
  n ∉ snapshot_busy live req.

Definition still_holds (live : Store) (r : Move) : Prop :=
  ∃ a, a ∈ allocations live
       ∧ AllocationDoc.id a = moveAllocationId r
       ∧ move_from r ∈ AllocationDoc.systems a.

(** ** Example stores

    A lab of four i7 workstations: 3 and 4 are the reserved top two, so
    1 and 2 are what the engine may hand out. *)

Definition workstation (n : Z) (ty : SystemType) (status : SystemStatus)
  : SystemDoc.t :=
  SystemDoc.mk ("system_" +:+ pretty n) n ty status.

Definition lab (status1 status2 : SystemStatus) : list SystemDoc.t :=
  [workstation 1 i7 status1; workstation 2 i7 status2;
   workstation 3 i7 available; workstation 4 i7 available].

(** The request [r1] for the window 10:00-11:00. *)
Definition request_r1 (numSystems : option Z) (status : RequestStatus)
  : RequestDoc.t :=
  RequestDoc.mk "r1" "u1" "Ann" STUDENT "lab work" "2025-01-10"
    "10:00" "11:00" numSystems status None.

(** A commitment of the same date. *)
Definition commitment (id : string) (l : list Z) (inTime outTime : string)
  : AllocationDoc.t :=
  AllocationDoc.mk id "r0" "u0" "Bob" l "2025-01-10" inTime outTime
    (Some 5) "agent" None.

(** Nothing is booked. *)
Definition store_idle (numSystems : option Z) (status : RequestStatus) : Store :=
  mkStore [request_r1 numSystems status] (lab available available) [].

(** Workstation 2 is booked for the window of the request, which asks
    for two workstations. *)
Definition store_contested : Store :=
  mkStore [request_r1 (Some 2) pending] (lab available available)
    [commitment "a1" [2] "10:00" "11:00"].

(** Workstation 1 is under maintenance and workstation 2 is booked. *)
Definition store_maintenance_1 : Store :=
  mkStore [request_r1 (Some 1) pending] (lab maintenance available)
    [commitment "a1" [2] "10:00" "11:00"].

(** Workstation 2 is under maintenance and workstation 1 is booked. *)
Definition store_maintenance_2 : Store :=
  mkStore [request_r1 (Some 1) pending] (lab available maintenance)
    [commitment "a1" [1] "10:00" "11:00"].

(** Both workstations are booked for the window of the request. *)
Definition store_full : Store :=
  mkStore [request_r1 (Some 1) pending] (lab available available)
    [commitment "a1" [1] "10:00" "11:00"; commitment "a2" [2] "10:00" "11:00"].

(** [store_idle] after another writer has booked workstation 1. *)
Definition store_raced : Store :=
  mkStore [request_r1 (Some 1) pending] (lab available available)
    [commitment "a9" [1] "10:00" "11:00"].

(** [store_staggered], defined below, after another writer has moved
    the commitment [a1] from workstation 1 to workstation 2. *)
Definition store_vacated : Store :=
  mkStore [request_r1 (Some 1) pending] (lab available available)
    [commitment "a1" [2] "10:00" "10:30"; commitment "a2" [2] "10:30" "11:00"].

(** A lab of five i7 workstations, 4 and 5 being the reserved top two.
    Workstations 1 and 2 are booked for the window of the request,
    which asks for three workstations. *)
Definition lab5 : list SystemDoc.t :=
  (fun n => workstation n i7 available) <$> seqZ 1 5.

Definition store_two_booked : Store :=
  mkStore [request_r1 (Some 3) pending] lab5
    [commitment "a1" [1] "10:00" "11:00"; commitment "a2" [2] "10:00" "11:00"].

(** A change of status that puts no system under maintenance:
    workstation 1 becomes [occupied] and the others [reserved]. *)
Definition status_shuffle (sys : SystemDoc.t) : SystemStatus :=
  if bool_decide (SystemDoc.systemNumber sys = 1) then occupied else reserved.

(** The lab as it is seeded: 33 workstations, 1 to 14 of type i9 and
    15 to 33 of type i7, all available. *)
Definition seeded_lab : list SystemDoc.t :=
  (fun n => workstation n (if bool_decide (n <= 14) then i9 else i7) available)
    <$> seqZ 1 33.

Definition store_seeded : Store :=
  mkStore [request_r1 (Some 3) pending] seeded_lab [].

(** The seeded lab with workstation 1 under maintenance, workstation 2
    booked for the window of the request and workstation 3 booked for
    the hour after it; the request asks for two workstations. *)
Definition store_busy_lab : Store :=
  mkStore [request_r1 (Some 2) pending]
    ((fun n => workstation n (if bool_decide (n <= 14) then i9 else i7)
                 (if bool_decide (n = 1) then maintenance else available))
       <$> seqZ 1 33)
    [commitment "a1" [2] "10:00" "11:00"; commitment "a2" [3] "11:00" "12:00"].

(** Workstation 1 is booked for the first half of the window of the
    request and workstation 2 for the second half. *)
Definition store_staggered : Store :=
  mkStore [request_r1 (Some 1) pending] (lab available available)
    [commitment "a1" [1] "10:00" "10:30"; commitment "a2" [2] "10:30" "11:00"].

(** ** Further example stores *)

(** A request for the window [inTime, outTime) of the same date. *)
Definition request_at (inTime outTime : string) (numSystems : option Z)
  : RequestDoc.t :=
  RequestDoc.mk "r1" "u1" "Ann" STUDENT "lab work" "2025-01-10"
    inTime outTime numSystems pending None.

(** Both workstations are booked from 09:00 to 12:00 and the request
    has its end before its start. *)
Definition store_inverted : Store :=
  mkStore [request_at "11:00" "10:00" (Some 1)] (lab available available)
    [commitment "a1" [1] "09:00" "12:00"; commitment "a2" [2] "09:00" "12:00"].

(** * The dashboard (src/pages/AdminDashboard.tsx)

    The dashboard keeps the systems, the allocation records of the
    selected date and the pending requests in its component state, as
    the listeners of the store deliver them, and offers the operator
    the manual allocation, the status toggles and the seeding of the
    registry.  Its allocation records are one document per system and
    per slot of the day.  Line numbers below refer to that file. *)

Module Dash.
Inductive Role := student | faculty | admin.
Inductive RequestStatus := pending | approved | rejected | cancelled.
End Dash.

#[global] Instance Dash_RequestStatus_eq_dec : EqDecision Dash.RequestStatus.
Proof. solve_decision. Defined.

Module AllocatedTo.
Record t := mk {
  loginId : string;
  name : string;
  timeSlot : string
}.
End AllocatedTo.

Module SystemRow.
Record t := mk {
  id : string;
  systemNumber : Z;
  type : SystemType;
  status : SystemStatus;
  allocatedTo : option AllocatedTo.t;  (* [None]: null or absent *)
  createdAt : option Z;
  updatedAt : option Z
}.
End SystemRow.

Module PendingRequest.
Record t := mk {
  id : string;
  requesterName : string;
  loginId : string;
  role : Dash.Role;
  purpose : string;
  date : string;
  inTime : string;
  outTime : string;
  numSystems : option Z;
  numStudents : option Z;
  submittedAt : option Z;
  status : Dash.RequestStatus;
  uid : string;
  allocatedSystems : option (list Z);
  reviewedAt : option Z;
  reviewerLoginId : option string;
  rejectionReason : option string
}.
End PendingRequest.

Module AllocationRec.
Record t := mk {
  date : string;
  slotIdx : Z;
  systemNumber : Z;
  requestId : string;
  loginId : string;
  requesterName : string;
  purpose : string;
  inTime : string;
  outTime : string;
  createdAt : option Z
}.
End AllocationRec.

(** The three collections as the dashboard writes them. *)
Record DashStore := mkDash {
  d_systems : list SystemRow.t;
  d_allocations : gmap string AllocationRec.t;
  d_requests : list PendingRequest.t
}.

(** ** Constants and helpers (lines 113-148) *)

Definition OPEN_MINUTES : Z := 8 * 60.
Definition CLOSE_MINUTES : Z := 22 * 60.
Definition SLOT_COUNT : Z := 14.
Definition SLOT_BLOCK_MIN : Z := (CLOSE_MINUTES - OPEN_MINUTES) / SLOT_COUNT.

(** [const [h, m] = hhmm.split(":").map(Number); return h * 60 + m;] *)
Definition toMin (hhmm : string) : option Z :=
  match Number <$> split_colon EmptyString hhmm with
  | Some h :: Some m :: _ => Some (h * 60 + m)
  | _ => None
  end.

(** [Math.max(aStart, bStart) < Math.min(aEnd, bEnd)] *)
Definition overlap (aStart aEnd bStart bEnd : option Z) : bool :=
  match aStart, aEnd, bStart, bEnd with
  | Some aS, Some aE, Some bS, Some bE =>
      bool_decide (Z.max aS bS < Z.min aE bE)
  | _, _, _, _ => false
  end.

(** [String(n).padStart(2, "0")] on a rendered number. *)
Definition padStart2 (s : string) : string :=
  match String.length s with
  | O => "00"
  | S O => "0" +:+ s
  | _ => s
  end.

(** The inner [fmt] of [slotLabel]: [Math.floor(t / 60)] and [t % 60],
    each padded to two characters. *)
Definition fmt (t : Z) : string :=
  padStart2 (pretty (t `div` 60)) +:+ ":" +:+ padStart2 (pretty (t `rem` 60)).

(** The bounds of slot [i]. *)
Definition slot_start (i : Z) : Z := OPEN_MINUTES + i * SLOT_BLOCK_MIN.
Definition slot_end (i : Z) : Z := slot_start i + SLOT_BLOCK_MIN.

(** [`${date}__sys${sys}__slot${slotIdx}`] *)
Definition rangeKey (date : string) (sys slotIdx : Z) : string :=
  date +:+ "__sys" +:+ pretty sys +:+ "__slot" +:+ pretty slotIdx.

(** Lines 140-150: the slots of the day that the window touches. *)
Definition slotsCovered (inTime outTime : string) : list Z :=
  filter (fun i => overlap (toMin inTime) (toMin outTime)
                     (Some (slot_start i)) (Some (slot_end i)) = true)
         (seqZ 0 SLOT_COUNT).

(** ** The component state (lines 184-230) *)

Definition le_rowNumber (a b : SystemRow.t) : Prop :=
  SystemRow.systemNumber a <= SystemRow.systemNumber b.

#[global] Instance le_rowNumber_dec a b : Decision (le_rowNumber a b).
Proof. unfold le_rowNumber. apply _. Defined.

(** The systems, ordered by sequence number. *)
Definition listen_systems (st : DashStore) : list SystemRow.t :=
  merge_sort le_rowNumber (d_systems st).

(** The allocation records of the selected date, by document name. *)
Definition listen_allocations (selectedDate : string) (st : DashStore)
  : gmap string AllocationRec.t :=
  filter (fun kv => AllocationRec.date kv.2 = selectedDate) (d_allocations st).

(** ** Availability (lines 296-330) *)

(** Lines 297-311. *)
Definition systemsUnavailableForRange (systems : list SystemRow.t)
    (allocations : gmap string AllocationRec.t)
    (date inTime outTime : string) : gset Z :=
  let span := slotsCovered inTime outTime in
  let busy0 :=
    foldl (fun acc s =>
             if bool_decide (SystemRow.status s = maintenance)
             then {[ SystemRow.systemNumber s ]} ∪ acc else acc) ∅ systems in
  foldl (fun acc rec =>
           if bool_decide (AllocationRec.date rec ≠ date) then acc
           else if bool_decide (AllocationRec.slotIdx rec ∈ span)
                then {[ AllocationRec.systemNumber rec ]} ∪ acc
                else acc)
        busy0 (snd <$> map_to_list allocations).

(** Lines 313-330. *)
Definition freeSystemsForRange (systems : list SystemRow.t)
    (allocations : gmap string AllocationRec.t)
    (date inTime outTime : string) (excludeReservedForAI : bool) : list Z :=
  let busy := systemsUnavailableForRange systems allocations date inTime outTime in
  SystemRow.systemNumber <$>
    filter (fun s => (SystemRow.systemNumber s ∉ busy)
                     ∧ ¬ (excludeReservedForAI = true ∧ SystemRow.status s = reserved)
                     ∧ (SystemRow.status s ≠ maintenance)) systems.

(** ** Writes of the dashboard (lines 232-300, 332-384) *)

(** [text.split("-")] *)
Fixpoint split_dash (cur : string) (s : string) : list string :=
  match s with
  | EmptyString => [String.rev cur]
  | String c s' =>
      if bool_decide (c = "-"%char) then String.rev cur :: split_dash EmptyString s'
      else split_dash (String c cur) s'
  end.

(** [updateDoc(doc(db, "systems", id), { ... })] and the like: the
    document named [id] is rewritten by [f]; the write fails when
    there is no such document. *)
Definition update_system (id : string) (f : SystemRow.t → SystemRow.t)
    (rows : list SystemRow.t) : option (list SystemRow.t) :=
  match list_find (fun s => SystemRow.id s = id) rows with
  | None => None
  | Some (i, s) => Some (<[ i := f s ]> rows)
  end.

(** The fields lines 345-353 write into a system document. *)
Definition mark_reserved (req : PendingRequest.t) (inTime outTime : string)
    (ts : Z) (s : SystemRow.t) : SystemRow.t :=
  SystemRow.mk (SystemRow.id s) (SystemRow.systemNumber s) (SystemRow.type s)
    reserved
    (Some (AllocatedTo.mk (PendingRequest.loginId req)
             (PendingRequest.requesterName req) (inTime +:+ "-" +:+ outTime)))
    (SystemRow.createdAt s) (Some ts).

(** Lines 343-355: one turn of the first loop.  [systems] is the
    component state; a number that no system of the state has makes
    the non-null assertion fail. *)
Definition reserve_system (systems : list SystemRow.t) (req : PendingRequest.t)
    (inTime outTime : string) (ts : Z)
    (rows : option (list SystemRow.t)) (n : Z) : option (list SystemRow.t) :=
  rows ← rows;
  '(_, sys) ← list_find (fun s => SystemRow.systemNumber s = n) systems;
  update_system (SystemRow.id sys) (mark_reserved req inTime outTime ts) rows.

(** The record lines 361-372 write for system [n] and slot [slotIdx]. *)
Definition slot_record (req : PendingRequest.t) (inTime outTime : string)
    (ts : Z) (slotIdx n : Z) : AllocationRec.t :=
  AllocationRec.mk (PendingRequest.date req) slotIdx n (PendingRequest.id req)
    (PendingRequest.loginId req) (PendingRequest.requesterName req)
    (PendingRequest.purpose req) inTime outTime (Some ts).

(** Lines 358-374: the two nested loops over the slots and the
    systems. *)
Definition write_slots (req : PendingRequest.t) (inTime outTime : string)
    (ts : Z) (span systemNumbers : list Z)
    (allocs : gmap string AllocationRec.t) : gmap string AllocationRec.t :=
  foldl (fun acc slotIdx =>
           foldl (fun acc n =>
                    <[ rangeKey (PendingRequest.date req) n slotIdx
                       := slot_record req inTime outTime ts slotIdx n ]> acc)
                 acc systemNumbers)
        allocs span.

(** The fields lines 376-381 write into the request document. *)
Definition mark_approved (systemNumbers : list Z) (reviewer : string) (ts : Z)
    (r : PendingRequest.t) : PendingRequest.t :=
  PendingRequest.mk (PendingRequest.id r) (PendingRequest.requesterName r)
    (PendingRequest.loginId r) (PendingRequest.role r) (PendingRequest.purpose r)
    (PendingRequest.date r) (PendingRequest.inTime r) (PendingRequest.outTime r)
    (PendingRequest.numSystems r) (PendingRequest.numStudents r)
    (PendingRequest.submittedAt r) Dash.approved (PendingRequest.uid r)
    (Some systemNumbers) (Some ts) (Some reviewer)
    (PendingRequest.rejectionReason r).

Definition update_pending (id : string) (f : PendingRequest.t → PendingRequest.t)
    (reqs : list PendingRequest.t) : option (list PendingRequest.t) :=
  match list_find (fun r => PendingRequest.id r = id) reqs with
  | None => None
  | Some (i, r) => Some (<[ i := f r ]> reqs)
  end.

(** Lines 333-384.  The batch takes effect as a whole; [None] is a
    rejected promise, with nothing written.  Limits of the store on the
    size of a batch are not modelled. *)
Definition writeAllocations (systems : list SystemRow.t) (reviewer : string)
    (ts : Z) (req : PendingRequest.t) (systemNumbers : list Z)
    (slotText : string) (st : DashStore) : option DashStore :=
  match split_dash EmptyString slotText with
  | inTime :: outTime :: _ =>
      let span := slotsCovered inTime outTime in
      rows ← foldl (reserve_system systems req inTime outTime ts)
                   (Some (d_systems st)) systemNumbers;
      reqs ← update_pending (PendingRequest.id req)
                (mark_approved systemNumbers reviewer ts) (d_requests st);
      Some (mkDash rows
              (write_slots req inTime outTime ts span systemNumbers
                 (d_allocations st))
              reqs)
  | _ => None
  end.

(** Lines 270-295: the two toggles write the status [on] or
    [available]; turning a status on also clears [allocatedTo]. *)
Definition toggle_fields (on : SystemStatus) (turnOn : bool) (ts : Z)
    (s : SystemRow.t) : SystemRow.t :=
  SystemRow.mk (SystemRow.id s) (SystemRow.systemNumber s) (SystemRow.type s)
    (if turnOn then on else available)
    (if turnOn then None else SystemRow.allocatedTo s)
    (SystemRow.createdAt s) (Some ts).

Definition toggle_status (on : SystemStatus) (systems : list SystemRow.t)
    (ts : Z) (systemNumber : Z) (turnOn : bool) (st : DashStore)
  : option DashStore :=
  match list_find (fun s => SystemRow.systemNumber s = systemNumber) systems with
  | None => Some st
  | Some (_, sys) =>
      rows ← update_system (SystemRow.id sys) (toggle_fields on turnOn ts)
                (d_systems st);
      Some (mkDash rows (d_allocations st) (d_requests st))
  end.

(** Lines 270-281. *)
Definition handleMaintenanceToggle := toggle_status maintenance.
(** Lines 283-294. *)
Definition handleReserveToggle := toggle_status reserved.

(** Lines 246-254: the system document the seeding writes for [i]. *)
Definition seed_row (ts : Z) (i : Z) : SystemRow.t :=
  SystemRow.mk ("system_" +:+ pretty i) i
    (if bool_decide (i <= 14) then i9 else i7) available None (Some ts) (Some ts).

(** Lines 233-258: nothing is written when the registry has a
    document. *)
Definition seedSystems (ts : Z) (st : DashStore) : DashStore :=
  match d_systems st with
  | [] => mkDash (seed_row ts <$> seqZ 1 33) (d_allocations st) (d_requests st)
  | _ :: _ => st
  end.

(** The label of slot [i] (lines 125-135). *)
Definition slotLabel (i : Z) : string :=
  fmt (slot_start i) +:+ "–" +:+ fmt (slot_end i).

(** ** Example state of the dashboard *)

Definition row (n : Z) (ty : SystemType) (status : SystemStatus) : SystemRow.t :=
  SystemRow.mk ("system_" +:+ pretty n) n ty status None (Some 1) (Some 1).

(** The pending request [q1] for 2025-01-10, 10:00 to 12:30. *)
Definition pending_q1 : PendingRequest.t :=
  PendingRequest.mk "q1" "Ann" "u1" Dash.student "lab work" "2025-01-10"
    "10:00" "12:30" (Some 2) None (Some 3) Dash.pending "uid1" None None None
    None.

(** Three systems, the third under maintenance, and one record: system
    2 is booked in slot 2 (10:00 to 11:00) of 2025-01-10. *)
Definition dash_store : DashStore :=
  mkDash [row 1 i9 available; row 2 i9 available; row 3 i7 maintenance]
    {[ rangeKey "2025-01-10" 2 2
       := AllocationRec.mk "2025-01-10" 2 2 "q0" "u0" "Bob" "thesis"
            "10:00" "11:00" (Some 2) ]}
    [pending_q1].

(** Every slot record is stored under the name [rangeKey] gives to its
    date, system and slot. *)
Definition keyed (allocations : gmap string AllocationRec.t) : Prop :=
  ∀ k rec, allocations !! k = Some rec →
    k = rangeKey (AllocationRec.date rec) (AllocationRec.systemNumber rec)
          (AllocationRec.slotIdx rec).

(** The systems [rows] with [f] applied to the documents whose
    sequence number is in [systemNumbers]. *)
Definition update_numbered (systemNumbers : list Z)
    (f : SystemRow.t → SystemRow.t) (rows : list SystemRow.t)
  : list SystemRow.t :=
  (fun r => if bool_decide (SystemRow.systemNumber r ∈ systemNumbers)
            then f r else r) <$> rows.

(** The component state [systems] names the documents of the store and
    their sequence numbers. *)
Definition in_sync (systems rows : list SystemRow.t) : Prop :=
  (fun s => (SystemRow.id s, SystemRow.systemNumber s)) <$> systems
  ≡ₚ (fun s => (SystemRow.id s, SystemRow.systemNumber s)) <$> rows.

(** No two system documents share a name or a sequence number. *)
Definition registry_ok (rows : list SystemRow.t) : Prop :=
  NoDup (SystemRow.id <$> rows) ∧ NoDup (SystemRow.systemNumber <$> rows).

(** ** The manual allocation (lines 409-482) and the race guard (lines 528-540) *)

(** [\d] *)
Definition is_digit (c : Ascii.ascii) : bool :=
  bool_decide (48 <= Z.of_N (N_of_ascii c) <= 57).

(** [/^\d{2}:\d{2}-\d{2}:\d{2}$/.test(allocTime)] *)
Definition slot_pattern (allocTime : string) : bool :=
  match String.list_ascii_of_string allocTime with
  | [h1; h2; c1; m1; m2; d; h3; h4; c2; m3; m4] =>
      is_digit h1 && is_digit h2 && bool_decide (c1 = ":"%char)
      && is_digit m1 && is_digit m2 && bool_decide (d = "-"%char)
      && is_digit h3 && is_digit h4 && bool_decide (c2 = ":"%char)
      && is_digit m3 && is_digit m4
  | _ => false
  end.

(** Line 429: the numbers that no system of the state has. *)
Definition missing (systems : list SystemRow.t) (nums : list Z) : list Z :=
  filter (fun n => ¬ Exists (fun s => SystemRow.systemNumber s = n) systems) nums.

(** Lines 440-442: the numbers with a record, in the state, under the
    name of one of the cells. *)
Definition conflicts (allocations : gmap string AllocationRec.t)
    (date : string) (nums span : list Z) : list Z :=
  filter (fun n => Exists (fun i => is_Some (allocations !! rangeKey date n i)) span)
         nums.

(** Lines 443-445: [systems.find(...)?.status === "maintenance"]. *)
Definition under_maintenance (systems : list SystemRow.t) (n : Z) : bool :=
  match list_find (fun s => SystemRow.systemNumber s = n) systems with
  | Some (_, s) => bool_decide (SystemRow.status s = maintenance)
  | None => false
  end.

Definition maint (systems : list SystemRow.t) (nums : list Z) : list Z :=
  filter (fun n => under_maintenance systems n = true) nums.

(** Lines 529-532: the systems chosen that have no record, in the
    state, under the name of one of the cells. *)
Definition race_guard (allocations : gmap string AllocationRec.t)
    (date : string) (chosen span : list Z) : list Z :=
  filter (fun n => ¬ Exists (fun i => is_Some (allocations !! rangeKey date n i)) span)
         chosen.

(** The messages of the manual allocation. *)
Inductive Toast :=
  | EnterSystemNumbers
  | InvalidSlot
  | InvalidSystems (missing : list Z)
  | MaintenanceSystemsSelected (maint : list Z)
  | SlotConflict (conflicts : list Z)
  | AllocatedManual
  | AllocateFailed.

(** Lines 409-482.  [nums] is what [parseSystems] makes of the text of
    the dialog.  The message and the store afterwards; no message when
    there is no target.  A slot text that passes the pattern has a
    dash, so the last case is not reached. *)
Definition handleAllocateConfirm (systems : list SystemRow.t)
    (allocations : gmap string AllocationRec.t) (reviewer : string) (ts : Z)
    (allocTarget : option PendingRequest.t) (nums : list Z)
    (allocTime : string) (st : DashStore) : option Toast * DashStore :=
  match allocTarget with
  | None => (None, st)
  | Some target =>
      if bool_decide (length nums = 0%nat) then (Some EnterSystemNumbers, st)
      else if negb (slot_pattern allocTime) then (Some InvalidSlot, st)
      else if bool_decide (length (missing systems nums) ≠ 0%nat)
      then (Some (InvalidSystems (missing systems nums)), st)
      else
        match split_dash EmptyString allocTime with
        | inTime :: outTime :: _ =>
            let span := slotsCovered inTime outTime in
            let conflicts :=
              conflicts allocations (PendingRequest.date target) nums span in
            let maint := maint systems nums in
            if bool_decide (length maint ≠ 0%nat)
            then (Some (MaintenanceSystemsSelected maint), st)
            else if bool_decide (length conflicts ≠ 0%nat)
            then (Some (SlotConflict conflicts), st)
            else
              match writeAllocations systems reviewer ts target nums allocTime st with
              | Some st' => (Some AllocatedManual, st')
              | None => (Some AllocateFailed, st)
              end
        | _ => (None, st)
        end
  end.

(** Every record of the store carries a date of [len] characters. *)
Definition dated (len : nat) (allocations : gmap string AllocationRec.t) : Prop :=
  ∀ k rec, allocations !! k = Some rec →
    String.length (AllocationRec.date rec) = len.

(** The request [q2] for the same day as [q1], 10:00 to 11:00. *)
Definition pending_q2 : PendingRequest.t :=
  PendingRequest.mk "q2" "Cy" "u2" Dash.faculty "exam" "2025-01-10"
    "10:00" "11:00" (Some 1) None (Some 4) Dash.pending "uid2" None None None
    None.

Definition dash_store_2 : DashStore :=
  mkDash (d_systems dash_store) (d_allocations dash_store) [pending_q1; pending_q2].

(** ** The automatic rejection (lines 559-573) *)

(** The fields lines 563-569 write into a request document. *)
Definition mark_rejected (reviewer : string) (ts : Z) (r : PendingRequest.t)
  : PendingRequest.t :=
  PendingRequest.mk (PendingRequest.id r) (PendingRequest.requesterName r)
    (PendingRequest.loginId r) (PendingRequest.role r) (PendingRequest.purpose r)
    (PendingRequest.date r) (PendingRequest.inTime r) (PendingRequest.outTime r)
    (PendingRequest.numSystems r) (PendingRequest.numStudents r)
    (PendingRequest.submittedAt r) Dash.rejected (PendingRequest.uid r)
    (PendingRequest.allocatedSystems r) (Some ts) (Some reviewer)
    (Some "All systems are under maintenance for the selected day.").

(** One [updateDoc] of the loop: a write of its own, at the time [ts];
    when the document is missing it fails and the others go on. *)
Definition reject_one (reviewer : string) (ts : PendingRequest.t → Z)
    (st : DashStore) (r : PendingRequest.t) : DashStore :=
  match update_pending (PendingRequest.id r) (mark_rejected reviewer (ts r))
          (d_requests st) with
  | Some reqs => mkDash (d_systems st) (d_allocations st) reqs
  | None => st
  end.

(** The effect on a change of the systems of the state. *)
Definition auto_reject (systems : list SystemRow.t)
    (pendingRequests : list PendingRequest.t) (reviewer : string)
    (ts : PendingRequest.t → Z) (st : DashStore) : DashStore :=
  if bool_decide (length systems = 33%nat)
     && bool_decide (Forall (fun s => SystemRow.status s = maintenance) systems)
  then foldl (reject_one reviewer ts) st pendingRequests
  else st.

(** ** The overview and the cells of the schedule (lines 575-634) *)

Module Stats.
Record t := mk {
  total : nat;
  avail : nat;
  occ : nat;
  res : nat;
  mnt : nat;
  pend : nat
}.
End Stats.

Definition count_status (status : SystemStatus) (systems : list SystemRow.t) : nat :=
  length (filter (fun s => SystemRow.status s = status) systems).

(** Lines 576-586; [systems.length || 33]. *)
Definition stats (systems : list SystemRow.t)
    (pendingRequests : list PendingRequest.t) : Stats.t :=
  Stats.mk (if bool_decide (length systems = 0%nat) then 33%nat else length systems)
    (count_status available systems) (count_status occupied systems)
    (count_status reserved systems) (count_status maintenance systems)
    (length pendingRequests).

Inductive CellKind := cell_empty | cell_maintenance | cell_reserved | cell_available.

Module Cell.
Record t := mk {
  kind : CellKind;
  label : string;
  cls : string
}.
End Cell.

(** Lines 615-634. *)
Definition cellInfo (systems : list SystemRow.t)
    (allocations : gmap string AllocationRec.t) (selectedDate : string)
    (sysNum slotIdx : Z) : Cell.t :=
  let id := rangeKey selectedDate sysNum slotIdx in
  let rec := allocations !! id in
  match list_find (fun s => SystemRow.systemNumber s = sysNum) systems with
  | None => Cell.mk cell_empty "—" "bg-muted/30"
  | Some (_, sys) =>
      if bool_decide (SystemRow.status sys = maintenance)
      then Cell.mk cell_maintenance "Maint." "bg-slate-500 text-white"
      else match rec with
           | Some rec => Cell.mk cell_reserved (AllocationRec.loginId rec)
                           "bg-amber-500 text-white"
           | None => Cell.mk cell_available "Free" "bg-emerald-500/15"
           end
  end.

(** The 33 systems, all under maintenance, and two pending requests. *)
Definition dash_store_down : DashStore :=
  mkDash ((fun n => row n (if bool_decide (n <= 14) then i9 else i7) maintenance)
            <$> seqZ 1 33)
    ∅ [pending_q1; pending_q2].

(** * Properties *)

(** ** Sets built by the loops *)

Lemma elem_of_add_all (n : Z) (l : list Z) (set : gset Z) :
  n ∈ add_all set l ↔ n ∈ set ∨ n ∈ l.
Proof.
  unfold add_all. revert set.
  induction l as [|x l IH]; intros set; simpl.
  - set_solver.
  - rewrite IH. set_solver.
Qed.

Lemma elem_of_busy_from (s e : option Z) (n : Z) (allocs : list AllocationDoc.t)
    (acc : gset Z) :
  n ∈ foldl (fun acc a =>
               if alloc_overlaps s e a then add_all acc (AllocationDoc.systems a)
               else acc) acc allocs
  ↔ n ∈ acc ∨ ∃ a, a ∈ allocs ∧ alloc_overlaps s e a = true
                   ∧ n ∈ AllocationDoc.systems a.
Proof.
  revert acc. induction allocs as [|a allocs IH]; intros acc; simpl.
  - split; [auto | intros [?|(a & Ha & _)]; [done | by apply elem_of_nil in Ha]].
  - rewrite IH. destruct (alloc_overlaps s e a) eqn:Hov.
    + rewrite elem_of_add_all. split.
      * intros [[?|?]|(b & ? & ? & ?)]; [by left | | ].
        -- right. exists a. split_and!; [apply elem_of_cons; by left | done | done].
        -- right. exists b. split_and!; [apply elem_of_cons; by right | done | done].
      * intros [?|(b & Hb & ? & ?)]; [by left; left | ].
        apply elem_of_cons in Hb as [->|Hb]; [by left; right | ].
        right. by exists b.
    + split.
      * intros [?|(b & ? & ? & ?)]; [by left | ].
        right. exists b. split_and!; [apply elem_of_cons; by right | done | done].
      * intros [?|(b & Hb & Hb' & ?)]; [by left | ].
        apply elem_of_cons in Hb as [->|Hb]; [congruence | ].
        right. by exists b.
Qed.

(** The busy set holds exactly the resources of the commitments that
    overlap the window. *)
Lemma elem_of_busy (s e : option Z) (n : Z) (allocs : list AllocationDoc.t) :
  n ∈ busy s e allocs
  ↔ ∃ a, a ∈ allocs ∧ alloc_overlaps s e a = true ∧ n ∈ AllocationDoc.systems a.
Proof.
  unfold busy. rewrite elem_of_busy_from. set_solver.
Qed.

(** ** The reads *)

Lemma get_request_Some (st : Store) (requestId : string) (req : RequestDoc.t) :
  get_request st requestId = Some req →
  RequestDoc.id req = requestId ∧ req ∈ requests st.
Proof.
  unfold get_request. intros H.
  destruct (list_find _ _) as [[i r]|] eqn:Hf; simplify_eq/=.
  apply list_find_Some in Hf as (Hi & Hid & _).
  split; [done | by eapply list_elem_of_lookup_2].
Qed.

Lemma le_systemNumber_trans : Transitive le_systemNumber.
Proof. unfold le_systemNumber. intros x y z. lia. Qed.

Lemma le_systemNumber_total : Total le_systemNumber.
Proof. unfold le_systemNumber. intros x y. lia. Qed.

Lemma StronglySorted_sublist {A} (R : relation A) (l k : list A) :
  sublist l k → StronglySorted R k → StronglySorted R l.
Proof.
  induction 1 as [|x l k Hs IH|x l k Hs IH]; intros Hk.
  - constructor.
  - apply StronglySorted_inv in Hk as [Hk Hx]. constructor; [by apply IH | ].
    apply Forall_forall. intros y Hy.
    eapply Forall_forall in Hx; [exact Hx | ].
    eapply elem_of_sublist; [exact Hy| exact Hs].
  - apply StronglySorted_inv in Hk as [Hk _]. by apply IH.
Qed.

(** The systems come back in ascending order of their sequence number. *)
Lemma query_systems_sorted (st : Store) :
  StronglySorted le_systemNumber (query_systems st).
Proof.
  apply StronglySorted_merge_sort;
    [apply le_systemNumber_trans | apply le_systemNumber_total].
Qed.

Lemma elem_of_query_systems (st : Store) (sys : SystemDoc.t) :
  sys ∈ query_systems st ↔ sys ∈ systems st.
Proof. unfold query_systems. by rewrite merge_sort_Permutation. Qed.

(** The directly-free list is in ascending order of sequence number,
    whatever busy set it is computed against. *)
Lemma nonReservedFree_sorted (st : Store) (bsy : gset Z) :
  StronglySorted Z.le (nonReservedFree (query_systems st) bsy).
Proof.
  unfold nonReservedFree.
  apply (StronglySorted_fmap _ le_systemNumber); [by unfold le_systemNumber | ].
  eapply StronglySorted_sublist; [apply sublist_filter | apply query_systems_sorted].
Qed.

Lemma elem_of_nonReservedFree (syss : list SystemDoc.t) (bsy : gset Z) (n : Z) :
  n ∈ nonReservedFree syss bsy
  ↔ ∃ sys, sys ∈ syss ∧ SystemDoc.systemNumber sys = n
           ∧ isRes syss sys = false ∧ (n ∉ bsy)
           ∧ SystemDoc.status sys ≠ maintenance.
Proof.
  unfold nonReservedFree. rewrite list_elem_of_fmap. split.
  - intros (sys & -> & Hf). apply list_elem_of_filter in Hf as ((? & ? & ?) & ?).
    by exists sys.
  - intros (sys & ? & <- & ? & ? & ?). exists sys. split; [done | ].
    by apply list_elem_of_filter.
Qed.

Lemma elem_of_nonReservedAll (syss : list SystemDoc.t) (n : Z) :
  n ∈ nonReservedAll syss
  ↔ ∃ sys, sys ∈ syss ∧ SystemDoc.systemNumber sys = n ∧ isRes syss sys = false.
Proof.
  unfold nonReservedAll. rewrite list_elem_of_fmap. split.
  - intros (sys & -> & Hf). apply list_elem_of_filter in Hf as (? & ?).
    by exists sys.
  - intros (sys & ? & <- & ?). exists sys. split; [done | ].
    by apply list_elem_of_filter.
Qed.

(** ** The request document under the writes *)

Lemma update_request_Some (live : Store) (requestId : string) (r : RequestDoc.t)
    (status : RequestStatus) (ts : Z) :
  get_request live requestId = Some r →
  ∃ i, requests live !! i = Some r
       ∧ update_request requestId status ts (requests live)
         = Some (<[ i := RequestDoc.set_status status ts r ]> (requests live))
       ∧ ∀ syss allocs,
           get_request
             (mkStore (<[ i := RequestDoc.set_status status ts r ]> (requests live))
                      syss allocs) requestId
           = Some (RequestDoc.set_status status ts r).
Proof.
  unfold get_request, update_request. intros H.
  destruct (list_find _ (requests live)) as [[i r']|] eqn:Hf; simplify_eq/=.
  pose proof Hf as (Hi & Hid & Hbefore)%list_find_Some.
  exists i. split_and!; [done | done | ]. intros _ _. simpl.
  set (r' := RequestDoc.set_status status ts r).
  assert (list_find (fun x => RequestDoc.id x = requestId)
            (<[i:=r']> (requests live)) = Some (i, r')) as ->; [ | done].
  apply list_find_insert_Some. right. left.
  split_and!; [done | done | by eapply lookup_lt_Some | done | ].
  intros j z Hz Hj. by eapply Hbefore.
Qed.

Lemma update_request_None (live : Store) (requestId : string)
    (status : RequestStatus) (ts : Z) :
  get_request live requestId = None →
  update_request requestId status ts (requests live) = None.
Proof.
  unfold get_request, update_request. intros H.
  by destruct (list_find _ (requests live)) as [[i r']|].
Qed.

(** ** C7: the two guards *)

Lemma guard_not_found (now ts : Z) (requestId : string) (snap live : Store) :
  get_request snap requestId = None →
  agentAllocateSingle now ts requestId snap live
  = (Failure "request_not_found", live).
Proof. intros H. unfold agentAllocateSingle. by rewrite H. Qed.

Lemma guard_not_pending (now ts : Z) (requestId : string) (snap live : Store)
    (req : RequestDoc.t) :
  get_request snap requestId = Some req →
  RequestDoc.status req ≠ pending →
  agentAllocateSingle now ts requestId snap live = (Failure "not_pending", live).
Proof.
  intros H Hs. unfold agentAllocateSingle. rewrite H.
  by rewrite bool_decide_eq_true_2.
Qed.

(** A run that ends in an allocation or in the infeasible verdict
    leaves the request out of [pending]. *)
Lemma run_leaves_pending (now ts : Z) (requestId : string) (st st' : Store)
    (out : Outcome) :
  run now ts requestId st = (out, st') →
  (∃ mode chosen moves, out = Success mode chosen moves)
  ∨ out = Failure "no_feasible_plan" →
  ∃ r, get_request st' requestId = Some r
       ∧ RequestDoc.status r = match out with
                               | Success _ _ _ => accepted
                               | _ => rejected
                               end.
Proof.
  unfold run, agentAllocateSingle. intros Hrun Hout.
  destruct (get_request st requestId) as [req|] eqn:Hreq.
  2:{ simplify_eq. destruct Hout as [(? & ? & ? & ?)|?]; done. }
  destruct (get_request_Some _ _ _ Hreq) as [Hid _].
  case_bool_decide.
  { simplify_eq. destruct Hout as [(? & ? & ? & ?)|?]; done. }
  destruct (plan st req) as [chosen|chosen moves|].
  - unfold commit_direct in Hrun. rewrite Hid in Hrun.
    destruct (update_request_Some st requestId req accepted ts Hreq)
      as (i & _ & Hupd & Hget).
    rewrite Hupd in Hrun. simpl in Hrun. simplify_eq. eexists. split; [apply Hget | done].
  - unfold commit_reshuffle in Hrun. rewrite Hid in Hrun.
    destruct (update_request_Some st requestId req accepted ts Hreq)
      as (i & _ & Hupd & Hget).
    rewrite Hupd in Hrun.
    destruct (replay_moves ts false (allocations st) moves) as [moved|];
      simpl in Hrun; simplify_eq.
    + eexists. split; [apply Hget | done].
    + destruct Hout as [(? & ? & ? & ?)|?]; done.
  - unfold reject_request in Hrun.
    destruct (update_request_Some st requestId req rejected ts Hreq)
      as (i & _ & Hupd & Hget).
    rewrite Hupd in Hrun. simpl in Hrun. simplify_eq. eexists. split; [apply Hget | done].
Qed.

(** C7.  A request identifier that resolves to no stored request gives
    the failure [request_not_found] and the store is left as it was; a
    stored request that is not pending gives [not_pending] and the store
    is left as it was; hence a second call after a completed attempt
    (an allocation or the infeasible verdict) gives [not_pending] and
    writes nothing. *)
Theorem guards_report_and_write_nothing
    (now ts now' ts' : Z) (requestId : string) (snap live : Store) :
  (get_request snap requestId = None →
   agentAllocateSingle now ts requestId snap live
   = (Failure "request_not_found", live))
  ∧ (∀ req, get_request snap requestId = Some req →
            RequestDoc.status req ≠ pending →
            agentAllocateSingle now ts requestId snap live
            = (Failure "not_pending", live))
  ∧ (∀ out st',
       run now ts requestId snap = (out, st') →
       (∃ mode chosen moves, out = Success mode chosen moves)
       ∨ out = Failure "no_feasible_plan" →
       run now' ts' requestId st' = (Failure "not_pending", st')).
Proof.
  split_and!.
  - apply guard_not_found.
  - intros req. apply guard_not_pending.
  - intros out st' Hrun Hout.
    destruct (run_leaves_pending _ _ _ _ _ _ Hrun Hout) as (r & Hr & Hs).
    unfold run. eapply guard_not_pending; [exact Hr | ].
    rewrite Hs. by destruct out.
Qed.

Lemma guards_report_and_write_nothing_witness :
  agentAllocateSingle 1000 7 "r2" (store_idle (Some 1) pending) store_raced
  = (Failure "request_not_found", store_raced)
  ∧ agentAllocateSingle 1000 7 "r1" (store_idle (Some 1) accepted) store_raced
    = (Failure "not_pending", store_raced)
  ∧ ∃ st', run 1000 7 "r1" (store_idle (Some 1) pending)
           = (Success "direct" [1] [], st')
           ∧ run 2000 8 "r1" st' = (Failure "not_pending", st').
Proof.
  split_and!.
  - apply (proj1 (guards_report_and_write_nothing 1000 7 2000 8 "r2"
                    (store_idle (Some 1) pending) store_raced)).
    vm_compute. reflexivity.
  - eapply (proj1 (proj2 (guards_report_and_write_nothing 1000 7 2000 8 "r1"
                            (store_idle (Some 1) accepted) store_raced))).
    + vm_compute. reflexivity.
    + vm_compute. discriminate.
  - eexists. split; [vm_compute; reflexivity | ].
    eapply (proj2 (proj2 (guards_report_and_write_nothing 1000 7 2000 8 "r1"
                            (store_idle (Some 1) pending)
                            (store_idle (Some 1) pending)))).
    + vm_compute. reflexivity.
    + left. eexists _, _, _. reflexivity.
Defined.

(** ** C6: the infeasible verdict *)

Lemma length_ge_false (l : list Z) (nd : Z) :
  length_ge l nd = false ↔ Z.of_nat (length l) < nd.
Proof. unfold length_ge. rewrite bool_decide_eq_false. lia. Qed.

Lemma length_ge_true (l : list Z) (nd : Z) :
  length_ge l nd = true ↔ nd <= Z.of_nat (length l).
Proof. unfold length_ge. by rewrite bool_decide_eq_true. Qed.

(** C6.  When neither the directly-free list nor the reshuffle pass
    reaches the demand of a pending request, the call fails with
    [no_feasible_plan].  The request document is replaced by a document
    with the status [rejected], the time stamp of the write, and every
    other field as it was; the commitments and the systems of the store
    are left as they were: no commitment is written and no relocation
    is applied. *)
Theorem infeasible_rejects_and_writes_no_commitment
    (now ts : Z) (requestId : string) (st : Store) (req : RequestDoc.t) :
  get_request st requestId = Some req →
  RequestDoc.status req = pending →
  Z.of_nat (length (directly_free st req)) < need req →
  Z.of_nat (length (ps_chosen (reshuffle_pass st req))) < need req →
  ∃ i st' doc,
    run now ts requestId st = (Failure "no_feasible_plan", st')
    ∧ requests st !! i = Some req
    ∧ requests st' = <[ i := doc ]> (requests st)
    ∧ get_request st' requestId = Some doc
    ∧ RequestDoc.status doc = rejected
    ∧ RequestDoc.updatedAt doc = Some ts
    ∧ RequestDoc.id doc = RequestDoc.id req
    ∧ RequestDoc.loginId doc = RequestDoc.loginId req
    ∧ RequestDoc.requesterName doc = RequestDoc.requesterName req
    ∧ RequestDoc.role doc = RequestDoc.role req
    ∧ RequestDoc.purpose doc = RequestDoc.purpose req
    ∧ RequestDoc.date doc = RequestDoc.date req
    ∧ RequestDoc.inTime doc = RequestDoc.inTime req
    ∧ RequestDoc.outTime doc = RequestDoc.outTime req
    ∧ RequestDoc.numSystems doc = RequestDoc.numSystems req
    ∧ allocations st' = allocations st
    ∧ systems st' = systems st.
Proof.
  intros Hreq Hpend Hfree Hpass.
  unfold run, agentAllocateSingle, plan. rewrite Hreq.
  rewrite bool_decide_eq_false_2 by (by intros []).
  rewrite (proj2 (length_ge_false _ _) Hfree).
  rewrite (proj2 (length_ge_false _ _) Hpass).
  destruct (update_request_Some st requestId req rejected ts Hreq)
    as (i & Hi & Hupd & Hget).
  unfold reject_request. rewrite Hupd. simpl.
  exists i. eexists. exists (RequestDoc.set_status rejected ts req).
  split_and!; try reflexivity; [done | apply Hget].
Qed.

Lemma infeasible_rejects_and_writes_no_commitment_witness :
  ∃ st', run 1000 7 "r1" store_full = (Failure "no_feasible_plan", st')
         ∧ RequestDoc.status <$> requests st' = [rejected]
         ∧ allocations st' = allocations store_full.
Proof.
  destruct (infeasible_rejects_and_writes_no_commitment 1000 7 "r1"
              store_full (request_r1 (Some 1) pending))
    as (i & st' & doc & Hrun & Hi & Hreqs & _ & Hstatus & _ & _ & _ & _ & _ & _
        & _ & _ & _ & _ & Hallocs & _).
  - vm_compute. reflexivity.
  - reflexivity.
  - vm_compute. reflexivity.
  - vm_compute. reflexivity.
  - exists st'. split_and!; [exact Hrun | | exact Hallocs].
    rewrite Hreqs. destruct i as [|i]; [ | destruct i; discriminate Hi].
    simpl. by rewrite Hstatus.
Defined.

(** ** C9: the effective demand *)

Lemma need_ge_1 (req : RequestDoc.t) : 1 <= need req.
Proof. unfold need. lia. Qed.

Lemma slice0_length (nd : Z) (l : list Z) :
  1 <= nd → length_ge l nd = true → Z.of_nat (length (slice0 nd l)) = nd.
Proof.
  intros Hnd Hge%length_ge_true. unfold slice0. rewrite length_take. lia.
Qed.

Lemma plan_chosen_length (snap : Store) (req : RequestDoc.t) :
  match plan snap req with
  | PlanDirect chosen | PlanReshuffle chosen _ =>
      Z.of_nat (length chosen) = need req
  | PlanNone => True
  end.
Proof.
  unfold plan.
  destruct (length_ge (directly_free snap req) (need req)) eqn:Hfree.
  - apply slice0_length; [apply need_ge_1 | done].
  - destruct (length_ge (ps_chosen (reshuffle_pass snap req)) (need req)) eqn:Hpass.
    + apply slice0_length; [apply need_ge_1 | done].
    + done.
Qed.

(** What a successful call returns is what planning decided. *)
Lemma success_is_planned (now ts : Z) (requestId : string) (snap live st' : Store)
    (mode : string) (chosen : list Z) (moves : list Move) :
  agentAllocateSingle now ts requestId snap live = (Success mode chosen moves, st') →
  ∃ req, get_request snap requestId = Some req
         ∧ RequestDoc.status req = pending
         ∧ ((mode = "direct" ∧ moves = [] ∧ plan snap req = PlanDirect chosen
             ∧ commit_direct now ts req chosen live = Some st')
            ∨ (mode = "minimal_reshuffle"
               ∧ plan snap req = PlanReshuffle chosen moves
               ∧ commit_reshuffle now ts req chosen moves live = Some st')).
Proof.
  unfold agentAllocateSingle. intros H.
  destruct (get_request snap requestId) as [req|]; [ | done].
  case_bool_decide as Hst; [done | ].
  exists req. split; [done | ].
  split; [by destruct (decide (RequestDoc.status req = pending)) | ].
  destruct (plan snap req) as [c|c m|].
  - destruct (commit_direct now ts req c live) eqn:Hc; simplify_eq.
    left. done.
  - destruct (commit_reshuffle now ts req c m live) eqn:Hc; simplify_eq.
    right. done.
  - by destruct (reject_request ts requestId live).
Qed.

(** C9.  The demand the engine works with is [max(1, numSystems)]: one
    when the field is missing, zero or negative, the field otherwise;
    and every successful call returns exactly that many resources. *)
Theorem effective_demand_is_max_1 (req : RequestDoc.t) :
  need req = match RequestDoc.numSystems req with
             | Some n => Z.max 1 n
             | None => 1
             end
  ∧ (∀ n, RequestDoc.numSystems req = Some n → n <= 0 → need req = 1)
  ∧ (∀ now ts requestId snap live mode chosen moves st',
       get_request snap requestId = Some req →
       agentAllocateSingle now ts requestId snap live
       = (Success mode chosen moves, st') →
       Z.of_nat (length chosen) = need req).
Proof.
  split_and!.
  - unfold need. destruct (RequestDoc.numSystems req) as [n|]; [ | done].
    case_bool_decide; lia.
  - intros n Hn Hle. unfold need. rewrite Hn. case_bool_decide; lia.
  - intros now ts requestId snap live mode chosen moves st' Hreq Hrun.
    apply success_is_planned in Hrun as (req' & Hreq' & _ & Hplan).
    assert (req' = req) as -> by congruence.
    pose proof (plan_chosen_length snap req) as Hlen.
    destruct Hplan as [(_ & _ & Hp & _)|(_ & Hp & _)]; by rewrite Hp in Hlen.
Qed.

Lemma effective_demand_is_max_1_witness :
  need (request_r1 (Some (-3)) pending) = 1
  ∧ ∃ chosen moves st',
      run 1000 7 "r1" (store_idle (Some (-3)) pending)
      = (Success "direct" chosen moves, st')
      ∧ Z.of_nat (length chosen) = 1.
Proof.
  split.
  - apply (proj1 (proj2 (effective_demand_is_max_1
                           (request_r1 (Some (-3)) pending))) (-3)).
    + reflexivity.
    + lia.
  - eexists _, _, _. split; [vm_compute; reflexivity | ].
    apply (proj2 (proj2 (effective_demand_is_max_1
                           (request_r1 (Some (-3)) pending)))
             1000 7 "r1" (store_idle (Some (-3)) pending)
             (store_idle (Some (-3)) pending) "direct" [1] []
             (run 1000 7 "r1" (store_idle (Some (-3)) pending)).2).
    + vm_compute. reflexivity.
    + vm_compute. reflexivity.
Defined.

(** ** The reshuffle pass, step by step *)

Lemma free_system_Some (nra : list Z) (sysNum : Z) (overlapsForSys : list nat)
    (st st' : PlanState) :
  free_system nra sysNum overlapsForSys st = Some st' →
  ∃ i alloc target rest,
    i ∈ overlapsForSys
    ∧ ps_allocations st !! i = Some alloc
    ∧ candidateTargets nra (busyForAlloc (ps_allocations st) alloc) sysNum
      = target :: rest
    ∧ st' = relocate i alloc sysNum target st.
Proof.
  induction overlapsForSys as [|i ovl IH]; simpl; [done | ].
  intros H.
  assert (free_system nra sysNum ovl st = Some st' →
          ∃ i0 alloc target rest,
            i0 ∈ i :: ovl ∧ ps_allocations st !! i0 = Some alloc
            ∧ candidateTargets nra (busyForAlloc (ps_allocations st) alloc) sysNum
              = target :: rest
            ∧ st' = relocate i0 alloc sysNum target st) as Hrest.
  { intros (i0 & alloc & target & rest & Hi0 & ?)%IH.
    exists i0, alloc, target, rest. split; [by apply elem_of_cons; right | done]. }
  destruct (ps_allocations st !! i) as [alloc|] eqn:Hi; [ | by apply Hrest].
  destruct (candidateTargets _ _ _) as [|target rest] eqn:Hc; [by apply Hrest | ].
  simplify_eq. exists i, alloc, target, rest.
  split_and!; [by apply elem_of_cons; left | done | done | done].
Qed.

(** The loop only ever takes the steps of [plan_step]. *)
Lemma reshuffle_loop_steps (nd : Z) (s2o : gmap Z (list nat)) (nra todo : list Z)
    (st : PlanState) :
  (∀ n, n ∈ todo → n ∈ nra) →
  rtc (plan_step nra) st (reshuffle_loop nd s2o nra todo st).
Proof.
  revert st. induction todo as [|sysNum todo IH]; intros st Hsub; simpl.
  - apply rtc_refl.
  - assert (sysNum ∈ nra) as Hin by (apply Hsub, elem_of_cons; by left).
    assert (∀ n, n ∈ todo → n ∈ nra) as Hsub'
        by (intros n Hn; apply Hsub, elem_of_cons; by right).
    case_bool_decide as Hbusy.
    + eapply rtc_l; [by apply step_choose | ].
      destruct (length_ge _ _); [apply rtc_refl | by apply IH].
    + destruct (free_system _ _ _ _) as [st1|] eqn:Hfree; [ | by apply IH].
      apply free_system_Some in Hfree
        as (i & alloc & target & rest & _ & Hi & Hc & ->).
      eapply rtc_l.
      { eapply step_relocate; [done | | done | done].
        by destruct (decide (sysNum ∈ ps_busy st)). }
      destruct (length_ge _ _); [apply rtc_refl | by apply IH].
Qed.

Lemma reshuffle_steps (nd : Z) (s e : option Z) (syss : list SystemDoc.t)
    (allocs : list AllocationDoc.t) :
  rtc (plan_step (nonReservedAll syss))
      (mkPlan (busy s e allocs) allocs [] [])
      (reshuffle nd s e syss allocs).
Proof. unfold reshuffle. by apply reshuffle_loop_steps. Qed.

Lemma elem_of_candidateTargets (nra : list Z) (bfa : gset Z) (sysNum n : Z) :
  n ∈ candidateTargets nra bfa sysNum ↔ n ∈ nra ∧ (n ∉ bfa) ∧ n ≠ sysNum.
Proof. unfold candidateTargets. rewrite list_elem_of_filter. tauto. Qed.

(** Every accepted resource and every target of a move is drawn from
    the non-reserved list. *)
Lemma plan_steps_non_reserved (nra : list Z) (st st' : PlanState) :
  rtc (plan_step nra) st st' →
  (∀ n, n ∈ ps_chosen st → n ∈ nra) →
  (∀ r, r ∈ ps_reshuffles st → move_to r ∈ nra) →
  (∀ n, n ∈ ps_chosen st' → n ∈ nra)
  ∧ (∀ r, r ∈ ps_reshuffles st' → move_to r ∈ nra).
Proof.
  induction 1 as [st|st st1 st' Hstep _ IH]; intros Hc Hm; [done | ].
  apply IH; destruct Hstep as [st sysNum Hin Hb|st i alloc sysNum target rest Hin Hb Hi Hcand];
    simpl.
  - intros n [?|Hn%list_elem_of_singleton]%elem_of_app; [auto | by subst].
  - intros n [?|Hn%list_elem_of_singleton]%elem_of_app; [auto | by subst].
  - done.
  - intros r [?|Hr%list_elem_of_singleton]%elem_of_app; [auto | ]. subst r. simpl.
    assert (target ∈ candidateTargets nra
              (busyForAlloc (ps_allocations st) alloc) sysNum) as Ht
        by (rewrite Hcand; apply elem_of_cons; by left).
    by apply elem_of_candidateTargets in Ht as [? _].
Qed.

(** ** The reserved carve-out is the top of each class *)

Lemma elem_of_typeNums (ty : SystemType) (syss : list SystemDoc.t) (n : Z) :
  n ∈ typeNums ty syss
  ↔ ∃ sys, sys ∈ syss ∧ SystemDoc.type sys = ty ∧ SystemDoc.systemNumber sys = n.
Proof.
  unfold typeNums. rewrite merge_sort_Permutation, list_elem_of_fmap. split.
  - intros (sys & -> & [? ?]%list_elem_of_filter). by exists sys.
  - intros (sys & ? & ? & <-). exists sys. split; [done | ].
    by apply list_elem_of_filter.
Qed.

Lemma elem_of_slice_neg (k : nat) (l : list Z) (n : Z) :
  n ∈ slice_neg k l → n ∈ l.
Proof.
  destruct k; simpl; [done | ]. intros H.
  eapply elem_of_sublist; [exact H | apply sublist_drop].
Qed.

Lemma typeNums_sorted (ty : SystemType) (syss : list SystemDoc.t) :
  StronglySorted Z.le (typeNums ty syss).
Proof.
  apply StronglySorted_merge_sort; [intros x y z; lia | intros x y; lia].
Qed.

Lemma typeNums_NoDup (ty : SystemType) (syss : list SystemDoc.t) :
  NoDup (SystemDoc.systemNumber <$> syss) → NoDup (typeNums ty syss).
Proof.
  intros Hnd. unfold typeNums. rewrite merge_sort_Permutation.
  eapply sublist_NoDup; [exact Hnd | ].
  apply fmap_sublist, sublist_filter.
Qed.

(** In an ascending list without repetition the last [k] entries are
    the entries that fewer than [k] entries exceed. *)
Lemma elem_of_drop_top (k : nat) (l : list Z) (n : Z) :
  (0 < k)%nat → StronglySorted Z.le l → NoDup l →
  n ∈ drop (length l - k) l
  ↔ n ∈ l ∧ (length (filter (fun m => (n < m)%Z) l) < k)%nat.
Proof.
  intros Hk. induction l as [|x l IH]; intros Hs Hnd.
  - simpl. split; [by intros ?%elem_of_nil | by intros [?%elem_of_nil _]].
  - apply StronglySorted_inv in Hs as [Hs Hx].
    apply NoDup_cons in Hnd as [Hxl Hnd].
    rewrite Forall_forall in Hx.
    destruct (decide (length l < k)%nat) as [Hlt|Hge].
    + replace (length (x :: l) - k)%nat with 0%nat by (simpl; lia).
      rewrite drop_0. split; [ | tauto]. intros Hin. split; [done | ].
      assert (length (filter (fun m => (n < m)%Z) (x :: l)) < length (x :: l))%nat
        by (eapply length_filter_lt; [exact Hin | lia]).
      simpl in *. lia.
    + replace (length (x :: l) - k)%nat with (S (length l - k)) by (simpl; lia).
      simpl drop. rewrite (IH Hs Hnd). rewrite elem_of_cons, filter_cons.
      split.
      * intros [Hin Hcount]. split; [by right | ].
        rewrite decide_False; [done | ]. specialize (Hx _ Hin). lia.
      * intros [[->|Hin] Hcount].
        -- exfalso. rewrite decide_False in Hcount by lia.
           assert (filter (fun m => (x < m)%Z) l = l) as Hall.
           { clear -Hx Hxl. induction l as [|y l IHl]; [done | ].
             rewrite filter_cons, decide_True.
             - f_equal. apply IHl.
               + intros z Hz. apply Hx, elem_of_cons. by right.
               + intros Hz. apply Hxl, elem_of_cons. by right.
             - assert (x <= y) by (apply Hx, elem_of_cons; by left).
               assert (x ≠ y) by (intros ->; apply Hxl, elem_of_cons; by left).
               lia. }
           rewrite Hall in Hcount. lia.
        -- split; [done | ].
           rewrite decide_False in Hcount; [done | ]. specialize (Hx _ Hin). lia.
Qed.

Lemma filter_fmap_length {A B} (f : A → B) (P : B → Prop)
    `{∀ y, Decision (P y)} (l : list A) :
  length (filter P (f <$> l)) = length (filter (fun x => P (f x)) l).
Proof.
  induction l as [|x l IH]; [done | ].
  rewrite fmap_cons, !filter_cons. destruct (decide (P (f x))); simpl; lia.
Qed.

(** The set cut off by [slice(-k)] from the numbers of a class: the
    resources of the class that fewer than [k] resources of the class
    exceed in sequence number. *)
Lemma elem_of_reserved (k : nat) (ty : SystemType) (syss : list SystemDoc.t) (n : Z) :
  (0 < k)%nat →
  NoDup (SystemDoc.systemNumber <$> syss) →
  n ∈ slice_neg k (typeNums ty syss)
  ↔ (∃ sys, sys ∈ syss ∧ SystemDoc.type sys = ty ∧ SystemDoc.systemNumber sys = n)
    ∧ (length (filter (fun sys => SystemDoc.type sys = ty
                                  ∧ (n < SystemDoc.systemNumber sys)%Z) syss) < k)%nat.
Proof.
  intros Hk Hnd. destruct k as [|k]; [lia | ]. unfold slice_neg.
  rewrite elem_of_drop_top;
    [ | lia | apply typeNums_sorted | by apply typeNums_NoDup].
  rewrite elem_of_typeNums.
  assert (length (filter (fun m => (n < m)%Z) (typeNums ty syss))
          = length (filter (fun sys => SystemDoc.type sys = ty
                                       ∧ (n < SystemDoc.systemNumber sys)%Z) syss))
    as ->; [ | done].
  unfold typeNums.
  rewrite (Permutation_length
             (filter_Permutation (fun m => (n < m)%Z) _ _ (merge_sort_Permutation _ _))).
  rewrite filter_fmap_length, list_filter_filter.
  f_equal. apply list_filter_iff. tauto.
Qed.

(** The sorted numbers of a class do not depend on the order in which
    the store hands out the systems. *)
Lemma typeNums_query_systems (ty : SystemType) (st : Store) :
  typeNums ty (query_systems st) = typeNums ty (systems st).
Proof.
  apply (StronglySorted_unique Z.le); [apply typeNums_sorted.. | ].
  unfold typeNums, query_systems.
  rewrite !(merge_sort_Permutation Z.le).
  by rewrite (merge_sort_Permutation le_systemNumber).
Qed.

Lemma isRes_query_systems (st : Store) (sys : SystemDoc.t) :
  isRes (query_systems st) sys = isRes (systems st) sys.
Proof.
  unfold isRes, reservedI7, reservedI9. by rewrite !typeNums_query_systems.
Qed.

(** ** C4: the direct path *)

(** C4.  Take a pending request whose start and end are read as the
    minute counts [s] and [e], in a store whose commitments of that
    date have times that are read as minute counts too.  Its
    directly-free list is in ascending order of sequence number and
    holds exactly the numbers of the systems that are not under
    maintenance, are outside the carve-out of their class, and are held
    by no commitment of the date whose window overlaps the window of
    the request.  When that list is at least as long as the demand, the
    call succeeds in mode [direct], returns the first [demand] entries
    of the list, and returns no relocation. *)
Theorem direct_when_enough_free
    (now ts : Z) (requestId : string) (st : Store) (req : RequestDoc.t)
    (s e : Z) :
  get_request st requestId = Some req →
  RequestDoc.status req = pending →
  toMinutes (RequestDoc.inTime req) = Some s →
  toMinutes (RequestDoc.outTime req) = Some e →
  (∀ a, a ∈ allocations st →
        AllocationDoc.date a = RequestDoc.date req →
        is_Some (toMinutes (AllocationDoc.inTime a))
        ∧ is_Some (toMinutes (AllocationDoc.outTime a))) →
  need req <= Z.of_nat (length (directly_free st req)) →
  (∀ n, n ∈ directly_free st req
        ↔ ∃ sys, sys ∈ systems st
                 ∧ SystemDoc.systemNumber sys = n
                 ∧ SystemDoc.status sys ≠ maintenance
                 ∧ (SystemDoc.type sys = i7 → n ∉ reservedI7 (systems st))
                 ∧ (SystemDoc.type sys = i9 → n ∉ reservedI9 (systems st))
                 ∧ ∀ a s2 e2,
                     a ∈ allocations st →
                     AllocationDoc.date a = RequestDoc.date req →
                     toMinutes (AllocationDoc.inTime a) = Some s2 →
                     toMinutes (AllocationDoc.outTime a) = Some e2 →
                     Z.max s s2 < Z.min e e2 →
                     n ∉ AllocationDoc.systems a)
  ∧ StronglySorted Z.le (directly_free st req)
  ∧ ∃ chosen st',
      run now ts requestId st = (Success "direct" chosen [], st')
      ∧ chosen = take (Z.to_nat (need req)) (directly_free st req)
      ∧ Z.of_nat (length chosen) = need req.
Proof.
  intros Hreq Hpend Hs He Htimes Hfree. split_and!.
  - intros n. unfold directly_free. rewrite elem_of_nonReservedFree. split.
    + intros (sys & Hin & Hn & Hres & Hbusy & Hm). exists sys.
      apply elem_of_query_systems in Hin. rewrite isRes_query_systems in Hres.
      unfold isRes in Hres. split_and!; [done | done | done | | | ].
      * intros Hty. rewrite Hty in Hres. apply bool_decide_eq_false_1 in Hres.
        by rewrite <- Hn.
      * intros Hty. rewrite Hty in Hres. apply bool_decide_eq_false_1 in Hres.
        by rewrite <- Hn.
      * intros a s2 e2 Ha Hdate Hs2 He2 Hov Hheld. apply Hbusy.
        unfold snapshot_busy. apply elem_of_busy. exists a. split_and!.
        -- unfold query_allocations. by apply list_elem_of_filter.
        -- unfold alloc_overlaps, window_start, window_end.
           rewrite Hs, He, Hs2, He2. simpl. by apply bool_decide_eq_true_2.
        -- done.
    + intros (sys & Hin & Hn & Hm & H7 & H9 & Hfreed). exists sys.
      split_and!; [by apply elem_of_query_systems | done | | | done].
      * rewrite isRes_query_systems. unfold isRes.
        destruct (SystemDoc.type sys) eqn:Hty; apply bool_decide_eq_false_2;
          rewrite Hn; [by apply H7 | by apply H9].
      * unfold snapshot_busy. rewrite elem_of_busy.
        intros (a & [Hdate Ha]%list_elem_of_filter & Hov & Hheld).
        destruct (Htimes a Ha Hdate) as [[s2 Hs2] [e2 He2]].
        unfold alloc_overlaps, window_start, window_end in Hov.
        rewrite Hs, He, Hs2, He2 in Hov. simpl in Hov.
        apply bool_decide_eq_true_1 in Hov.
        by apply (Hfreed a s2 e2).
  - apply nonReservedFree_sorted.
  - destruct (get_request_Some _ _ _ Hreq) as [Hid _].
    unfold run, agentAllocateSingle, plan. rewrite Hreq.
    rewrite bool_decide_eq_false_2 by (by intros []).
    rewrite (proj2 (length_ge_true _ _) Hfree).
    unfold commit_direct. rewrite Hid.
    destruct (update_request_Some st requestId req accepted ts Hreq)
      as (i & _ & Hupd & _).
    rewrite Hupd. simpl. eexists _, _. split_and!; [reflexivity | done | ].
    apply slice0_length; [apply need_ge_1 | by apply length_ge_true].
Qed.

Lemma direct_when_enough_free_witness :
  directly_free store_busy_lab (request_r1 (Some 2) pending)
  = seqZ 3 9 ++ seqZ 15 17
  ∧ ∃ st', run 1000 7 "r1" store_busy_lab = (Success "direct" [3; 4] [], st').
Proof.
  split; [vm_compute; reflexivity | ].
  destruct (direct_when_enough_free 1000 7 "r1" store_busy_lab
              (request_r1 (Some 2) pending) 600 660)
    as (_ & _ & chosen & st' & Hrun & Hchosen & _).
  - vm_compute. reflexivity.
  - reflexivity.
  - vm_compute. reflexivity.
  - vm_compute. reflexivity.
  - intros a Ha _. simpl in Ha.
    repeat (apply elem_of_cons in Ha as [->|Ha]);
      [split; by eexists.. | by apply elem_of_nil in Ha].
  - vm_compute. discriminate.
  - exists st'. rewrite Hrun. f_equal. f_equal. rewrite Hchosen.
    vm_compute. reflexivity.
Defined.

(** ** C5: the carve-out is never handed out *)

Lemma plan_non_reserved (snap : Store) (req : RequestDoc.t) :
  match plan snap req with
  | PlanDirect chosen =>
      ∀ n, n ∈ chosen → n ∈ nonReservedAll (query_systems snap)
  | PlanReshuffle chosen moves =>
      (∀ n, n ∈ chosen → n ∈ nonReservedAll (query_systems snap))
      ∧ (∀ r, r ∈ moves → move_to r ∈ nonReservedAll (query_systems snap))
  | PlanNone => True
  end.
Proof.
  unfold plan. destruct (length_ge (directly_free snap req) (need req)).
  - intros n Hn. unfold slice0 in Hn.
    assert (n ∈ directly_free snap req) as Hfree
        by (eapply elem_of_sublist; [exact Hn | apply sublist_take]).
    apply elem_of_nonReservedFree in Hfree as (sys & ? & ? & ? & _).
    apply elem_of_nonReservedAll. by exists sys.
  - destruct (length_ge _ _); [ | done].
    destruct (plan_steps_non_reserved _ _ _
                (reshuffle_steps (need req) (window_start req) (window_end req)
                   (query_systems snap)
                   (query_allocations snap (RequestDoc.date req))))
      as [Hc Hm]; [by intros ? ?%elem_of_nil.. | ].
    split; [ | exact Hm]. intros n Hn. apply Hc.
    eapply elem_of_sublist; [exact Hn | apply sublist_take].
Qed.

(** A number that belongs to a system outside the carve-out of its
    class is in neither reserved set, numbers being unique. *)
Lemma non_reserved_in_neither (syss : list SystemDoc.t) (sys : SystemDoc.t) :
  NoDup (SystemDoc.systemNumber <$> syss) →
  sys ∈ syss → isRes syss sys = false →
  (SystemDoc.systemNumber sys ∉ reservedI7 syss)
  ∧ (SystemDoc.systemNumber sys ∉ reservedI9 syss).
Proof.
  intros Hnd Hin Hres.
  assert (∀ ty k, SystemDoc.type sys ≠ ty →
                  SystemDoc.systemNumber sys ∉ slice_neg k (typeNums ty syss))
    as Hother.
  { intros ty k Hty (sys' & Hin' & Hty' & Hnum)%elem_of_slice_neg%elem_of_typeNums.
    apply Hty. rewrite <- Hty'. f_equal. symmetry.
    apply list_elem_of_lookup in Hin as [i Hi].
    apply list_elem_of_lookup in Hin' as [j Hj].
    assert (i = j); [ | by simplify_eq].
    eapply NoDup_lookup; [exact Hnd | | ].
    - by rewrite list_lookup_fmap, Hi.
    - by rewrite list_lookup_fmap, Hj, <- Hnum. }
  unfold isRes in Hres. unfold reservedI7, reservedI9.
  rewrite !elem_of_list_to_set.
  destruct (SystemDoc.type sys) eqn:Hty;
    apply bool_decide_eq_false in Hres;
    unfold reservedI7, reservedI9 in Hres; rewrite elem_of_list_to_set in Hres.
  - split; [done | by apply Hother].
  - split; [by apply Hother | done].
Qed.

(** C5.  Every resource a successful call returns and every target of
    a relocation it returns is the number of a system that lies outside
    the reserved set of its class; sequence numbers being unique, that
    number is in neither reserved set, that is, at least two i7 systems
    have a higher number when the system is an i7 and at least three i9
    systems have a higher number when it is an i9.  The stored status of
    the systems plays no part in this. *)
Theorem reserved_resources_are_never_allocated
    (now ts : Z) (requestId : string) (snap live st' : Store)
    (mode : string) (chosen : list Z) (moves : list Move) (n : Z) :
  agentAllocateSingle now ts requestId snap live
  = (Success mode chosen moves, st') →
  n ∈ chosen ∨ (∃ r, r ∈ moves ∧ move_to r = n) →
  ∃ sys,
    sys ∈ systems snap ∧ SystemDoc.systemNumber sys = n
    ∧ isRes (systems snap) sys = false
    ∧ (NoDup (SystemDoc.systemNumber <$> systems snap) →
       (n ∉ reservedI7 (systems snap)) ∧ (n ∉ reservedI9 (systems snap))
       ∧ (SystemDoc.type sys = i7 →
          (RESERVED_I7 <= length (filter (fun s => SystemDoc.type s = i7
                                    ∧ (n < SystemDoc.systemNumber s)%Z)
                                   (systems snap)))%nat)
       ∧ (SystemDoc.type sys = i9 →
          (RESERVED_I9 <= length (filter (fun s => SystemDoc.type s = i9
                                    ∧ (n < SystemDoc.systemNumber s)%Z)
                                   (systems snap)))%nat)).
Proof.
  intros Hrun Hn.
  apply success_is_planned in Hrun as (req & _ & _ & Hplan).
  pose proof (plan_non_reserved snap req) as Hnr.
  assert (n ∈ nonReservedAll (query_systems snap)) as Hin.
  { destruct Hplan as [(_ & -> & Hp & _)|(_ & Hp & _)]; rewrite Hp in Hnr.
    - destruct Hn as [?|(r & ?%elem_of_nil & _)]; [auto | done].
    - destruct Hnr as [Hc Hm]. destruct Hn as [?|(r & ? & <-)]; auto. }
  apply elem_of_nonReservedAll in Hin as (sys & Hsys & Hnum & Hres).
  apply elem_of_query_systems in Hsys. rewrite isRes_query_systems in Hres.
  exists sys. split_and!; [done.. | ]. intros Hnd.
  destruct (non_reserved_in_neither _ _ Hnd Hsys Hres) as [H7 H9].
  rewrite Hnum in H7, H9. split_and!; [done | done | | ].
  - intros Hty. unfold reservedI7 in H7. rewrite elem_of_list_to_set in H7.
    rewrite elem_of_reserved in H7 by (done || (unfold RESERVED_I7; lia)).
    apply Nat.le_ngt. intros Hlt. apply H7. split; [by exists sys | done].
  - intros Hty. unfold reservedI9 in H9. rewrite elem_of_list_to_set in H9.
    rewrite elem_of_reserved in H9 by (done || (unfold RESERVED_I9; lia)).
    apply Nat.le_ngt. intros Hlt. apply H9. split; [by exists sys | done].
Qed.

Lemma reserved_resources_are_never_allocated_witness :
  ∃ sys, sys ∈ systems store_maintenance_2
         ∧ SystemDoc.systemNumber sys = 2
         ∧ isRes (systems store_maintenance_2) sys = false.
Proof.
  destruct (reserved_resources_are_never_allocated 1000 7 "r1"
              store_maintenance_2 store_maintenance_2
              (run 1000 7 "r1" store_maintenance_2).2
              "minimal_reshuffle" [1] [mkMove "a1" 1 2] 2)
    as (sys & Hsys & Hnum & Hres & _).
  - vm_compute. reflexivity.
  - right. exists (mkMove "a1" 1 2). split; [ | reflexivity].
    apply elem_of_cons. left. reflexivity.
  - exists sys. split_and!; [exact Hsys | exact Hnum | exact Hres].
Defined.

(** ** What planning decided *)

Lemma plan_direct_inv (snap : Store) (req : RequestDoc.t) (chosen : list Z) :
  plan snap req = PlanDirect chosen →
  need req <= Z.of_nat (length (directly_free snap req))
  ∧ chosen = slice0 (need req) (directly_free snap req).
Proof.
  unfold plan. cbv zeta.
  destruct (length_ge (directly_free snap req) (need req)) eqn:Hfree.
  - intros [= <-]. by apply length_ge_true in Hfree.
  - destruct (length_ge (ps_chosen (reshuffle_pass snap req)) (need req));
      intros; discriminate.
Qed.

Lemma plan_reshuffle_inv (snap : Store) (req : RequestDoc.t)
    (chosen : list Z) (moves : list Move) :
  plan snap req = PlanReshuffle chosen moves →
  Z.of_nat (length (directly_free snap req)) < need req
  ∧ chosen = slice0 (need req) (ps_chosen (reshuffle_pass snap req))
  ∧ moves = ps_reshuffles (reshuffle_pass snap req).
Proof.
  unfold plan. cbv zeta.
  destruct (length_ge (directly_free snap req) (need req)) eqn:Hfree;
    [intros; discriminate | ].
  destruct (length_ge (ps_chosen (reshuffle_pass snap req)) (need req));
    [ | intros; discriminate].
  intros [= <- <-]. by apply length_ge_false in Hfree.
Qed.

(** ** The index of occupying commitments (lines 112-121) *)

Lemma elem_of_index_systems (j : nat) (l : list Z) (m : gmap Z (list nat))
    (n : Z) (i : nat) :
  i ∈ default [] (index_systems j m l !! n)
  ↔ i ∈ default [] (m !! n) ∨ (i = j ∧ n ∈ l).
Proof.
  unfold index_systems. revert m.
  induction l as [|x l IH]; intros m; simpl.
  - split; [by left | ]. intros [?|[_ ?%elem_of_nil]]; done.
  - rewrite IH. destruct (decide (x = n)) as [->|Hne].
    + rewrite lookup_insert_eq. simpl. rewrite elem_of_app, list_elem_of_singleton.
      rewrite elem_of_cons. naive_solver.
    + rewrite lookup_insert_ne by done. rewrite elem_of_cons. naive_solver.
Qed.

Lemma elem_of_sysToOverlaps_from (s e : option Z) (n : Z) (i : nat)
    (allocs : list AllocationDoc.t) (k : nat) (m : gmap Z (list nat)) :
  i ∈ default []
        (foldl (fun acc ia =>
                  if alloc_overlaps s e ia.2
                  then index_systems ia.1 acc (AllocationDoc.systems ia.2)
                  else acc) m (imap (fun j a => (k + j, a)%nat) allocs) !! n)
  ↔ i ∈ default [] (m !! n)
    ∨ ∃ j a, i = (k + j)%nat ∧ allocs !! j = Some a
             ∧ alloc_overlaps s e a = true ∧ n ∈ AllocationDoc.systems a.
Proof.
  revert k m. induction allocs as [|a allocs IH]; intros k m; simpl.
  - split; [by left | ]. intros [?|(j & a & _ & ? & _)]; done.
  - rewrite (imap_ext _ (fun j a => (S k + j, a)%nat))
      by (intros; simpl; f_equal; lia).
    rewrite IH. simpl. destruct (alloc_overlaps s e a) eqn:Hov.
    + rewrite elem_of_index_systems. split.
      * intros [[?|[-> ?]]|(j & b & -> & ? & ? & ?)].
        -- by left.
        -- right. exists 0%nat, a. split_and!; [lia | done..].
        -- right. exists (S j), b. split_and!; [lia | done..].
      * intros [?|(j & b & -> & Hj & ? & ?)]; [by left; left | ].
        destruct j as [|j]; simpl in Hj.
        -- simplify_eq. left. right. split; [lia | done].
        -- right. exists j, b. split_and!; [lia | done..].
    + split.
      * intros [?|(j & b & -> & ? & ? & ?)]; [by left | ].
        right. exists (S j), b. split_and!; [lia | done..].
      * intros [?|(j & b & -> & Hj & Hb & ?)]; [by left | ].
        destruct j as [|j]; simpl in Hj; [simplify_eq; congruence | ].
        right. exists j, b. split_and!; [lia | done..].
Qed.

Lemma sysToOverlaps_holds (s e : option Z) (allocs : list AllocationDoc.t)
    (n : Z) (i : nat) :
  i ∈ default [] (sysToOverlaps s e allocs !! n) →
  ∃ a, allocs !! i = Some a ∧ n ∈ AllocationDoc.systems a.
Proof.
  unfold sysToOverlaps.
  pose proof (elem_of_sysToOverlaps_from s e n i allocs 0 ∅) as H.
  rewrite (imap_ext _ pair) in H by done. rewrite H, lookup_empty. simpl.
  intros [?%elem_of_nil|(j & a & -> & ? & _ & ?)]; [done | by exists a].
Qed.

(** ** The transaction of the reshuffle path (lines 163-186) *)

Lemma list_find_id_None (allocs : list AllocationDoc.t) (id : string) :
  list_find (fun a => AllocationDoc.id a = id) allocs = None
  ↔ id ∉ AllocationDoc.id <$> allocs.
Proof.
  rewrite list_find_None, Forall_forall. split.
  - intros Hnone (a & -> & Ha)%list_elem_of_fmap. by apply (Hnone a).
  - intros Hnone a Ha Hid. apply Hnone. apply list_elem_of_fmap. by exists a.
Qed.

(** After a write the loop makes no further turn. *)
Lemma replay_moves_written (ts : Z) (allocs moved : list AllocationDoc.t)
    (moves : list Move) :
  replay_moves ts true allocs moves = Some moved → moves = [] ∧ moved = allocs.
Proof. destruct moves; simpl; [by intros [= <-] | done]. Qed.

(** A loop that goes through has written at most once, in its last
    turn; the commitments of the turns before it were not there. *)
Lemma replay_moves_Some (ts : Z) (allocs moved : list AllocationDoc.t)
    (moves : list Move) :
  replay_moves ts false allocs moves = Some moved →
  (moved = allocs
   ∧ Forall (fun r => moveAllocationId r ∉ AllocationDoc.id <$> allocs) moves)
  ∨ (∃ skipped r i a,
       moves = skipped ++ [r]
       ∧ Forall (fun r => moveAllocationId r ∉ AllocationDoc.id <$> allocs) skipped
       ∧ list_find (fun a => AllocationDoc.id a = moveAllocationId r) allocs
         = Some (i, a)
       ∧ moved = <[ i := AllocationDoc.update_systems
                            (swap (move_from r) (move_to r)
                               <$> AllocationDoc.systems a) ts a ]> allocs).
Proof.
  induction moves as [|r moves IH]; simpl.
  - intros [= <-]. left. by split.
  - destruct (list_find _ allocs) as [[i a]|] eqn:Hfind.
    + intros [-> ->]%replay_moves_written. right. exists [], r, i, a.
      split_and!; [done | constructor | done | ].
      unfold apply_move. by rewrite Hfind.
    + apply list_find_id_None in Hfind.
      intros [[-> Hall]|(skipped & r' & i & a & -> & Hall & Hf & ->)]%IH.
      * left. split; [done | by constructor].
      * right. exists (r :: skipped), r', i, a.
        split_and!; [done | by constructor | done | done].
Qed.

(** When every move names a stored commitment, the loop goes through
    for no move and for one move, and for no other list of moves. *)
Lemma replay_moves_found (ts : Z) (allocs : list AllocationDoc.t)
    (moves : list Move) :
  Forall (fun r => moveAllocationId r ∈ AllocationDoc.id <$> allocs) moves →
  replay_moves ts false allocs moves
  = match moves with
    | [] => Some allocs
    | [r] => Some (apply_move ts allocs r)
    | _ :: _ :: _ => None
    end.
Proof.
  intros Hall. destruct moves as [|r [|r' moves]]; simpl; [done | | ].
  - apply Forall_cons in Hall as [Hr _].
    destruct (list_find _ allocs) eqn:Hfind; [done | ].
    by apply list_find_id_None in Hfind.
  - apply Forall_cons in Hall as [Hr _].
    destruct (list_find _ allocs) eqn:Hfind; [done | ].
    by apply list_find_id_None in Hfind.
Qed.

(** ** C8: what a relocation rewrites *)

Lemma same_booking_refl (a : AllocationDoc.t) : same_booking a a.
Proof. by repeat split. Qed.

Lemma same_booking_set_systems (l : list Z) (a : AllocationDoc.t) :
  same_booking a (AllocationDoc.set_systems l a).
Proof. by repeat split. Qed.

Lemma same_booking_update_systems (l : list Z) (ts : Z) (a : AllocationDoc.t) :
  same_booking a (AllocationDoc.update_systems l ts a).
Proof. by repeat split. Qed.

(** The relocation of lines 148-151, with the acceptance of line 157,
    is a turn. *)
Lemma relocate_turn (st : PlanState) (i : nat) (alloc : AllocationDoc.t)
    (sysNum target : Z) :
  ps_allocations st !! i = Some alloc →
  sysNum ∈ AllocationDoc.systems alloc →
  sysNum ≠ target →
  pass_turn st (push_chosen sysNum (relocate i alloc sysNum target st)).
Proof.
  intros Hi Hheld Hne.
  apply (turn_relocate st i alloc
           (AllocationDoc.set_systems
              (swap sysNum target <$> AllocationDoc.systems alloc) alloc)
           (mkMove (AllocationDoc.id alloc) sysNum target));
    done.
Qed.

(** The loop takes turns, as long as the index lists, under a busy
    resource, commitments that hold it. *)
Lemma reshuffle_loop_turns (nd : Z) (s2o : gmap Z (list nat)) (nra todo : list Z)
    (st : PlanState) :
  (∀ n i a, n ∈ ps_busy st → i ∈ default [] (s2o !! n) →
            ps_allocations st !! i = Some a → n ∈ AllocationDoc.systems a) →
  rtc pass_turn st (reshuffle_loop nd s2o nra todo st).
Proof.
  revert st. induction todo as [|sysNum todo IH]; intros st Hidx; simpl.
  - apply rtc_refl.
  - case_bool_decide as Hbusy.
    + eapply rtc_l; [apply (turn_accept st sysNum) | ].
      destruct (length_ge _ _); [apply rtc_refl | by apply IH].
    + destruct (free_system _ _ _ _) as [st1|] eqn:Hfree; [ | by apply IH].
      apply free_system_Some in Hfree
        as (i & alloc & target & rest & Hi & Halloc & Hc & ->).
      assert (sysNum ∈ ps_busy st) as Hb
          by (by destruct (decide (sysNum ∈ ps_busy st))).
      assert (target ≠ sysNum) as Hne.
      { assert (target ∈ candidateTargets nra
                  (busyForAlloc (ps_allocations st) alloc) sysNum) as Ht
            by (rewrite Hc; apply elem_of_cons; by left).
        by apply elem_of_candidateTargets in Ht as (_ & _ & ?). }
      eapply rtc_l.
      { apply relocate_turn; [done | by eapply Hidx | done]. }
      assert (∀ n j a, n ∈ ps_busy st ∖ {[sysNum]} →
                       j ∈ default [] (s2o !! n) →
                       <[ i := AllocationDoc.set_systems
                                 (swap sysNum target <$> AllocationDoc.systems alloc)
                                 alloc ]> (ps_allocations st) !! j = Some a →
                       n ∈ AllocationDoc.systems a) as Hidx'.
      { intros n j a [Hn Hns%not_elem_of_singleton]%elem_of_difference Hj Ha.
        destruct (decide (j = i)) as [->|Hji].
        - rewrite list_lookup_insert_eq in Ha by (by eapply lookup_lt_Some).
          simplify_eq/=. apply list_elem_of_fmap. exists n. split.
          + unfold swap. by rewrite bool_decide_eq_false_2.
          + by eapply Hidx.
        - rewrite list_lookup_insert_ne in Ha by done. by eapply Hidx. }
      destruct (length_ge _ _); [apply rtc_refl | by apply IH].
Qed.

Lemma reshuffle_turns (nd : Z) (s e : option Z) (syss : list SystemDoc.t)
    (allocs : list AllocationDoc.t) :
  rtc pass_turn (mkPlan (busy s e allocs) allocs [] [])
      (reshuffle nd s e syss allocs).
Proof.
  unfold reshuffle. apply reshuffle_loop_turns. simpl.
  intros n i a _ Hi Ha.
  apply sysToOverlaps_holds in Hi as (a' & Ha' & Hheld). by simplify_eq.
Qed.

(** The turns keep the ids of the commitment objects, and every move
    they record names one of them. *)
Lemma pass_turns_moves (st0 st : PlanState) :
  rtc pass_turn st0 st →
  AllocationDoc.id <$> ps_allocations st = AllocationDoc.id <$> ps_allocations st0
  ∧ ∃ more,
      ps_reshuffles st = ps_reshuffles st0 ++ more
      ∧ Forall (fun r => moveAllocationId r
                         ∈ AllocationDoc.id <$> ps_allocations st0) more.
Proof.
  intros Hturns. pattern st. revert st Hturns. apply rtc_ind_r.
  - split; [done | ]. exists []. split; [by rewrite app_nil_r | constructor].
  - intros st st1 _ Hturn (Hids & more & Hmoves & Hall).
    destruct Hturn as [st sysNum|st i a a' r Hi Hid Hheld Hne Hsame Hts Hsys]; simpl.
    + split; [done | by exists more].
    + split.
      * rewrite list_fmap_insert, <- Hids. apply list_insert_id.
        rewrite list_lookup_fmap, Hi. simpl. by destruct Hsame as [-> _].
      * exists (more ++ [r]). split; [by rewrite Hmoves, app_assoc | ].
        apply Forall_app. split; [done | ]. constructor; [ | constructor].
        rewrite <- Hids, Hid. apply list_elem_of_fmap. exists a.
        split; [done | by eapply list_elem_of_lookup_2].
Qed.

(** A pass that has recorded one move has made it on a commitment of
    the snapshot that held the source. *)
Lemma pass_turns_one_move (st0 st : PlanState) (r : Move) :
  rtc pass_turn st0 st →
  ps_reshuffles st = ps_reshuffles st0 ++ [r] →
  ∃ i a, ps_allocations st0 !! i = Some a
         ∧ moveAllocationId r = AllocationDoc.id a
         ∧ move_from r ∈ AllocationDoc.systems a
         ∧ move_from r ≠ move_to r.
Proof.
  induction 1 as [st|st0 st1 st Hturn Hrest IH]; intros Hmoves.
  - apply (f_equal length) in Hmoves. rewrite length_app in Hmoves.
    simpl in Hmoves. lia.
  - destruct Hturn as [st0 sysNum|st0 i a a' r1 Hi Hid Hheld Hne Hsame Hts Hsys].
    + by apply IH.
    + destruct (pass_turns_moves _ _ Hrest) as (_ & more & Hmore & _).
      simpl in Hmore. rewrite Hmore, <- app_assoc in Hmoves.
      apply app_inv_head in Hmoves. simpl in Hmoves.
      injection Hmoves as -> _. by exists i, a.
Qed.

Lemma query_allocations_ids (st : Store) (date id : string) :
  id ∈ AllocationDoc.id <$> query_allocations st date →
  id ∈ AllocationDoc.id <$> allocations st.
Proof.
  intros (a & -> & [_ Ha]%list_elem_of_filter)%list_elem_of_fmap.
  apply list_elem_of_fmap. by exists a.
Qed.

(** The moves of a reshuffle plan name commitments of the snapshot. *)
Lemma plan_moves_named (snap : Store) (req : RequestDoc.t)
    (chosen : list Z) (moves : list Move) :
  plan snap req = PlanReshuffle chosen moves →
  Forall (fun r => moveAllocationId r ∈ AllocationDoc.id <$> allocations snap)
         moves.
Proof.
  intros (_ & _ & ->)%plan_reshuffle_inv.
  destruct (pass_turns_moves _ _
              (reshuffle_turns (need req) (window_start req) (window_end req)
                 (query_systems snap)
                 (query_allocations snap (RequestDoc.date req))))
    as (_ & more & Hmoves & Hall).
  simpl in Hmoves. unfold reshuffle_pass. rewrite Hmoves.
  eapply Forall_impl; [exact Hall | ]. simpl. intros r.
  apply query_allocations_ids.
Qed.

(** C8.  (1) The reshuffle pass is a sequence of turns; a turn that
    relocates records one move and rewrites one commitment object,
    which holds the source of the move: its resource list becomes the
    old one with the source replaced by the target, and its id, owning
    request, date, start and end time stay as they are.  (2) The
    transaction of a successful call writes at most one relocation, the
    last move, on the stored commitment of that id: the stored resource
    list with the source replaced by the target, the other fields as
    stored, and the time stamp of the write; every other stored
    commitment is left as it is.  (3) In a call that no other writer
    interleaves with, on a store with distinct commitment ids, every
    move returned is written so: the stored commitment held the source,
    and afterwards holds the target and not the source. *)
Theorem relocation_replaces_source_by_target :
  (∀ snap req,
     rtc pass_turn
       (mkPlan (snapshot_busy snap req)
               (query_allocations snap (RequestDoc.date req)) [] [])
       (reshuffle_pass snap req))
  ∧ (∀ now ts requestId snap live st' mode chosen moves,
       agentAllocateSingle now ts requestId snap live
       = (Success mode chosen moves, st') →
       ∃ req moved,
         get_request snap requestId = Some req
         ∧ allocations st' = set_allocation (newAllocation req now ts chosen) moved
         ∧ (moved = allocations live
            ∨ ∃ r i a a',
                last moves = Some r
                ∧ allocations live !! i = Some a
                ∧ moveAllocationId r = AllocationDoc.id a
                ∧ moved = <[ i := a' ]> (allocations live)
                ∧ same_booking a a'
                ∧ AllocationDoc.updatedAt a' = Some ts
                ∧ AllocationDoc.systems a'
                  = (fun n => if bool_decide (n = move_from r)
                              then move_to r else n)
                      <$> AllocationDoc.systems a))
  ∧ (∀ now ts requestId st st' chosen moves,
       NoDup (AllocationDoc.id <$> allocations st) →
       run now ts requestId st = (Success "minimal_reshuffle" chosen moves, st') →
       ∀ r, r ∈ moves →
         ∃ req i a a',
           get_request st requestId = Some req
           ∧ allocations st !! i = Some a
           ∧ moveAllocationId r = AllocationDoc.id a
           ∧ move_from r ∈ AllocationDoc.systems a
           ∧ allocations st'
             = set_allocation (newAllocation req now ts chosen)
                 (<[ i := a' ]> (allocations st))
           ∧ AllocationDoc.systems a'
             = (fun n => if bool_decide (n = move_from r) then move_to r else n)
                 <$> AllocationDoc.systems a
           ∧ (move_from r ∉ AllocationDoc.systems a')
           ∧ move_to r ∈ AllocationDoc.systems a'
           ∧ AllocationDoc.id a' = AllocationDoc.id a
           ∧ AllocationDoc.requestId a' = AllocationDoc.requestId a
           ∧ AllocationDoc.date a' = AllocationDoc.date a
           ∧ AllocationDoc.inTime a' = AllocationDoc.inTime a
           ∧ AllocationDoc.outTime a' = AllocationDoc.outTime a).
Proof.
  split_and!.
  - intros snap req. apply reshuffle_turns.
  - intros now ts requestId snap live st' mode chosen moves Hrun.
    apply success_is_planned in Hrun as (req & Hreq & _ & Hplan).
    exists req. destruct Hplan as [(_ & _ & _ & Hc)|(_ & _ & Hc)].
    + exists (allocations live). unfold commit_direct in Hc.
      destruct (update_request _ _ _ _); simplify_eq/=.
      split_and!; [done | done | by left].
    + unfold commit_reshuffle in Hc.
      destruct (replay_moves ts false (allocations live) moves)
        as [moved|] eqn:Hmoved; [ | done].
      simpl in Hc. destruct (update_request _ _ _ _); simplify_eq/=.
      exists moved. split_and!; [done | done | ].
      apply replay_moves_Some in Hmoved
        as [[-> _]|(skipped & r & i & a & -> & _ & Hfind & ->)]; [by left | ].
      right. apply list_find_Some in Hfind as (Hi & Hid & _).
      exists r, i, a. eexists.
      split_and!; [by rewrite last_snoc | done | done | reflexivity | | | ].
      * apply same_booking_update_systems.
      * done.
      * done.
  - intros now ts requestId st st' chosen moves Hnd Hrun r Hr.
    apply success_is_planned in Hrun as (req & Hreq & _ & Hplan).
    destruct Hplan as [(? & _)|(_ & Hp & Hc)]; [done | ].
    pose proof (plan_moves_named _ _ _ _ Hp) as Hnamed.
    unfold commit_reshuffle in Hc.
    rewrite replay_moves_found in Hc by done.
    destruct moves as [|r1 [|r2 moves]]; [by apply elem_of_nil in Hr | | done].
    apply list_elem_of_singleton in Hr as ->.
    simpl in Hc. destruct (update_request _ _ _ _); simplify_eq/=.
    apply plan_reshuffle_inv in Hp as (_ & _ & Hmoves).
    destruct (pass_turns_one_move _ _ r1
                (reshuffle_turns (need req) (window_start req) (window_end req)
                   (query_systems st)
                   (query_allocations st (RequestDoc.date req))))
      as (i0 & a & Hi0 & Hid & Hheld & Hne); [exact (eq_sym Hmoves) | ].
    assert (a ∈ allocations st) as Ha.
    { apply list_elem_of_lookup_2 in Hi0.
      by apply list_elem_of_filter in Hi0 as [_ ?]. }
    apply list_elem_of_lookup in Ha as [i Hi].
    assert (list_find (fun b => AllocationDoc.id b = moveAllocationId r1)
              (allocations st) = Some (i, a)) as Hfind.
    { apply list_find_Some. split_and!; [done | done | ].
      intros j b Hj Hlt Hb. assert (j = i); [ | lia].
      apply (NoDup_lookup (AllocationDoc.id <$> allocations st) j i
               (AllocationDoc.id a) Hnd).
      - rewrite list_lookup_fmap, Hj. simpl. congruence.
      - by rewrite list_lookup_fmap, Hi. }
    exists req, i, a,
      (AllocationDoc.update_systems
         (swap (move_from r1) (move_to r1) <$> AllocationDoc.systems a) ts a).
    split_and!; [done | done | done | done | | reflexivity | | | | | | | ];
      try reflexivity.
    + unfold apply_move. by rewrite Hfind.
    + simpl. intros (n & Hn & _)%list_elem_of_fmap. unfold swap in Hn.
      case_bool_decide; congruence.
    + simpl. apply list_elem_of_fmap. exists (move_from r1). unfold swap.
      split; [by rewrite bool_decide_eq_true_2 | done].
Qed.

Lemma relocation_replaces_source_by_target_witness :
  ∃ i a a',
    allocations store_staggered !! i = Some a
    ∧ AllocationDoc.id a = "a1"
    ∧ 1 ∈ AllocationDoc.systems a
    ∧ AllocationDoc.systems a'
      = (fun n => if bool_decide (n = 1) then 2 else n) <$> AllocationDoc.systems a
    ∧ (1 ∉ AllocationDoc.systems a')
    ∧ 2 ∈ AllocationDoc.systems a'
    ∧ AllocationDoc.inTime a' = AllocationDoc.inTime a
    ∧ AllocationDoc.outTime a' = AllocationDoc.outTime a.
Proof.
  destruct (proj2 (proj2 relocation_replaces_source_by_target)
              1000 7 "r1" store_staggered (run 1000 7 "r1" store_staggered).2
              [1] [mkMove "a1" 1 2])
    with (r := mkMove "a1" 1 2)
    as (req & i & a & a' & _ & Hi & Hid & Hheld & _ & Hsys & Hgone & Hthere
        & _ & _ & _ & Hin & Hout).
  - apply (bool_decide_unpack _). vm_compute. reflexivity.
  - apply injective_projections; [vm_compute; reflexivity | reflexivity].
  - apply elem_of_cons. by left.
  - exists i, a, a'. simpl in *. by split_and!.
Defined.

(** ** Sorting and filtering under a map that keeps the keys *)

Section merge_sort_fmap.
Context {A B : Type} (f : A → B) (R1 : relation A) (R2 : relation B).
Context `{!∀ x y, Decision (R1 x y)} `{!∀ x y, Decision (R2 x y)}.
Hypothesis R_fmap : ∀ x y, R2 (f x) (f y) ↔ R1 x y.

Lemma list_merge_fmap (l1 l2 : list A) :
  list_merge R2 (f <$> l1) (f <$> l2) = f <$> list_merge R1 l1 l2.
Proof.
  revert l2. induction l1 as [|x1 l1 IH1]; intros l2.
  - by rewrite fmap_nil, !list_merge_nil_l.
  - induction l2 as [|x2 l2 IH2].
    + by rewrite fmap_nil, !list_merge_nil_r.
    + rewrite !fmap_cons, !list_merge_cons.
      rewrite (decide_ext (R2 (f x1) (f x2)) (R1 x1 x2)) by apply R_fmap.
      destruct (decide (R1 x1 x2)).
      * rewrite fmap_cons. f_equal. rewrite <- IH1. by rewrite fmap_cons.
      * rewrite fmap_cons. f_equal. rewrite <- IH2. by rewrite fmap_cons.
Qed.

Lemma merge_list_to_stack_fmap (st : list (option (list A))) (l : list A) :
  merge_list_to_stack R2 (stack_fmap f st) (f <$> l)
  = stack_fmap f (merge_list_to_stack R1 st l).
Proof.
  revert l. induction st as [|[l'|] st IH]; intros l; simpl; [done | | done].
  f_equal. by rewrite list_merge_fmap, IH.
Qed.

Lemma merge_stack_fmap (st : list (option (list A))) :
  merge_stack R2 (stack_fmap f st) = f <$> merge_stack R1 st.
Proof.
  induction st as [|[l'|] st IH]; simpl; [done | | done].
  by rewrite IH, list_merge_fmap.
Qed.

Lemma merge_sort_aux_fmap (st : list (option (list A))) (l : list A) :
  merge_sort_aux R2 (stack_fmap f st) (f <$> l)
  = f <$> merge_sort_aux R1 st l.
Proof.
  revert st. induction l as [|x l IH]; intros st; simpl.
  - apply merge_stack_fmap.
  - rewrite <- IH. f_equal.
    apply (merge_list_to_stack_fmap st [x]).
Qed.

(** Sorting commutes with a map under which the order is the same. *)
Lemma merge_sort_fmap (l : list A) :
  merge_sort R2 (f <$> l) = f <$> merge_sort R1 l.
Proof. apply (merge_sort_aux_fmap []). Qed.
End merge_sort_fmap.

Lemma filter_fmap_ext {A B} (f : A → B) (P : B → Prop) (Q : A → Prop)
    `{!∀ y, Decision (P y)} `{!∀ x, Decision (Q x)} (l : list A) :
  (∀ x, x ∈ l → (P (f x) ↔ Q x)) →
  filter P (f <$> l) = f <$> filter Q l.
Proof.
  induction l as [|x l IH]; intros Hext; [done | ].
  rewrite fmap_cons, !filter_cons.
  rewrite (decide_ext (P (f x)) (Q x)) by (apply Hext, elem_of_cons; by left).
  rewrite IH by (intros y Hy; apply Hext, elem_of_cons; by right).
  by destruct (decide (Q x)).
Qed.

(** ** C10: the stored status, maintenance apart, is not looked at *)

Lemma restatus_number (g : SystemDoc.t → SystemStatus) (l : list SystemDoc.t) :
  SystemDoc.systemNumber <$> (restatus g <$> l) = SystemDoc.systemNumber <$> l.
Proof. rewrite <- list_fmap_compose. by apply list_fmap_ext. Qed.

Lemma typeNums_restatus (g : SystemDoc.t → SystemStatus) (ty : SystemType)
    (syss : list SystemDoc.t) :
  typeNums ty (restatus g <$> syss) = typeNums ty syss.
Proof.
  unfold typeNums. f_equal.
  rewrite (filter_fmap_ext (restatus g) _ (fun s => SystemDoc.type s = ty)) by done.
  apply restatus_number.
Qed.

Lemma isRes_restatus (g : SystemDoc.t → SystemStatus) (syss : list SystemDoc.t)
    (sys : SystemDoc.t) :
  isRes (restatus g <$> syss) (restatus g sys) = isRes syss sys.
Proof. unfold isRes, reservedI7, reservedI9. by rewrite !typeNums_restatus. Qed.

Lemma query_systems_restatus (g : SystemDoc.t → SystemStatus) (st : Store) :
  query_systems (restatus_store g st) = restatus g <$> query_systems st.
Proof.
  unfold query_systems. simpl.
  by apply (merge_sort_fmap (restatus g) le_systemNumber le_systemNumber).
Qed.

Lemma nonReservedAll_restatus (g : SystemDoc.t → SystemStatus)
    (syss : list SystemDoc.t) :
  nonReservedAll (restatus g <$> syss) = nonReservedAll syss.
Proof.
  unfold nonReservedAll.
  rewrite (filter_fmap_ext (restatus g) _ (fun sys => isRes syss sys = false)).
  - apply restatus_number.
  - intros sys _. by rewrite isRes_restatus.
Qed.

Lemma nonReservedFree_restatus (g : SystemDoc.t → SystemStatus)
    (syss : list SystemDoc.t) (bsy : gset Z) :
  (∀ sys, sys ∈ syss → isRes syss sys = false →
          (g sys = maintenance ↔ SystemDoc.status sys = maintenance)) →
  nonReservedFree (restatus g <$> syss) bsy = nonReservedFree syss bsy.
Proof.
  intros Hg. unfold nonReservedFree.
  rewrite (filter_fmap_ext (restatus g) _
             (fun sys => (isRes syss sys = false)
                         ∧ (SystemDoc.systemNumber sys ∉ bsy)
                         ∧ (SystemDoc.status sys ≠ maintenance))).
  - apply restatus_number.
  - intros sys Hin. rewrite isRes_restatus. simpl.
    split; intros (Hres & Hb & Hm); split_and!; try done;
      intros Hm'; apply Hm; by apply (Hg sys Hin Hres).
Qed.

(** Planning decides the same on the two stores. *)
Lemma plan_restatus (g : SystemDoc.t → SystemStatus) (snap : Store)
    (req : RequestDoc.t) :
  (∀ sys, sys ∈ systems snap → isRes (systems snap) sys = false →
          (g sys = maintenance ↔ SystemDoc.status sys = maintenance)) →
  plan (restatus_store g snap) req = plan snap req.
Proof.
  intros Hg.
  assert (directly_free (restatus_store g snap) req = directly_free snap req)
    as Hfree.
  { unfold directly_free, snapshot_busy, query_allocations. simpl.
    rewrite query_systems_restatus. apply nonReservedFree_restatus.
    intros sys Hin Hres. apply Hg.
    - by apply elem_of_query_systems.
    - by rewrite <- isRes_query_systems. }
  assert (reshuffle_pass (restatus_store g snap) req = reshuffle_pass snap req)
    as Hpass.
  { unfold reshuffle_pass, reshuffle, query_allocations. simpl.
    by rewrite query_systems_restatus, nonReservedAll_restatus. }
  unfold plan. by rewrite Hfree, Hpass.
Qed.

(** C10.  Let the stored status of the systems be changed at will, as
    long as a system outside the carve-out is under maintenance after
    the change exactly when it was before.  The call then returns the
    same outcome and writes the same.  What excludes a resource from
    the directly-free list is spelled out: the carve-out of its class,
    the busy set, which holds the resources of the commitments of the
    date that overlap the window, and the status [maintenance]. *)
Theorem only_maintenance_status_matters
    (g : SystemDoc.t → SystemStatus) (now ts : Z) (requestId : string)
    (snap live : Store) :
  (∀ sys, sys ∈ systems snap → isRes (systems snap) sys = false →
          (g sys = maintenance ↔ SystemDoc.status sys = maintenance)) →
  agentAllocateSingle now ts requestId (restatus_store g snap) live
  = agentAllocateSingle now ts requestId snap live
  ∧ (∀ req, directly_free (restatus_store g snap) req = directly_free snap req)
  ∧ (∀ req n,
       n ∈ directly_free snap req
       ↔ ∃ sys, sys ∈ systems snap ∧ SystemDoc.systemNumber sys = n
                ∧ isRes (systems snap) sys = false
                ∧ (n ∉ snapshot_busy snap req)
                ∧ SystemDoc.status sys ≠ maintenance)
  ∧ (∀ req n,
       n ∈ snapshot_busy snap req
       ↔ ∃ a, a ∈ allocations snap
              ∧ AllocationDoc.date a = RequestDoc.date req
              ∧ alloc_overlaps (window_start req) (window_end req) a = true
              ∧ n ∈ AllocationDoc.systems a).
Proof.
  intros Hg. split_and!.
  - unfold agentAllocateSingle.
    change (get_request (restatus_store g snap) requestId)
      with (get_request snap requestId).
    destruct (get_request snap requestId) as [req|]; [ | done].
    by rewrite plan_restatus.
  - intros req.
    pose proof (plan_restatus g snap req Hg) as _.
    unfold directly_free, snapshot_busy, query_allocations. simpl.
    rewrite query_systems_restatus. apply nonReservedFree_restatus.
    intros sys Hin Hres. apply Hg.
    + by apply elem_of_query_systems.
    + by rewrite <- isRes_query_systems.
  - intros req n. unfold directly_free. rewrite elem_of_nonReservedFree.
    split; intros (sys & Hin & ? & Hres & ? & ?); exists sys.
    + apply elem_of_query_systems in Hin. rewrite isRes_query_systems in Hres.
      done.
    + split_and!; try done; [by apply elem_of_query_systems | ].
      by rewrite isRes_query_systems.
  - intros req n. unfold snapshot_busy, query_allocations.
    rewrite elem_of_busy. split.
    + intros (a & [? ?]%list_elem_of_filter & ? & ?). by exists a.
    + intros (a & ? & ? & ? & ?). exists a.
      split_and!; [by apply list_elem_of_filter | done | done].
Qed.

Lemma only_maintenance_status_matters_witness :
  agentAllocateSingle 1000 7 "r1"
    (restatus_store status_shuffle (store_idle (Some 2) pending))
    (store_idle (Some 2) pending)
  = agentAllocateSingle 1000 7 "r1"
      (store_idle (Some 2) pending) (store_idle (Some 2) pending).
Proof.
  destruct (only_maintenance_status_matters status_shuffle 1000 7 "r1"
              (store_idle (Some 2) pending) (store_idle (Some 2) pending))
    as [Hrun _].
  - intros sys Hin _. simpl in Hin.
    repeat (apply elem_of_cons in Hin as [->|Hin]);
      [vm_compute; split; discriminate.. | by apply elem_of_nil in Hin].
  - exact Hrun.
Defined.

(** ** C1 and C2: what the direct path keeps and the reshuffle pass breaks *)

Lemma overlaps_sym (aS aE bS bE : option Z) :
  overlaps aS aE bS bE = overlaps bS bE aS aE.
Proof.
  destruct aS, aE, bS, bE; simpl; try done.
  apply bool_decide_ext. lia.
Qed.

Lemma set_allocation_fresh (doc : AllocationDoc.t) (allocs : list AllocationDoc.t) :
  AllocationDoc.id doc ∉ AllocationDoc.id <$> allocs →
  set_allocation doc allocs = allocs ++ [doc].
Proof.
  intros Hfresh. unfold set_allocation.
  destruct (list_find _ allocs) as [[i a]|] eqn:Hf; [ | done].
  apply list_find_Some in Hf as (Hi & Hid & _).
  exfalso. apply Hfresh. apply list_elem_of_fmap. exists a.
  split; [done | by eapply list_elem_of_lookup_2].
Qed.

(** The direct path keeps the booking invariant: the commitment it
    writes shares no resource with a commitment of the date whose
    window overlaps the window of the request. *)
Lemma direct_keeps_no_double_booking (now ts : Z) (requestId : string)
    (st st' : Store) (chosen : list Z) (moves : list Move) :
  run now ts requestId st = (Success "direct" chosen moves, st') →
  (∀ req, get_request st requestId = Some req →
          planId req now ∉ AllocationDoc.id <$> allocations st) →
  no_double_booking (allocations st) →
  no_double_booking (allocations st').
Proof.
  intros Hrun Hfresh Hinv.
  apply success_is_planned in Hrun as (req & Hreq & _ & Hplan).
  destruct Hplan as [(_ & _ & Hp & Hc)|(? & _)]; [ | done].
  apply plan_direct_inv in Hp as [_ ->].
  unfold commit_direct in Hc.
  destruct (update_request _ _ _ _); simplify_eq/=.
  rewrite set_allocation_fresh by (by apply Hfresh).
  set (new := newAllocation req now ts _).
  assert (∀ b n, b ∈ allocations st →
                 AllocationDoc.date b = RequestDoc.date req →
                 alloc_overlaps (window_start req) (window_end req) b = true →
                 n ∈ AllocationDoc.systems b →
                 n ∉ AllocationDoc.systems new) as Hnew.
  { intros b n Hb Hdate Hov Hn Hin. simpl in Hin. unfold slice0 in Hin.
    assert (n ∈ directly_free st req) as Hfree
        by (eapply elem_of_sublist; [exact Hin | apply sublist_take]).
    apply elem_of_nonReservedFree in Hfree as (_ & _ & _ & _ & Hbusy & _).
    apply Hbusy. unfold snapshot_busy. apply elem_of_busy. exists b.
    split_and!; [ | done | done].
    unfold query_allocations. by apply list_elem_of_filter. }
  intros i j a b n Hij Hi Hj Hdate Hov Hn.
  apply lookup_app_Some in Hi as [Hi|[Hlen Hi]];
    apply lookup_app_Some in Hj as [Hj|[Hlen' Hj]].
  - by eapply (Hinv i j a b n).
  - apply list_lookup_singleton_Some in Hj as [_ <-].
    eapply Hnew; [by eapply list_elem_of_lookup_2 | done | | done].
    unfold windows_overlap, alloc_overlaps in Hov. simpl in Hov.
    unfold alloc_overlaps, window_start, window_end. by rewrite overlaps_sym.
  - apply list_lookup_singleton_Some in Hi as [_ <-].
    intros Hn'. eapply Hnew; [by eapply list_elem_of_lookup_2 | done | | done | done].
    done.
  - apply list_lookup_singleton_Some in Hi as [Hi _].
    apply list_lookup_singleton_Some in Hj as [Hj _]. lia.
Qed.

(** The direct path hands out no resource under maintenance. *)
Lemma direct_excludes_maintenance (snap : Store) (req : RequestDoc.t)
    (chosen : list Z) (n : Z) :
  plan snap req = PlanDirect chosen → n ∈ chosen →
  ∃ sys, sys ∈ systems snap ∧ SystemDoc.systemNumber sys = n
         ∧ SystemDoc.status sys ≠ maintenance.
Proof.
  intros [_ ->]%plan_direct_inv Hin. unfold slice0 in Hin.
  assert (n ∈ directly_free snap req) as Hfree
      by (eapply elem_of_sublist; [exact Hin | apply sublist_take]).
  apply elem_of_nonReservedFree in Hfree as (sys & Hsys & ? & _ & _ & ?).
  exists sys. split_and!; [by apply elem_of_query_systems | done | done].
Qed.

(** C1, on the store [store_contested].  Workstation 2 is booked from
    10:00 to 11:00 and the request asks for two workstations in that
    window.  The booking invariant holds before the call.  The call
    succeeds in mode [minimal_reshuffle]: it accepts workstation 1,
    which is free, then moves the commitment [a1] from workstation 2
    to workstation 1 and accepts workstation 2.  Afterwards [a1] and
    the new commitment overlap in time and share workstation 1, so the
    invariant does not hold any more. *)
Theorem reshuffle_double_books :
  no_double_booking (allocations store_contested)
  ∧ (run 1000 7 "r1" store_contested).1
    = Success "minimal_reshuffle" [1; 2] [mkMove "a1" 2 1]
  ∧ AllocationDoc.systems <$> allocations (run 1000 7 "r1" store_contested).2
    = [[1]; [1; 2]]
  ∧ ¬ no_double_booking (allocations (run 1000 7 "r1" store_contested).2).
Proof.
  split_and!.
  - intros i j a b n Hij Hi Hj _ _ _.
    apply list_lookup_singleton_Some in Hi as [-> _].
    apply list_lookup_singleton_Some in Hj as [-> _]. done.
  - vm_compute. reflexivity.
  - vm_compute. reflexivity.
  - intros Hinv.
    assert (allocations (run 1000 7 "r1" store_contested).2 !! 0%nat
            = Some (AllocationDoc.update_systems [1] 7
                      (commitment "a1" [2] "10:00" "11:00"))) as H0
        by (vm_compute; reflexivity).
    assert (allocations (run 1000 7 "r1" store_contested).2 !! 1%nat
            = Some (newAllocation (request_r1 (Some 2) pending) 1000 7 [1; 2]))
      as H1 by (vm_compute; reflexivity).
    apply (Hinv 0%nat 1%nat _ _ 1 ltac:(done) H0 H1).
    + reflexivity.
    + vm_compute. reflexivity.
    + apply elem_of_cons. by left.
    + apply elem_of_cons. by left.
Qed.

(** C2, on the stores [store_maintenance_1] and [store_maintenance_2].
    In the first, workstation 1 is under maintenance and workstation 2
    is booked; the call succeeds in mode [minimal_reshuffle] and the
    resource it returns is workstation 1.  In the second, workstation 2
    is under maintenance and workstation 1 is booked; the call succeeds
    and the target of its one relocation is workstation 2. *)
Theorem reshuffle_uses_maintenance_resources :
  (status_of store_maintenance_1 1 = Some maintenance
   ∧ (run 1000 7 "r1" store_maintenance_1).1
     = Success "minimal_reshuffle" [1] [])
  ∧ (status_of store_maintenance_2 2 = Some maintenance
     ∧ (run 1000 7 "r1" store_maintenance_2).1
       = Success "minimal_reshuffle" [1] [mkMove "a1" 1 2]
     ∧ AllocationDoc.systems <$> allocations (run 1000 7 "r1" store_maintenance_2).2
       = [[2]; [1]]).
Proof. split_and!; vm_compute; reflexivity. Qed.

(** ** C3: the commit *)

(** C3 fails.  Nothing is checked at commit time, and no call ends in a
    commit conflict.

    (1) On the snapshot [store_idle] and the live store [store_raced]:
    planning chooses workstation 1, which another writer has booked for
    the same window before the commit.  The transaction of the direct
    path has no read; it writes all the same: the call returns a
    success, the request is accepted and workstation 1 is booked
    twice for the window.

    (2) On the snapshot [store_staggered] and the live store
    [store_vacated]: planning moves the commitment [a1] from
    workstation 1 to workstation 2, and another writer has moved it
    before the commit, so that it no longer holds workstation 1.  The
    transaction writes all the same: the call returns a success with
    that move and the request is accepted.

    (3) Whatever the stores, a failure carries one of the three reasons
    [request_not_found], [not_pending] and [no_feasible_plan]. *)
Theorem commit_does_not_recheck :
  (plan (store_idle (Some 1) pending) (request_r1 (Some 1) pending)
   = PlanDirect [1]
   ∧ ¬ still_free store_raced (request_r1 (Some 1) pending) 1
   ∧ (agentAllocateSingle 1000 7 "r1" (store_idle (Some 1) pending) store_raced).1
     = Success "direct" [1] []
   ∧ AllocationDoc.systems <$>
       allocations
         (agentAllocateSingle 1000 7 "r1" (store_idle (Some 1) pending)
            store_raced).2
     = [[1]; [1]]
   ∧ RequestDoc.status <$>
       requests
         (agentAllocateSingle 1000 7 "r1" (store_idle (Some 1) pending)
            store_raced).2
     = [accepted]
   ∧ ¬ no_double_booking
         (allocations
            (agentAllocateSingle 1000 7 "r1" (store_idle (Some 1) pending)
               store_raced).2))
  ∧ (plan store_staggered (request_r1 (Some 1) pending)
     = PlanReshuffle [1] [mkMove "a1" 1 2]
     ∧ ¬ still_holds store_vacated (mkMove "a1" 1 2)
     ∧ (agentAllocateSingle 1000 7 "r1" store_staggered store_vacated).1
       = Success "minimal_reshuffle" [1] [mkMove "a1" 1 2]
     ∧ RequestDoc.status <$>
         requests (agentAllocateSingle 1000 7 "r1" store_staggered store_vacated).2
       = [accepted])
  ∧ (∀ now ts requestId snap live reason st',
       agentAllocateSingle now ts requestId snap live = (Failure reason, st') →
       reason ∈ ["request_not_found"; "not_pending"; "no_feasible_plan"]).
Proof.
  split_and!.
  - vm_compute. reflexivity.
  - unfold still_free. intros Hfree. apply Hfree.
    unfold snapshot_busy. apply elem_of_busy.
    exists (commitment "a9" [1] "10:00" "11:00"). split_and!.
    + unfold query_allocations. apply list_elem_of_filter. split; [reflexivity | ].
      apply elem_of_cons. by left.
    + vm_compute. reflexivity.
    + apply elem_of_cons. by left.
  - vm_compute. reflexivity.
  - vm_compute. reflexivity.
  - vm_compute. reflexivity.
  - intros Hinv.
    assert (allocations
              (agentAllocateSingle 1000 7 "r1" (store_idle (Some 1) pending)
                 store_raced).2 !! 0%nat
            = Some (commitment "a9" [1] "10:00" "11:00")) as H0
        by (vm_compute; reflexivity).
    assert (allocations
              (agentAllocateSingle 1000 7 "r1" (store_idle (Some 1) pending)
                 store_raced).2 !! 1%nat
            = Some (newAllocation (request_r1 (Some 1) pending) 1000 7 [1]))
      as H1 by (vm_compute; reflexivity).
    apply (Hinv 0%nat 1%nat _ _ 1 ltac:(done) H0 H1).
    + reflexivity.
    + vm_compute. reflexivity.
    + apply elem_of_cons. by left.
    + apply elem_of_cons. by left.
  - vm_compute. reflexivity.
  - intros (a & Ha & Hid & Hheld). simpl in Ha.
    repeat (apply elem_of_cons in Ha as [->|Ha]).
    + simpl in Hheld. by apply list_elem_of_singleton in Hheld.
    + discriminate Hid.
    + by apply elem_of_nil in Ha.
  - vm_compute. reflexivity.
  - vm_compute. reflexivity.
  - intros now ts requestId snap live reason st'. unfold agentAllocateSingle.
    destruct (get_request snap requestId) as [req|].
    2:{ intros [= <- _]. apply elem_of_cons. by left. }
    case_bool_decide.
    { intros [= <- _]. apply elem_of_cons. right. apply elem_of_cons. by left. }
    destruct (plan snap req) as [c|c m|].
    + by destruct (commit_direct now ts req c live).
    + by destruct (commit_reshuffle now ts req c m live).
    + destruct (reject_request ts requestId live); [ | done].
      intros [= <- _].
      do 2 (apply elem_of_cons; right). apply elem_of_cons. by left.
Qed.

(** ** Scenarios *)

(** The carve-out of the seeded lab: the two highest i7 and the three
    highest i9 workstations. *)
Example seeded_lab_reserved :
  reservedI7 seeded_lab = list_to_set [32; 33]
  ∧ reservedI9 seeded_lab = list_to_set [12; 13; 14]
  ∧ nonReservedAll seeded_lab = seqZ 1 11 ++ seqZ 15 17.
Proof. split_and!; vm_compute; reflexivity. Qed.

(** Nothing is booked and three workstations are asked for: the three
    lowest numbers are handed out directly. *)
Example seeded_lab_direct :
  (run 1000 7 "r1" store_seeded).1 = Success "direct" [1; 2; 3] [].
Proof. vm_compute. reflexivity. Qed.

(** A relocation that is sound: the commitment on workstation 1 ends
    when the commitment on workstation 2 begins, so it can share
    workstation 2, and workstation 1 is free for the request. *)
Example staggered_reshuffle :
  (run 1000 7 "r1" store_staggered).1
  = Success "minimal_reshuffle" [1] [mkMove "a1" 1 2]
  ∧ AllocationDoc.systems <$> allocations (run 1000 7 "r1" store_staggered).2
    = [[2]; [2]; [1]]
  ∧ no_double_booking (allocations (run 1000 7 "r1" store_staggered).2).
Proof.
  split_and!; [vm_compute; reflexivity.. | ].
  intros i j a b n Hij Hi Hj Hdate Hov Hn Hn'.
  vm_compute in Hi, Hj.
  destruct i as [|[|[|i]]]; destruct j as [|[|[|j]]];
    try done; simplify_eq; vm_compute in Hov; try discriminate;
    repeat (apply elem_of_cons in Hn as [Hn|Hn]; [ | ]);
    repeat (apply elem_of_cons in Hn' as [Hn'|Hn']; [ | ]);
    try (by apply elem_of_nil in Hn); try (by apply elem_of_nil in Hn');
    simpl in *; lia.
Qed.

(** * Further properties of the engine *)

(** ** Windows (lines 42-48) *)

(** X1.  Two windows overlap exactly when the four bounds are numbers,
    both windows are non-empty and each starts before the other ends.
    So the test is symmetric, windows that only touch do not overlap,
    and an empty or inverted window overlaps nothing, itself included. *)
Theorem overlaps_iff (aS aE bS bE : option Z) :
  (overlaps aS aE bS bE = true
   ↔ ∃ a1 a2 b1 b2,
       aS = Some a1 ∧ aE = Some a2 ∧ bS = Some b1 ∧ bE = Some b2
       ∧ a1 < a2 ∧ b1 < b2 ∧ a1 < b2 ∧ b1 < a2)
  ∧ overlaps aS aE bS bE = overlaps bS bE aS aE
  ∧ (∀ a1 a2 b2, overlaps (Some a1) (Some a2) (Some a2) (Some b2) = false)
  ∧ (∀ a1 a2, a2 <= a1 →
       overlaps (Some a1) (Some a2) bS bE = false
       ∧ overlaps bS bE (Some a1) (Some a2) = false
       ∧ overlaps (Some a1) (Some a2) (Some a1) (Some a2) = false).
Proof.
  split_and!.
  - destruct aS as [a1|], aE as [a2|], bS as [b1|], bE as [b2|]; simpl;
      try (split; [discriminate | by intros (?&?&?&?&?&?&?&?&_)]).
    rewrite bool_decide_eq_true. split.
    + intros H. exists a1, a2, b1, b2. split_and!; try done; lia.
    + intros (?&?&?&?&?&?&?&?&?&?&?&?). simplify_eq. lia.
  - apply overlaps_sym.
  - intros a1 a2 b2. simpl. apply bool_decide_eq_false. lia.
  - intros a1 a2 Hle. split_and!.
    + destruct bS, bE; simpl; try done. apply bool_decide_eq_false. lia.
    + destruct bS, bE; simpl; try done. apply bool_decide_eq_false. lia.
    + simpl. apply bool_decide_eq_false. lia.
Qed.

Lemma overlaps_iff_witness :
  overlaps (Some 660) (Some 600) (Some 540) (Some 720) = false
  ∧ overlaps (Some 540) (Some 720) (Some 660) (Some 600) = false
  ∧ overlaps (Some 660) (Some 600) (Some 660) (Some 600) = false.
Proof.
  apply (proj2 (proj2 (proj2 (overlaps_iff None None (Some 540) (Some 720))))
           660 600).
  lia.
Defined.

Lemma overlaps_degenerate (s e bS bE : option Z) :
  s = None ∨ e = None ∨ (∃ s' e', s = Some s' ∧ e = Some e' ∧ e' <= s') →
  overlaps s e bS bE = false.
Proof.
  intros [->|[->|(s' & e' & -> & -> & Hle)]].
  - done.
  - by destruct s.
  - destruct bS, bE; simpl; try done. apply bool_decide_eq_false. lia.
Qed.

Lemma busy_nothing_overlaps (s e : option Z) (allocs : list AllocationDoc.t) :
  (∀ a, a ∈ allocs → alloc_overlaps s e a = false) → busy s e allocs = ∅.
Proof.
  intros Hno. apply set_eq. intros n. rewrite elem_of_busy. split.
  - intros (a & Ha & Hov & _). rewrite (Hno a Ha) in Hov. done.
  - by intros ?%not_elem_of_empty.
Qed.

Lemma split_colon_no_colon (cur t : string) :
  ":"%char ∉ String.list_ascii_of_string t → ∃ x, split_colon cur t = [x].
Proof.
  revert cur. induction t as [|c t IH]; intros cur Ht; simpl in *; [by eexists | ].
  rewrite bool_decide_eq_false_2.
  - apply IH. intros ?. apply Ht, elem_of_cons. by right.
  - intros ->. apply Ht, elem_of_cons. by left.
Qed.

(** A string without a colon has one component: the minutes are
    [undefined] and the sum is [NaN], whatever the hours are. *)
Lemma toMinutes_no_colon (t : string) :
  ":"%char ∉ String.list_ascii_of_string t → toMinutes t = None.
Proof.
  intros Ht. unfold toMinutes.
  destruct (split_colon_no_colon EmptyString t Ht) as [x ->]. simpl.
  by destruct (Number x).
Qed.

(** X2.  A request whose start or end time has no colon, or whose
    start and end are read as minute counts with the end not after the
    start, has an empty busy set whatever is booked: its directly-free
    list holds every system that is outside the carve-out and not under
    maintenance. *)
Theorem degenerate_window_sees_nothing_busy (snap : Store) (req : RequestDoc.t) :
  (":"%char ∉ String.list_ascii_of_string (RequestDoc.inTime req))
  ∨ (":"%char ∉ String.list_ascii_of_string (RequestDoc.outTime req))
  ∨ (∃ s e, window_start req = Some s ∧ window_end req = Some e ∧ e <= s) →
  snapshot_busy snap req = ∅
  ∧ directly_free snap req
    = SystemDoc.systemNumber <$>
        filter (fun sys => (isRes (query_systems snap) sys = false)
                           ∧ (SystemDoc.status sys ≠ maintenance))
               (query_systems snap).
Proof.
  intros Hdeg.
  assert (window_start req = None ∨ window_end req = None
          ∨ (∃ s e, window_start req = Some s ∧ window_end req = Some e
                    ∧ e <= s)) as Hwin.
  { destruct Hdeg as [Hin|[Hout|Hinv]].
    - left. by apply toMinutes_no_colon.
    - right. left. by apply toMinutes_no_colon.
    - by right; right. }
  assert (snapshot_busy snap req = ∅) as Hbusy.
  { unfold snapshot_busy. apply busy_nothing_overlaps. intros a _.
    unfold alloc_overlaps. by apply overlaps_degenerate. }
  split; [done | ]. unfold directly_free, nonReservedFree. rewrite Hbusy.
  f_equal. apply list_filter_iff. intros sys. split.
  - intros (? & _ & ?). done.
  - intros (? & ?). split_and!; [done | apply not_elem_of_empty | done].
Qed.

Lemma degenerate_window_sees_nothing_busy_witness :
  snapshot_busy store_inverted (request_at "11:00" "10:00" (Some 1)) = ∅
  ∧ snapshot_busy store_inverted (request_at "1000" "11:00" (Some 1)) = ∅
  ∧ (run 1000 7 "r1" store_inverted).1 = Success "direct" [1] [].
Proof.
  split_and!.
  - apply (degenerate_window_sees_nothing_busy store_inverted
             (request_at "11:00" "10:00" (Some 1))).
    right. right. exists 660, 600. split_and!; [reflexivity | reflexivity | lia].
  - apply (degenerate_window_sees_nothing_busy store_inverted
             (request_at "1000" "11:00" (Some 1))).
    left. simpl. intros Hin.
    repeat (apply elem_of_cons in Hin as [Hin|Hin]; [discriminate Hin | ]).
    by apply elem_of_nil in Hin.
  - vm_compute. reflexivity.
Defined.

(** ** The index of occupying commitments (lines 112-121) *)

(** X3.  The index lists, under a resource, the commitments that
    overlap the window and hold that resource, by their position in the
    snapshot; a resource has an entry exactly when it is busy. *)
Theorem sysToOverlaps_indexes_the_busy_set (s e : option Z)
    (allocs : list AllocationDoc.t) (n : Z) :
  (∀ i, i ∈ default [] (sysToOverlaps s e allocs !! n)
        ↔ ∃ a, allocs !! i = Some a ∧ alloc_overlaps s e a = true
               ∧ n ∈ AllocationDoc.systems a)
  ∧ (n ∈ busy s e allocs ↔ default [] (sysToOverlaps s e allocs !! n) ≠ []).
Proof.
  assert (∀ i, i ∈ default [] (sysToOverlaps s e allocs !! n)
               ↔ ∃ a, allocs !! i = Some a ∧ alloc_overlaps s e a = true
                      ∧ n ∈ AllocationDoc.systems a) as Hidx.
  { intros i. unfold sysToOverlaps.
    pose proof (elem_of_sysToOverlaps_from s e n i allocs 0 ∅) as H.
    rewrite (imap_ext _ pair) in H by done. rewrite H.
    rewrite lookup_empty. simpl. split.
    - intros [?%elem_of_nil|(j & a & -> & ? & ? & ?)]; [done | by exists a].
    - intros (a & ? & ? & ?). right. by exists i, a. }
  split; [exact Hidx | ]. rewrite elem_of_busy. split.
  - intros (a & [i Hi]%list_elem_of_lookup & Hov & Hn) Hnil.
    assert (i ∈ default [] (sysToOverlaps s e allocs !! n)) as Hin
        by (apply Hidx; by exists a).
    rewrite Hnil in Hin. by apply elem_of_nil in Hin.
  - intros Hne. destruct (default [] (sysToOverlaps s e allocs !! n))
      as [|i l] eqn:Hl; [done | ].
    destruct (proj1 (Hidx i)) as (a & Hi & ? & ?);
      [apply elem_of_cons; by left | ].
    exists a.
    split_and!; [by eapply list_elem_of_lookup_2 | done | done].
Qed.

(** ** Relocation targets (lines 139-151) *)

Lemma elem_of_busyForAlloc_from (alloc : AllocationDoc.t) (n : Z)
    (allocs : list AllocationDoc.t) (acc : gset Z) :
  n ∈ foldl (fun acc a =>
               if bool_decide (AllocationDoc.id a = AllocationDoc.id alloc) then acc
               else if alloc_overlaps (toMinutes (AllocationDoc.inTime alloc))
                                      (toMinutes (AllocationDoc.outTime alloc)) a
                    then add_all acc (AllocationDoc.systems a)
                    else acc) acc allocs
  ↔ n ∈ acc ∨ ∃ a, a ∈ allocs
                   ∧ AllocationDoc.id a ≠ AllocationDoc.id alloc
                   ∧ windows_overlap alloc a = true
                   ∧ n ∈ AllocationDoc.systems a.
Proof.
  unfold windows_overlap. revert acc.
  induction allocs as [|a allocs IH]; intros acc; simpl.
  - split; [auto | intros [?|(a & Ha & _)]; [done | by apply elem_of_nil in Ha]].
  - rewrite IH. case_bool_decide as Hid.
    + split.
      * intros [?|(b & ? & ? & ? & ?)]; [by left | ].
        right. exists b. split_and!; [apply elem_of_cons; by right | done..].
      * intros [?|(b & Hb & Hb' & ? & ?)]; [by left | ].
        apply elem_of_cons in Hb as [->|Hb]; [done | ].
        right. by exists b.
    + destruct (alloc_overlaps _ _ a) eqn:Hov.
      * rewrite elem_of_add_all. split.
        -- intros [[?|?]|(b & ? & ? & ? & ?)]; [by left | | ].
           ++ right. exists a. split_and!; [apply elem_of_cons; by left | done..].
           ++ right. exists b. split_and!; [apply elem_of_cons; by right | done..].
        -- intros [?|(b & Hb & ? & ? & ?)]; [by left; left | ].
           apply elem_of_cons in Hb as [->|Hb]; [by left; right | ].
           right. by exists b.
      * split.
        -- intros [?|(b & ? & ? & ? & ?)]; [by left | ].
           right. exists b. split_and!; [apply elem_of_cons; by right | done..].
        -- intros [?|(b & Hb & ? & Hb' & ?)]; [by left | ].
           apply elem_of_cons in Hb as [->|Hb]; [congruence | ].
           right. by exists b.
Qed.

(** The busy set of a commitment: the resources of the commitments
    with another id whose window overlaps its own. *)
Lemma elem_of_busyForAlloc (allocs : list AllocationDoc.t)
    (alloc : AllocationDoc.t) (n : Z) :
  n ∈ busyForAlloc allocs alloc
  ↔ ∃ a, a ∈ allocs ∧ AllocationDoc.id a ≠ AllocationDoc.id alloc
         ∧ windows_overlap alloc a = true ∧ n ∈ AllocationDoc.systems a.
Proof.
  unfold busyForAlloc. rewrite elem_of_busyForAlloc_from. set_solver.
Qed.

Lemma elem_of_swap (from to n : Z) (l : list Z) :
  n ∈ swap from to <$> l → n = to ∨ n ∈ l.
Proof.
  intros (m & -> & Hm)%list_elem_of_fmap. unfold swap.
  case_bool_decide; [by left | by right].
Qed.

Lemma windows_overlap_sym (a b : AllocationDoc.t) :
  windows_overlap a b = windows_overlap b a.
Proof. unfold windows_overlap, alloc_overlaps. apply overlaps_sym. Qed.

Lemma NoDup_id_lookup (allocs : list AllocationDoc.t) (i j : nat)
    (a b : AllocationDoc.t) :
  NoDup (AllocationDoc.id <$> allocs) →
  allocs !! i = Some a → allocs !! j = Some b →
  AllocationDoc.id a = AllocationDoc.id b → i = j.
Proof.
  intros Hnd Hi Hj Hid. eapply NoDup_lookup; [exact Hnd | | ].
  - by rewrite list_lookup_fmap, Hi.
  - by rewrite list_lookup_fmap, Hj, Hid.
Qed.

(** One relocation keeps the commitments of the snapshot apart. *)
Lemma relocate_keeps_apart (nra : list Z) (allocs : list AllocationDoc.t)
    (i : nat) (alloc : AllocationDoc.t) (sysNum target : Z) (rest : list Z) :
  NoDup (AllocationDoc.id <$> allocs) →
  no_double_booking allocs →
  allocs !! i = Some alloc →
  candidateTargets nra (busyForAlloc allocs alloc) sysNum = target :: rest →
  no_double_booking
    (<[ i := AllocationDoc.set_systems
               (swap sysNum target <$> AllocationDoc.systems alloc) alloc ]> allocs).
Proof.
  intros Hnd Hinv Hi Hcand.
  assert (target ∉ busyForAlloc allocs alloc) as Htarget.
  { assert (target ∈ candidateTargets nra (busyForAlloc allocs alloc) sysNum)
      as Ht by (rewrite Hcand; apply elem_of_cons; by left).
    by apply elem_of_candidateTargets in Ht as (_ & ? & _). }
  assert (∀ k b, k ≠ i → allocs !! k = Some b → windows_overlap alloc b = true →
                 target ∉ AllocationDoc.systems b) as Hfree.
  { intros k b Hk Hb Hov Hin. apply Htarget, elem_of_busyForAlloc.
    exists b. split_and!; [by eapply list_elem_of_lookup_2 | | done | done].
    intros Hid. apply Hk. by eapply (NoDup_id_lookup allocs k i b alloc). }
  intros j k a b n Hjk Hj Hk Hdate Hov Hn Hn'.
  destruct (decide (j = i)) as [->|Hji]; destruct (decide (k = i)) as [->|Hki];
    [done | | | ].
  - rewrite list_lookup_insert_eq in Hj by (by eapply lookup_lt_Some).
    rewrite list_lookup_insert_ne in Hk by done. simplify_eq/=.
    apply elem_of_swap in Hn as [->|Hn].
    + by eapply (Hfree k b).
    + by eapply (Hinv i k alloc b n).
  - rewrite list_lookup_insert_ne in Hj by done.
    rewrite list_lookup_insert_eq in Hk by (by eapply lookup_lt_Some).
    simplify_eq/=. rewrite windows_overlap_sym in Hov.
    apply elem_of_swap in Hn' as [->|Hn'].
    + by eapply (Hfree j a).
    + eapply (Hinv j i a alloc n); try done. by rewrite windows_overlap_sym.
  - rewrite list_lookup_insert_ne in Hj by done.
    rewrite list_lookup_insert_ne in Hk by done.
    by eapply (Hinv j k a b n).
Qed.

Lemma plan_steps_keep_apart (nra : list Z) (st0 st : PlanState) :
  rtc (plan_step nra) st0 st →
  NoDup (AllocationDoc.id <$> ps_allocations st0) →
  no_double_booking (ps_allocations st0) →
  AllocationDoc.id <$> ps_allocations st = AllocationDoc.id <$> ps_allocations st0
  ∧ no_double_booking (ps_allocations st).
Proof.
  intros Hsteps Hnd Hinv. pattern st. revert st Hsteps. apply rtc_ind_r.
  - done.
  - intros st st1 _ Hstep [Hids IH].
    destruct Hstep as [st sysNum Hin Hb|st i alloc sysNum target rest Hin Hb Hi Hcand];
      simpl; [done | ].
    split.
    + rewrite list_fmap_insert. simpl. rewrite <- Hids.
      apply list_insert_id. by rewrite list_lookup_fmap, Hi.
    + eapply relocate_keeps_apart; [by rewrite Hids | done | done | done].
Qed.

(** X4.  The reshuffle pass never makes two commitments of the
    snapshot clash: when their ids are distinct and they are pairwise
    apart before the pass, they are pairwise apart after it, whatever
    was relocated. *)
Theorem relocations_keep_existing_commitments_apart
    (nd : Z) (s e : option Z) (syss : list SystemDoc.t)
    (allocs : list AllocationDoc.t) :
  NoDup (AllocationDoc.id <$> allocs) →
  no_double_booking allocs →
  no_double_booking (ps_allocations (reshuffle nd s e syss allocs)).
Proof.
  intros Hnd Hinv.
  by destruct (plan_steps_keep_apart _ _ _ (reshuffle_steps nd s e syss allocs)
                 Hnd Hinv).
Qed.

Lemma relocations_keep_existing_commitments_apart_witness :
  AllocationDoc.systems <$> allocations store_two_booked = [[1]; [2]]
  ∧ AllocationDoc.systems <$>
      ps_allocations
        (reshuffle 3 (Some 600) (Some 660) lab5 (allocations store_two_booked))
    = [[3]; [1]]
  ∧ no_double_booking
      (ps_allocations
         (reshuffle 3 (Some 600) (Some 660) lab5 (allocations store_two_booked))).
Proof.
  split; [reflexivity | ]. split; [vm_compute; reflexivity | ].
  apply relocations_keep_existing_commitments_apart.
  - apply (bool_decide_unpack _). vm_compute. reflexivity.
  - intros i j a b n Hij Hi Hj _ _ Hn Hn'.
    destruct i as [|[|i]], j as [|[|j]]; simpl in Hi, Hj; simplify_eq;
      simpl in Hn, Hn';
      apply list_elem_of_singleton in Hn; apply list_elem_of_singleton in Hn';
      congruence.
Defined.

(** ** The transaction of the reshuffle path (lines 162-188) *)

Lemma apply_move_ids (ts : Z) (allocs : list AllocationDoc.t) (r : Move) :
  AllocationDoc.id <$> apply_move ts allocs r = AllocationDoc.id <$> allocs.
Proof.
  unfold apply_move.
  destruct (list_find _ allocs) as [[j data]|] eqn:Hf; [ | done].
  apply list_find_Some in Hf as (Hj & _ & _).
  rewrite list_fmap_insert. simpl.
  apply list_insert_id. by rewrite list_lookup_fmap, Hj.
Qed.

(** With distinct ids a move rewrites the commitment it names and no
    other. *)
Lemma replay_moves_ids (ts : Z) (written : bool)
    (allocs moved : list AllocationDoc.t) (moves : list Move) :
  replay_moves ts written allocs moves = Some moved →
  AllocationDoc.id <$> moved = AllocationDoc.id <$> allocs.
Proof.
  revert written allocs. induction moves as [|r moves IH];
    intros written allocs; simpl.
  - by intros [= <-].
  - destruct written; [done | ].
    destruct (list_find _ allocs); intros Hm%IH; [ | done].
    by rewrite Hm, apply_move_ids.
Qed.

(** X5.  The transaction of the reshuffle path reads before it writes.
    In a call that no other writer interleaves with, every planned
    move names a stored commitment, so the first turn of the loop
    writes; a plan with two or more moves makes the second turn read
    after that write: the transaction fails, the call rejects and the
    store is left as it was.  A plan with no move or one move is
    written: the move, the new commitment and the accepted status. *)
Theorem reshuffle_commit_reads_before_writes (now ts : Z) (requestId : string)
    (st : Store) (req : RequestDoc.t) (chosen : list Z) (moves : list Move) :
  get_request st requestId = Some req →
  RequestDoc.status req = pending →
  plan st req = PlanReshuffle chosen moves →
  ((2 <= length moves)%nat → run now ts requestId st = (Rejects, st))
  ∧ ((length moves <= 1)%nat →
     ∃ st' doc,
       run now ts requestId st = (Success "minimal_reshuffle" chosen moves, st')
       ∧ allocations st'
         = set_allocation (newAllocation req now ts chosen)
             (foldl (apply_move ts) (allocations st) moves)
       ∧ systems st' = systems st
       ∧ get_request st' requestId = Some doc
       ∧ RequestDoc.status doc = accepted).
Proof.
  intros Hreq Hpend Hplan.
  pose proof (plan_moves_named _ _ _ _ Hplan) as Hnamed.
  destruct (get_request_Some _ _ _ Hreq) as [Hid _].
  unfold run, agentAllocateSingle. rewrite Hreq, Hplan.
  rewrite bool_decide_eq_false_2 by (by intros []).
  unfold commit_reshuffle. rewrite replay_moves_found by done.
  destruct (update_request_Some st requestId req accepted ts Hreq)
    as (i & _ & Hupd & Hget).
  rewrite Hid, Hupd. split.
  - intros Hlen. by destruct moves as [|r1 [|r2 moves]]; simpl in *; try lia.
  - intros Hlen. destruct moves as [|r1 [|r2 moves]]; simpl in *; try lia.
    + eexists _, _. split_and!; [reflexivity | done | done | apply Hget | done].
    + eexists _, _. split_and!; [reflexivity | done | done | apply Hget | done].
Qed.

Lemma reshuffle_commit_reads_before_writes_witness :
  plan store_two_booked (request_r1 (Some 3) pending)
  = PlanReshuffle [1; 2; 3] [mkMove "a1" 1 3; mkMove "a2" 2 1]
  ∧ run 1000 7 "r1" store_two_booked = (Rejects, store_two_booked).
Proof.
  assert (plan store_two_booked (request_r1 (Some 3) pending)
          = PlanReshuffle [1; 2; 3] [mkMove "a1" 1 3; mkMove "a2" 2 1]) as Hplan
      by (vm_compute; reflexivity).
  split; [exact Hplan | ].
  apply (proj1 (reshuffle_commit_reads_before_writes 1000 7 "r1" store_two_booked
                  (request_r1 (Some 3) pending) [1; 2; 3]
                  [mkMove "a1" 1 3; mkMove "a2" 2 1]
                  ltac:(vm_compute; reflexivity) eq_refl Hplan)).
  simpl. lia.
Defined.

(** ** The shape of a reshuffle plan (lines 126-162) *)

(** What one run of the loop adds: the accepted candidates, in the
    order of the candidate list, and the moves, whose sources are
    accepted candidates in the same order. *)
Lemma reshuffle_loop_picks (nd : Z) (s2o : gmap Z (list nat)) (nra todo : list Z)
    (st : PlanState) :
  ∃ picked new_moves,
    ps_chosen (reshuffle_loop nd s2o nra todo st) = ps_chosen st ++ picked
    ∧ sublist picked todo
    ∧ ps_reshuffles (reshuffle_loop nd s2o nra todo st)
      = ps_reshuffles st ++ new_moves
    ∧ sublist (move_from <$> new_moves) picked
    ∧ (Z.of_nat (length (ps_chosen st)) < nd →
       Z.of_nat (length (ps_chosen (reshuffle_loop nd s2o nra todo st))) <= nd).
Proof.
  revert st. induction todo as [|sysNum todo IH]; intros st; simpl.
  - exists [], []. rewrite !app_nil_r. split_and!; [done.. | lia].
  - case_bool_decide as Hbusy.
    + destruct (length_ge (ps_chosen st ++ [sysNum]) nd) eqn:Hge.
      * exists [sysNum], []. rewrite app_nil_r. simpl.
        split_and!; [done | by apply sublist_skip, sublist_nil_l | done
                    | apply sublist_nil_l | ].
        rewrite length_app. simpl. lia.
      * destruct (IH (push_chosen sysNum st))
          as (picked & new_moves & Hc & Hsub & Hm & Hfrom & Hlen).
        exists (sysNum :: picked), new_moves. split_and!.
        -- rewrite Hc. simpl. by rewrite <- app_assoc.
        -- by apply sublist_skip.
        -- done.
        -- by apply sublist_cons.
        -- intros _. apply Hlen. by apply length_ge_false in Hge.
    + destruct (free_system nra sysNum (default [] (s2o !! sysNum)) st)
        as [st1|] eqn:Hfree.
      * apply free_system_Some in Hfree
          as (i & alloc & target & rest & _ & Hi & Hc & ->).
        simpl.
        destruct (length_ge (ps_chosen st ++ [sysNum]) nd) eqn:Hge.
        -- exists [sysNum], [mkMove (AllocationDoc.id alloc) sysNum target]. simpl.
           split_and!; [done | by apply sublist_skip, sublist_nil_l | done | done | ].
           rewrite length_app. simpl. lia.
        -- destruct (IH (push_chosen sysNum (relocate i alloc sysNum target st)))
             as (picked & new_moves & Hc' & Hsub & Hm & Hfrom & Hlen).
           exists (sysNum :: picked),
             (mkMove (AllocationDoc.id alloc) sysNum target :: new_moves).
           split_and!.
           ++ rewrite Hc'. simpl. by rewrite <- app_assoc.
           ++ by apply sublist_skip.
           ++ rewrite Hm. simpl. by rewrite <- app_assoc.
           ++ simpl. by apply sublist_skip.
           ++ intros _. apply Hlen. simpl. by apply length_ge_false in Hge.
      * destruct (IH st) as (picked & new_moves & Hc & Hsub & Hm & Hfrom & Hlen).
        exists picked, new_moves. split_and!; [done | by apply sublist_cons | done..].
Qed.

Lemma nonReservedAll_sorted (st : Store) :
  StronglySorted Z.le (nonReservedAll (query_systems st)).
Proof.
  unfold nonReservedAll.
  apply (StronglySorted_fmap _ le_systemNumber); [by unfold le_systemNumber | ].
  eapply StronglySorted_sublist; [apply sublist_filter | apply query_systems_sorted].
Qed.

(** X6.  In a reshuffle plan nothing is cut off the accepted
    candidates; they are a sub-list of the non-reserved list, hence in
    ascending order of sequence number; and the sources of the moves
    are accepted candidates, in the same order: a commitment is only
    relocated off a resource that is then handed to the request. *)
Theorem reshuffle_plan_shape (snap : Store) (req : RequestDoc.t)
    (chosen : list Z) (moves : list Move) :
  plan snap req = PlanReshuffle chosen moves →
  chosen = ps_chosen (reshuffle_pass snap req)
  ∧ sublist chosen (nonReservedAll (query_systems snap))
  ∧ StronglySorted Z.le chosen
  ∧ sublist (move_from <$> moves) chosen
  ∧ (length moves <= length chosen)%nat.
Proof.
  intros (_ & -> & ->)%plan_reshuffle_inv.
  unfold reshuffle_pass, reshuffle.
  destruct (reshuffle_loop_picks (need req)
              (sysToOverlaps (window_start req) (window_end req)
                 (query_allocations snap (RequestDoc.date req)))
              (nonReservedAll (query_systems snap))
              (nonReservedAll (query_systems snap))
              (mkPlan (busy (window_start req) (window_end req)
                         (query_allocations snap (RequestDoc.date req)))
                      (query_allocations snap (RequestDoc.date req)) [] []))
    as (picked & new_moves & Hc & Hsub & Hm & Hfrom & Hlen).
  simpl in Hc, Hm, Hlen. rewrite Hc, Hm.
  assert (slice0 (need req) picked = picked) as ->.
  { unfold slice0. apply take_ge. rewrite Hc in Hlen.
    pose proof (need_ge_1 req). lia. }
  split_and!; [done | done | | done | ].
  - eapply StronglySorted_sublist; [exact Hsub | apply nonReservedAll_sorted].
  - apply sublist_length in Hfrom. by rewrite length_fmap in Hfrom.
Qed.

Lemma reshuffle_plan_shape_witness :
  sublist [1] (nonReservedAll (query_systems store_staggered))
  ∧ sublist (move_from <$> [mkMove "a1" 1 2]) [1].
Proof.
  destruct (reshuffle_plan_shape store_staggered (request_r1 (Some 1) pending)
              [1] [mkMove "a1" 1 2]) as (_ & Hsub & _ & Hfrom & _).
  - vm_compute. reflexivity.
  - split; [exact Hsub | exact Hfrom].
Defined.

(** ** Capacity (lines 81-91, 126-162, 190-194) *)

Lemma nonReservedFree_sublist (syss : list SystemDoc.t) (bsy : gset Z) :
  sublist (nonReservedFree syss bsy) (nonReservedAll syss).
Proof.
  unfold nonReservedFree, nonReservedAll. apply fmap_sublist.
  rewrite (list_filter_iff _
             (fun sys => ((SystemDoc.systemNumber sys ∉ bsy)
                          ∧ (SystemDoc.status sys ≠ maintenance))
                         ∧ (isRes syss sys = false))) by (intros; tauto).
  rewrite <- (list_filter_filter
                (fun sys => (SystemDoc.systemNumber sys ∉ bsy)
                            ∧ (SystemDoc.status sys ≠ maintenance))
                (fun sys => isRes syss sys = false)).
  apply sublist_filter.
Qed.

Lemma run_plan_none (now ts : Z) (requestId : string) (st : Store)
    (req : RequestDoc.t) :
  get_request st requestId = Some req →
  RequestDoc.status req = pending →
  plan st req = PlanNone →
  ∃ st', run now ts requestId st = (Failure "no_feasible_plan", st')
         ∧ allocations st' = allocations st.
Proof.
  intros Hreq Hpend Hplan. unfold run, agentAllocateSingle.
  rewrite Hreq, bool_decide_eq_false_2, Hplan by (by intros []).
  destruct (update_request_Some st requestId req rejected ts Hreq)
    as (i & _ & Hupd & _).
  unfold reject_request. rewrite Hupd. simpl. eexists. split; reflexivity.
Qed.

Lemma reshuffle_pass_chosen_sublist (snap : Store) (req : RequestDoc.t) :
  sublist (ps_chosen (reshuffle_pass snap req))
          (nonReservedAll (query_systems snap)).
Proof.
  unfold reshuffle_pass, reshuffle.
  destruct (reshuffle_loop_picks (need req)
              (sysToOverlaps (window_start req) (window_end req)
                 (query_allocations snap (RequestDoc.date req)))
              (nonReservedAll (query_systems snap))
              (nonReservedAll (query_systems snap))
              (mkPlan (busy (window_start req) (window_end req)
                         (query_allocations snap (RequestDoc.date req)))
                      (query_allocations snap (RequestDoc.date req)) [] []))
    as (picked & _ & Hc & Hsub & _).
  simpl in Hc. by rewrite Hc.
Qed.

(** X7.  A pending request that asks for more resources than there are
    systems outside the carve-out is rejected with [no_feasible_plan],
    whatever is booked, and no commitment is written or changed. *)
Theorem demand_beyond_capacity_is_rejected
    (now ts : Z) (requestId : string) (st : Store) (req : RequestDoc.t) :
  get_request st requestId = Some req →
  RequestDoc.status req = pending →
  Z.of_nat (length (nonReservedAll (query_systems st))) < need req →
  ∃ st', run now ts requestId st = (Failure "no_feasible_plan", st')
         ∧ allocations st' = allocations st.
Proof.
  intros Hreq Hpend Hcap.
  apply (run_plan_none now ts requestId st req); [done | done | ].
  unfold plan. cbv zeta.
  pose proof (sublist_length _ _
                (nonReservedFree_sublist (query_systems st) (snapshot_busy st req)))
    as Hfree.
  pose proof (sublist_length _ _ (reshuffle_pass_chosen_sublist st req)) as Hpass.
  fold (directly_free st req) in Hfree.
  rewrite (proj2 (length_ge_false (directly_free st req) (need req))) by lia.
  rewrite (proj2 (length_ge_false (ps_chosen (reshuffle_pass st req)) (need req)))
    by lia.
  done.
Qed.

Lemma demand_beyond_capacity_is_rejected_witness :
  ∃ st', run 1000 7 "r1" (store_idle (Some 3) pending)
         = (Failure "no_feasible_plan", st').
Proof.
  destruct (demand_beyond_capacity_is_rejected 1000 7 "r1"
              (store_idle (Some 3) pending) (request_r1 (Some 3) pending))
    as (st' & Hrun & _).
  - vm_compute. reflexivity.
  - reflexivity.
  - vm_compute. reflexivity.
  - exists st'. exact Hrun.
Defined.

(** ** Reshuffle plans without a move (lines 81-88 against 126-135) *)

(** A run of the loop that records no move accepts only candidates
    that are not busy. *)
Lemma reshuffle_loop_no_moves (nd : Z) (s2o : gmap Z (list nat))
    (nra todo : list Z) (st : PlanState) :
  ps_reshuffles (reshuffle_loop nd s2o nra todo st) = ps_reshuffles st →
  ∃ picked,
    ps_chosen (reshuffle_loop nd s2o nra todo st) = ps_chosen st ++ picked
    ∧ sublist picked (filter (fun n => n ∉ ps_busy st) todo).
Proof.
  revert st. induction todo as [|sysNum todo IH]; intros st; simpl.
  - intros _. exists []. by rewrite app_nil_r.
  - rewrite filter_cons. case_bool_decide as Hbusy.
    + rewrite decide_True by done.
      destruct (length_ge (ps_chosen st ++ [sysNum]) nd) eqn:Hge.
      * intros _. exists [sysNum]. split; [done | ].
        by apply sublist_skip, sublist_nil_l.
      * intros Hm. destruct (IH (push_chosen sysNum st) Hm) as (picked & Hc & Hsub).
        exists (sysNum :: picked). split.
        -- rewrite Hc. simpl. by rewrite <- app_assoc.
        -- by apply sublist_skip.
    + rewrite decide_False by (intros Hn; by apply Hn).
      destruct (free_system nra sysNum (default [] (s2o !! sysNum)) st)
        as [st1|] eqn:Hfree.
      * apply free_system_Some in Hfree
          as (i & alloc & target & rest & _ & Hi & Hc & ->).
        simpl. intros Hm. exfalso.
        assert (∃ more, ps_reshuffles st
                        = (ps_reshuffles st
                           ++ [mkMove (AllocationDoc.id alloc) sysNum target])
                          ++ more) as [more Hmore].
        { destruct (length_ge (ps_chosen st ++ [sysNum]) nd).
          - exists []. by rewrite app_nil_r.
          - destruct (reshuffle_loop_picks nd s2o nra todo
                        (push_chosen sysNum (relocate i alloc sysNum target st)))
              as (_ & more & _ & _ & Hm' & _).
            exists more. by rewrite <- Hm at 1. }
        apply (f_equal length) in Hmore. rewrite !length_app in Hmore.
        simpl in Hmore. lia.
      * intros Hm. by apply IH.
Qed.

Lemma filter_ext_elem_of {A} (P Q : A → Prop)
    `{!∀ x, Decision (P x)} `{!∀ x, Decision (Q x)} (l : list A) :
  (∀ x, x ∈ l → (P x ↔ Q x)) → filter P l = filter Q l.
Proof.
  induction l as [|x l IH]; intros Hext; [done | ].
  rewrite !filter_cons.
  rewrite (decide_ext (P x) (Q x)) by (apply Hext, elem_of_cons; by left).
  rewrite IH by (intros y Hy; apply Hext, elem_of_cons; by right).
  done.
Qed.

(** X8.  When no system outside the carve-out is under maintenance, a
    plan in mode [minimal_reshuffle] relocates at least one
    commitment. *)
Theorem reshuffle_without_maintenance_relocates (snap : Store)
    (req : RequestDoc.t) (chosen : list Z) (moves : list Move) :
  (∀ sys, sys ∈ systems snap → isRes (systems snap) sys = false →
          SystemDoc.status sys ≠ maintenance) →
  plan snap req = PlanReshuffle chosen moves →
  moves ≠ [].
Proof.
  intros Hmaint Hplan Hnil. subst moves.
  pose proof (plan_chosen_length snap req) as Hlen. rewrite Hplan in Hlen.
  apply plan_reshuffle_inv in Hplan as (Hfree & -> & Hm).
  assert (directly_free snap req
          = filter (fun n => n ∉ snapshot_busy snap req)
                   (nonReservedAll (query_systems snap))) as Hdf.
  { unfold directly_free, nonReservedFree, nonReservedAll.
    rewrite (filter_fmap_ext SystemDoc.systemNumber _
               (fun sys => SystemDoc.systemNumber sys ∉ snapshot_busy snap req))
      by done.
    f_equal. rewrite list_filter_filter. apply filter_ext_elem_of.
    intros sys Hsys. split; [tauto | ].
    intros [Hb Hres]. split_and!; [done | done | ].
    apply Hmaint; [by apply elem_of_query_systems | ].
    by rewrite <- isRes_query_systems. }
  unfold reshuffle_pass, reshuffle in Hm, Hlen.
  destruct (reshuffle_loop_no_moves _ _ _ _ _ (eq_sym Hm)) as (picked & Hc & Hsub).
  simpl in Hc, Hsub. unfold reshuffle_pass, reshuffle in Hlen.
  fold (snapshot_busy snap req) in Hsub. rewrite <- Hdf in Hsub.
  apply sublist_length in Hsub.
  assert (length (slice0 (need req) picked) <= length picked)%nat
    by (unfold slice0; rewrite length_take; lia).
  rewrite Hc in Hlen. lia.
Qed.

Lemma reshuffle_without_maintenance_relocates_witness :
  [mkMove "a1" 1 2] ≠ [].
Proof.
  apply (reshuffle_without_maintenance_relocates store_staggered
           (request_r1 (Some 1) pending) [1] [mkMove "a1" 1 2]).
  - intros sys Hin _. simpl in Hin.
    repeat (apply elem_of_cons in Hin as [->|Hin]);
      [vm_compute; discriminate.. | by apply elem_of_nil in Hin].
  - vm_compute. reflexivity.
Defined.

(** ** The size of the carve-out (lines 62-65, 83) *)

Lemma size_list_to_set_le (l : list Z) :
  (size (list_to_set l : gset Z) <= length l)%nat.
Proof.
  induction l as [|x l IH]; simpl; [done | ].
  destruct (decide (x ∈ (list_to_set l : gset Z))) as [Hin|Hout].
  - assert ({[x]} ∪ list_to_set l = (list_to_set l : gset Z)) as -> by set_solver.
    lia.
  - rewrite size_union by set_solver. rewrite size_singleton. lia.
Qed.

Lemma typeNums_length (ty : SystemType) (syss : list SystemDoc.t) :
  length (typeNums ty syss)
  = length (filter (fun s => SystemDoc.type s = ty) syss).
Proof.
  unfold typeNums.
  by rewrite (Permutation_length (merge_sort_Permutation _ _)), length_fmap.
Qed.

Lemma slice_neg_length (k : nat) (l : list Z) :
  (0 < k)%nat → length (slice_neg k l) = (length l `min` k)%nat.
Proof.
  intros Hk. destruct k as [|k]; [lia | ]. unfold slice_neg.
  rewrite length_drop. lia.
Qed.

Lemma slice_neg_all (k : nat) (l : list Z) :
  (length l <= k)%nat → slice_neg k l = l.
Proof.
  intros Hle. destruct k as [|k]; [done | ]. unfold slice_neg.
  replace (length l - S k)%nat with 0%nat by lia. done.
Qed.

(** X9.  The carve-out takes at most two i7 and three i9 sequence
    numbers, and exactly that many from a class that has as many
    systems, numbers being unique; a class with no more systems than
    its quota is reserved entirely, so none of its systems can be
    allocated. *)
Theorem carve_out_size (syss : list SystemDoc.t) :
  (size (reservedI7 syss) <= 2)%nat
  ∧ (size (reservedI9 syss) <= 3)%nat
  ∧ (NoDup (SystemDoc.systemNumber <$> syss) →
     ((2 <= length (filter (fun s => SystemDoc.type s = i7) syss))%nat →
      size (reservedI7 syss) = 2%nat)
     ∧ ((3 <= length (filter (fun s => SystemDoc.type s = i9) syss))%nat →
        size (reservedI9 syss) = 3%nat))
  ∧ (∀ sys, sys ∈ syss →
       (SystemDoc.type sys = i7 →
        (length (filter (fun s => SystemDoc.type s = i7) syss) <= 2)%nat →
        isRes syss sys = true)
       ∧ (SystemDoc.type sys = i9 →
          (length (filter (fun s => SystemDoc.type s = i9) syss) <= 3)%nat →
          isRes syss sys = true)).
Proof.
  assert (∀ k ty, (0 < k)%nat →
            (size (list_to_set (slice_neg k (typeNums ty syss)) : gset Z) <= k)%nat)
    as Hle.
  { intros k ty Hk. etrans; [apply size_list_to_set_le | ].
    rewrite slice_neg_length by done. lia. }
  assert (∀ k ty, (0 < k)%nat → NoDup (SystemDoc.systemNumber <$> syss) →
            (k <= length (filter (fun s => SystemDoc.type s = ty) syss))%nat →
            size (list_to_set (slice_neg k (typeNums ty syss)) : gset Z) = k)
    as Heq.
  { intros k ty Hk Hnd Hlen. rewrite size_list_to_set.
    - rewrite slice_neg_length, typeNums_length by done. lia.
    - destruct k as [|k]; [lia | ]. unfold slice_neg.
      eapply sublist_NoDup; [by apply typeNums_NoDup | apply sublist_drop]. }
  assert (∀ k ty sys, sys ∈ syss → SystemDoc.type sys = ty →
            (length (filter (fun s => SystemDoc.type s = ty) syss) <= k)%nat →
            SystemDoc.systemNumber sys
            ∈ (list_to_set (slice_neg k (typeNums ty syss)) : gset Z)) as Hall.
  { intros k ty sys Hin Hty Hlen. rewrite elem_of_list_to_set.
    rewrite slice_neg_all by (by rewrite typeNums_length).
    apply elem_of_typeNums. by exists sys. }
  split_and!.
  - apply Hle. unfold RESERVED_I7. lia.
  - apply Hle. unfold RESERVED_I9. lia.
  - intros Hnd. split; intros Hlen.
    + apply Heq; [unfold RESERVED_I7; lia | done | done].
    + apply Heq; [unfold RESERVED_I9; lia | done | done].
  - intros sys Hin. split; intros Hty Hlen; unfold isRes; rewrite Hty;
      apply bool_decide_eq_true; by apply Hall.
Qed.

Lemma carve_out_size_witness :
  size (reservedI7 (lab available available)) = 2%nat
  ∧ isRes [workstation 1 i7 available; workstation 2 i7 available]
          (workstation 1 i7 available) = true.
Proof.
  split.
  - apply (proj1 (proj2 (proj2 (carve_out_size (lab available available))))).
    + simpl. repeat (apply NoDup_cons; split; [set_solver | ]). apply NoDup_nil_2.
    + simpl. lia.
  - destruct (proj2 (proj2 (proj2 (carve_out_size
                                     [workstation 1 i7 available;
                                      workstation 2 i7 available])))
                (workstation 1 i7 available)) as [H7 _].
    + apply elem_of_cons. by left.
    + apply H7; [reflexivity | simpl; lia].
Defined.

(** ** The new commitment (lines 93-106, 172-184) *)

Lemma list_ascii_app (a b : string) :
  String.list_ascii_of_string (a +:+ b)
  = String.list_ascii_of_string a ++ String.list_ascii_of_string b.
Proof.
  induction a as [|c a IH]; [done | ].
  change (String c a +:+ b) with (String c (a +:+ b)). simpl. by rewrite IH.
Qed.

Lemma pretty_N_char_digit (k : N) :
  (k < 10)%N → digit_value (pretty_N_char k) = Some (Z.of_N k).
Proof.
  intros Hk.
  assert (k = 0 ∨ k = 1 ∨ k = 2 ∨ k = 3 ∨ k = 4 ∨ k = 5 ∨ k = 6 ∨ k = 7
          ∨ k = 8 ∨ k = 9)%N as Hcases by lia.
  repeat (destruct Hcases as [->|Hcases]; [by vm_compute | ]).
  subst. by vm_compute.
Qed.

(** The characters [pretty_N_go] puts before [s] are decimal digits. *)
Lemma pretty_N_go_chars (x : N) (s : string) (c : ascii) :
  c ∈ String.list_ascii_of_string (pretty_N_go x s) →
  c ∈ String.list_ascii_of_string s ∨ is_Some (digit_value c).
Proof.
  revert s. induction (N.lt_wf_0 x) as [x _ IH]; intros s.
  assert (x = 0 ∨ 0 < x)%N as [->|Hpos] by lia.
  - rewrite pretty_N_go_0. by left.
  - rewrite pretty_N_go_step by done.
    intros [Hin|?]%IH; [ | by right | by apply N.div_lt].
    simpl in Hin. apply elem_of_cons in Hin as [->|?]; [ | by left].
    right. rewrite pretty_N_char_digit; [done | ]. by apply N.mod_lt.
Qed.

(** The decimal rendering of an integer is made of digits and, for a
    negative one, a leading minus sign. *)
Lemma pretty_Z_chars (z : Z) (c : ascii) :
  c ∈ String.list_ascii_of_string (pretty z) →
  c = "-"%char ∨ is_Some (digit_value c).
Proof.
  assert (∀ p : positive, c ∈ String.list_ascii_of_string (pretty p) →
                          is_Some (digit_value c)) as Hpos.
  { intros p. unfold pretty, pretty_positive, pretty, pretty_N.
    rewrite decide_False by done.
    intros [Hin|?]%pretty_N_go_chars; [by apply elem_of_nil in Hin | done]. }
  destruct z as [|p|p]; unfold pretty, pretty_Z.
  - simpl. intros ->%list_elem_of_singleton. right. by eexists.
  - intros ?%Hpos. by right.
  - rewrite list_ascii_app. simpl.
    intros [->|?%Hpos]%elem_of_cons; [by left | by right].
Qed.

Lemma pretty_Z_no_underscore (z : Z) :
  "_"%char ∉ String.list_ascii_of_string (pretty z).
Proof. intros [?|[d Hd]]%pretty_Z_chars; [done | by vm_compute in Hd]. Qed.

(** Two strings that end in an underscore and a part without
    underscore are equal only part by part. *)
Lemma split_at_last_underscore (s s' d d' : string) :
  "_"%char ∉ String.list_ascii_of_string d →
  "_"%char ∉ String.list_ascii_of_string d' →
  s +:+ String "_" d = s' +:+ String "_" d' →
  s = s' ∧ d = d'.
Proof.
  intros Hd Hd'. revert s'. induction s as [|c s IH]; intros [|c' s'] Heq.
  - by simplify_eq.
  - change (String "_" d = String c' (s' +:+ String "_" d')) in Heq.
    simplify_eq. exfalso. apply Hd. rewrite list_ascii_app. simpl.
    apply elem_of_app. right. apply elem_of_cons. by left.
  - change (String c (s +:+ String "_" d) = String "_" d') in Heq.
    simplify_eq. exfalso. apply Hd'. rewrite list_ascii_app. simpl.
    apply elem_of_app. right. apply elem_of_cons. by left.
  - change (String c (s +:+ String "_" d) = String c' (s' +:+ String "_" d'))
      in Heq.
    simplify_eq. destruct (IH s') as [-> ->]; done.
Qed.

(** X10.  The id given to a new commitment determines the request id
    and the clock reading it is made from: two plans get the same id
    only for the same request id at the same millisecond. *)
Theorem planId_injective (req req' : RequestDoc.t) (now now' : Z) :
  planId req now = planId req' now' →
  RequestDoc.id req = RequestDoc.id req' ∧ now = now'.
Proof.
  unfold planId.
  intros Heq%(inj (String.app "alloc_")).
  change ("_" +:+ pretty now) with (String "_" (pretty now)) in Heq.
  change ("_" +:+ pretty now') with (String "_" (pretty now')) in Heq.
  apply split_at_last_underscore in Heq as [Hid Hnow];
    [ | apply pretty_Z_no_underscore..].
  split; [done | by apply (inj pretty)].
Qed.

Lemma planId_injective_witness :
  RequestDoc.id (request_r1 (Some 1) pending)
  = RequestDoc.id (request_r1 (Some 2) accepted)
  ∧ 1000 = 1000.
Proof.
  apply (planId_injective (request_r1 (Some 1) pending)
           (request_r1 (Some 2) accepted) 1000 1000).
  vm_compute. reflexivity.
Defined.

Lemma set_allocation_find (doc : AllocationDoc.t) (allocs : list AllocationDoc.t) :
  ∃ i, list_find (fun a => AllocationDoc.id a = AllocationDoc.id doc)
         (set_allocation doc allocs) = Some (i, doc).
Proof.
  unfold set_allocation.
  destruct (list_find _ allocs) as [[i a]|] eqn:Hf.
  - exists i. pose proof Hf as (Hi & _ & Hbefore)%list_find_Some.
    apply list_find_insert_Some. right. left.
    split_and!; [done | done | by eapply lookup_lt_Some | done | ].
    intros j z Hz Hj. by eapply Hbefore.
  - exists (length allocs). apply list_find_app_Some. right.
    split_and!; [done | done | ]. rewrite Nat.sub_diag. simpl.
    by rewrite decide_True.
Qed.

Lemma set_allocation_NoDup (doc : AllocationDoc.t) (allocs : list AllocationDoc.t) :
  NoDup (AllocationDoc.id <$> allocs) →
  NoDup (AllocationDoc.id <$> set_allocation doc allocs).
Proof.
  intros Hnd. unfold set_allocation.
  destruct (list_find _ allocs) as [[i a]|] eqn:Hf.
  - apply list_find_Some in Hf as (Hi & Hid & _).
    rewrite list_fmap_insert, list_insert_id; [done | ].
    rewrite list_lookup_fmap, Hi. simpl. by rewrite Hid.
  - apply list_find_None in Hf. rewrite Forall_forall in Hf.
    rewrite fmap_app. apply NoDup_app. split_and!; [done | | apply NoDup_singleton].
    intros x (a & -> & Ha)%list_elem_of_fmap Hx%list_elem_of_singleton.
    by eapply Hf.
Qed.

(** X11.  After a successful call the new commitment can be read back
    under its plan id: it carries the chosen resources, the id, the
    date and the window of the request and the creator tag [agent].
    The commitment ids of the store stay distinct. *)
Theorem success_stores_the_commitment
    (now ts : Z) (requestId : string) (snap live st' : Store)
    (mode : string) (chosen : list Z) (moves : list Move) :
  agentAllocateSingle now ts requestId snap live
  = (Success mode chosen moves, st') →
  ∃ req i,
    get_request snap requestId = Some req
    ∧ list_find (fun a => AllocationDoc.id a = planId req now) (allocations st')
      = Some (i, AllocationDoc.mk (planId req now) requestId
                   (RequestDoc.loginId req) (RequestDoc.requesterName req)
                   chosen (RequestDoc.date req) (RequestDoc.inTime req)
                   (RequestDoc.outTime req) (Some ts) "agent" None)
    ∧ (NoDup (AllocationDoc.id <$> allocations live) →
       NoDup (AllocationDoc.id <$> allocations st')).
Proof.
  intros Hrun.
  apply success_is_planned in Hrun as (req & Hreq & _ & Hplan).
  destruct (get_request_Some _ _ _ Hreq) as [Hid _].
  assert (∃ moved, allocations st'
                   = set_allocation (newAllocation req now ts chosen) moved
                   ∧ AllocationDoc.id <$> moved
                     = AllocationDoc.id <$> allocations live)
    as (moved & Hallocs & Hids).
  { destruct Hplan as [(_ & _ & _ & Hc)|(_ & _ & Hc)].
    - exists (allocations live). unfold commit_direct in Hc.
      destruct (update_request _ _ _ _); by simplify_eq/=.
    - unfold commit_reshuffle in Hc.
      destruct (replay_moves ts false (allocations live) moves)
        as [moved|] eqn:Hmoved; [ | done].
      simpl in Hc. exists moved.
      destruct (update_request _ _ _ _); simplify_eq/=.
      split; [done | by eapply replay_moves_ids]. }
  destruct (set_allocation_find (newAllocation req now ts chosen) moved)
    as [i Hfind].
  exists req, i. rewrite Hallocs. split_and!; [done | | ].
  - rewrite <- Hid. exact Hfind.
  - intros Hnd. apply set_allocation_NoDup. by rewrite Hids.
Qed.

Lemma success_stores_the_commitment_witness :
  ∃ req i a,
    get_request (store_idle (Some 2) pending) "r1" = Some req
    ∧ list_find (fun a => AllocationDoc.id a = planId req 1000)
        (allocations (run 1000 7 "r1" (store_idle (Some 2) pending)).2)
      = Some (i, a)
    ∧ AllocationDoc.systems a = [1; 2].
Proof.
  destruct (success_stores_the_commitment 1000 7 "r1"
              (store_idle (Some 2) pending) (store_idle (Some 2) pending)
              (run 1000 7 "r1" (store_idle (Some 2) pending)).2
              "direct" [1; 2] []) as (req & i & Hreq & Hfind & _).
  - vm_compute. reflexivity.
  - exists req, i. eexists. split_and!; [exact Hreq | exact Hfind | reflexivity].
Defined.

(** * Properties of the dashboard *)

(** ** Slots (lines 113-150) *)

Lemma toMin_toMinutes (t : string) : toMin t = toMinutes t.
Proof. reflexivity. Qed.

Lemma overlap_overlaps (aS aE bS bE : option Z) :
  overlap aS aE bS bE = overlaps aS aE bS bE.
Proof. reflexivity. Qed.

Lemma slot_bounds (i : Z) :
  slot_start i = 480 + 60 * i ∧ slot_end i = 540 + 60 * i.
Proof.
  unfold slot_end, slot_start.
  change SLOT_BLOCK_MIN with 60. change OPEN_MINUTES with 480. lia.
Qed.

Lemma seqZ_sorted (m n : Z) : StronglySorted Z.lt (seqZ m n).
Proof.
  remember (Z.to_nat n) as k eqn:Hk. revert m n Hk.
  induction k as [|k IH]; intros m n Hk.
  - rewrite seqZ_nil by lia. constructor.
  - rewrite seqZ_cons by lia. constructor; [apply IH; lia | ].
    apply Forall_forall. intros x Hx%elem_of_seqZ. lia.
Qed.

Lemma elem_of_slotsCovered (inTime outTime : string) (i : Z) :
  i ∈ slotsCovered inTime outTime
  ↔ 0 <= i < 14
    ∧ ∃ s e, toMin inTime = Some s ∧ toMin outTime = Some e
             ∧ s < e ∧ s < 540 + 60 * i ∧ 480 + 60 * i < e.
Proof.
  unfold slotsCovered. rewrite list_elem_of_filter, elem_of_seqZ.
  change SLOT_COUNT with 14.
  destruct (slot_bounds i) as [-> ->].
  destruct (toMin inTime) as [s|], (toMin outTime) as [e|]; simpl;
    try (split; [by intros [? _] | by intros [_ (?&?&?&?&_)]]).
  rewrite bool_decide_eq_true. split.
  - intros [Hov ?]. split; [lia | ]. exists s, e. split_and!; try done; lia.
  - intros [? (s' & e' & ? & ? & ? & ? & ?)]. simplify_eq. split; lia.
Qed.

(** X12.  The slots a window covers are listed in ascending order
    without repetition.  For a window within the opening hours, from
    08:00 to 22:00, with its end after its start, they are the slots
    from the one its start falls in to the one its last minute falls
    in, so there is at least one. *)
Theorem slotsCovered_in_opening_hours (inTime outTime : string) (s e : Z) :
  toMin inTime = Some s → toMin outTime = Some e →
  StronglySorted Z.lt (slotsCovered inTime outTime)
  ∧ (480 <= s → s < e → e <= 1320 →
     (∀ i, i ∈ slotsCovered inTime outTime
           ↔ (s - 480) `div` 60 <= i <= (e - 481) `div` 60)
     ∧ slotsCovered inTime outTime ≠ []).
Proof.
  intros Hs He. split.
  - unfold slotsCovered.
    eapply StronglySorted_sublist; [apply sublist_filter | apply seqZ_sorted].
  - intros Hopen Hlt Hclose.
    assert (∀ i, i ∈ slotsCovered inTime outTime
                 ↔ (s - 480) `div` 60 <= i <= (e - 481) `div` 60) as Hiff.
    { intros i. rewrite elem_of_slotsCovered, Hs, He. split.
      - intros [? (s' & e' & ? & ? & ? & ? & ?)]. simplify_eq.
        Z.div_mod_to_equations. lia.
      - intros [Hlo Hhi]. split; [Z.div_mod_to_equations; lia | ].
        exists s, e. split_and!; try done; Z.div_mod_to_equations; lia. }
    split; [exact Hiff | ]. intros Hnil.
    assert ((s - 480) `div` 60 ∈ slotsCovered inTime outTime) as Hin.
    { apply Hiff. Z.div_mod_to_equations. lia. }
    rewrite Hnil in Hin. by apply elem_of_nil in Hin.
Qed.

Lemma slotsCovered_in_opening_hours_witness :
  (∀ i, i ∈ slotsCovered "10:00" "12:30" ↔ 2 <= i <= 4)
  ∧ slotsCovered "10:00" "12:30" = [2; 3; 4].
Proof.
  destruct (slotsCovered_in_opening_hours "10:00" "12:30" 600 750)
    as [_ Hin]; [reflexivity | reflexivity | ].
  destruct Hin as [Hiff _]; [lia | lia | lia | ].
  split; [exact Hiff | vm_compute; reflexivity].
Defined.

(** X13.  A window with a time that has no colon covers no slot, and
    so does a window whose start and end are read as minute counts
    when it ends no later than it starts or lies outside the opening
    hours. *)
Theorem slotsCovered_degenerate (inTime outTime : string) :
  (":"%char ∉ String.list_ascii_of_string inTime)
  ∨ (":"%char ∉ String.list_ascii_of_string outTime)
  ∨ (∃ s e, toMin inTime = Some s ∧ toMin outTime = Some e
            ∧ (e <= s ∨ e <= 480 ∨ 1320 <= s)) →
  slotsCovered inTime outTime = [].
Proof.
  intros Hdeg.
  destruct (slotsCovered inTime outTime) as [|i l] eqn:Hl; [done | ].
  assert (i ∈ slotsCovered inTime outTime) as Hin
      by (rewrite Hl; apply elem_of_cons; by left).
  apply elem_of_slotsCovered in Hin as [? (s & e & Hs & He & ? & ? & ?)].
  destruct Hdeg as [Hno|[Hno|(s' & e' & ? & ? & ?)]].
  - apply toMinutes_no_colon in Hno. rewrite toMin_toMinutes in Hs. congruence.
  - apply toMinutes_no_colon in Hno. rewrite toMin_toMinutes in He. congruence.
  - simplify_eq. lia.
Qed.

Lemma slotsCovered_degenerate_witness :
  slotsCovered "22:00" "23:30" = [] ∧ slotsCovered "12:00" "10:00" = []
  ∧ slotsCovered "1000" "12:00" = [].
Proof.
  split_and!.
  - apply slotsCovered_degenerate. right. right. exists 1320, 1410.
    split_and!; [reflexivity | reflexivity | lia].
  - apply slotsCovered_degenerate. right. right. exists 720, 600.
    split_and!; [reflexivity | reflexivity | lia].
  - apply slotsCovered_degenerate. left. simpl. intros Hin.
    repeat (apply elem_of_cons in Hin as [Hin|Hin]; [discriminate Hin | ]).
    by apply elem_of_nil in Hin.
Defined.

(** ** Rendering and parsing times (lines 119-135) *)

Lemma digits_value_pretty_N_go (x : N) (s : string) :
  ∃ k, 0 <= k ∧ ∀ acc,
    digits_value acc (pretty_N_go x s)
    = digits_value (acc * 10 ^ k + Z.of_N x) s.
Proof.
  revert s. induction (N.lt_wf_0 x) as [x _ IH]; intros s.
  assert (x = 0 ∨ 0 < x)%N as [->|Hpos] by lia.
  - exists 0. split; [done | ]. intros acc. rewrite pretty_N_go_0. f_equal. lia.
  - rewrite pretty_N_go_step by done.
    destruct (IH (x `div` 10)%N ltac:(by apply N.div_lt)
                (String (pretty_N_char (x `mod` 10)) s)) as (k & Hk & Hgo).
    exists (k + 1). split; [lia | ]. intros acc. rewrite Hgo. simpl.
    rewrite pretty_N_char_digit by (by apply N.mod_lt).
    f_equal. rewrite Z.pow_add_r, Z.pow_1_r by lia.
    rewrite (N.div_mod x 10) at 3 by done.
    rewrite N2Z.inj_add, N2Z.inj_mul. simpl Z.of_N. lia.
Qed.

(** [Number(String(n))] is [n] for a natural number [n]. *)
Lemma Number_pretty (n : Z) : 0 <= n → Number (pretty n) = Some n.
Proof.
  intros Hn. destruct n as [|p|p]; [done | | lia].
  unfold pretty, pretty_Z, pretty, pretty_positive, pretty, pretty_N.
  rewrite decide_False by done.
  destruct (digits_value_pretty_N_go (N.pos p) "") as (k & _ & Hgo).
  unfold Number. rewrite Hgo. simpl. done.
Qed.

Lemma Number_padStart2 (s : string) : Number (padStart2 s) = Number s.
Proof.
  unfold padStart2. destruct s as [|c [|c' s]]; simpl; [done | | done].
  change ("0" +:+ String c "") with (String "0" (String c "")).
  unfold Number. simpl. done.
Qed.

Lemma padStart2_no_colon (n : Z) :
  ":"%char ∉ String.list_ascii_of_string (padStart2 (pretty n)).
Proof.
  assert (":"%char ∉ String.list_ascii_of_string (pretty n)) as Hp.
  { intros [?|[d Hd]]%pretty_Z_chars; [done | by vm_compute in Hd]. }
  unfold padStart2. destruct (String.length (pretty n)) as [|[|k]]; [ | | done].
  - simpl. intros Hin. repeat (apply elem_of_cons in Hin as [?|Hin]; [done | ]).
    by apply elem_of_nil in Hin.
  - rewrite list_ascii_app. simpl. intros [?|?]%elem_of_cons; done.
Qed.

Lemma rev_app_rev_app (a b c : string) :
  String.rev_app (String.rev_app a b) c = String.rev_app b (a +:+ c).
Proof.
  revert b c. induction a as [|x a IH]; intros b c; simpl; [done | ].
  by rewrite IH.
Qed.

Lemma string_app_nil_r (a : string) : a +:+ "" = a.
Proof.
  induction a as [|x a IH]; [done | ].
  change (String x a +:+ "") with (String x (a +:+ "")). by rewrite IH.
Qed.

Lemma split_colon_part (a b cur : string) :
  ":"%char ∉ String.list_ascii_of_string a →
  split_colon cur (a +:+ String ":" b)
  = String.rev (String.rev_app a cur) :: split_colon "" b.
Proof.
  revert cur. induction a as [|x a IH]; intros cur Ha.
  - change ("" +:+ String ":" b) with (String ":" b). done.
  - change (String x a +:+ String ":" b) with (String x (a +:+ String ":" b)).
    simpl in *. rewrite bool_decide_eq_false_2.
    + apply IH. intros ?. apply Ha, elem_of_cons. by right.
    + intros ->. apply Ha, elem_of_cons. by left.
Qed.

Lemma split_colon_whole (a cur : string) :
  ":"%char ∉ String.list_ascii_of_string a →
  split_colon cur a = [String.rev (String.rev_app a cur)].
Proof.
  revert cur. induction a as [|x a IH]; intros cur Ha; simpl in *; [done | ].
  rewrite bool_decide_eq_false_2.
  - apply IH. intros ?. apply Ha, elem_of_cons. by right.
  - intros ->. apply Ha, elem_of_cons. by left.
Qed.

Lemma rev_rev_app_nil (a : string) : String.rev (String.rev_app a "") = a.
Proof.
  unfold String.rev. rewrite rev_app_rev_app. simpl. apply string_app_nil_r.
Qed.

(** X14.  A time of day rendered by [fmt] parses back to the minute
    count it was rendered from, for every minute count that is not
    negative; in particular the bounds of every slot survive the round
    trip. *)
Theorem toMin_fmt (t : Z) :
  0 <= t →
  toMin (fmt t) = Some t
  ∧ toMinutes (fmt t) = Some t.
Proof.
  intros Ht.
  assert (toMin (fmt t) = Some t) as H; [ | by split].
  unfold toMin, fmt.
  change (":" +:+ padStart2 (pretty (t `rem` 60)))
    with (String ":" (padStart2 (pretty (t `rem` 60)))).
  rewrite split_colon_part by apply padStart2_no_colon.
  rewrite split_colon_whole by apply padStart2_no_colon.
  rewrite !rev_rev_app_nil. simpl.
  rewrite !Number_padStart2.
  rewrite !Number_pretty;
    [ | apply Z.rem_nonneg; lia | apply Z.div_pos; lia].
  f_equal. rewrite Z.rem_mod_nonneg by lia.
  pose proof (Z.div_mod t 60 ltac:(lia)). lia.
Qed.

Lemma toMin_fmt_witness :
  toMin (fmt (slot_start 3)) = Some (slot_start 3)
  ∧ fmt (slot_start 3) = "11:00"%string.
Proof.
  split.
  - apply (toMin_fmt (slot_start 3)). vm_compute. discriminate.
  - vm_compute. reflexivity.
Defined.

(** ** Document names of the slot records (lines 137-138) *)

Lemma split_at_first_underscore (s s' r r' : string) :
  "_"%char ∉ String.list_ascii_of_string s →
  "_"%char ∉ String.list_ascii_of_string s' →
  s +:+ String "_" r = s' +:+ String "_" r' →
  s = s' ∧ r = r'.
Proof.
  revert s'. induction s as [|c s IH]; intros [|c' s'] Hs Hs' Heq.
  - by simplify_eq.
  - change (String "_" r = String c' (s' +:+ String "_" r')) in Heq.
    simplify_eq. exfalso. apply Hs'. simpl. apply elem_of_cons. by left.
  - change (String c (s +:+ String "_" r) = String "_" r') in Heq.
    simplify_eq. exfalso. apply Hs. simpl. apply elem_of_cons. by left.
  - change (String c (s +:+ String "_" r) = String c' (s' +:+ String "_" r'))
      in Heq.
    simplify_eq. simpl in *.
    destruct (IH s') as [-> ->]; [ | | done | done].
    + intros ?. apply Hs, elem_of_cons. by right.
    + intros ?. apply Hs', elem_of_cons. by right.
Qed.

Lemma rangeKey_same_date (date : string) (sys sys' slotIdx slotIdx' : Z) :
  rangeKey date sys slotIdx = rangeKey date sys' slotIdx' →
  sys = sys' ∧ slotIdx = slotIdx'.
Proof.
  unfold rangeKey.
  intros Heq%(inj (String.app date))%(inj (String.app "__sys")).
  change ("__slot" +:+ pretty slotIdx)
    with (String "_" ("_slot" +:+ pretty slotIdx)) in Heq.
  change ("__slot" +:+ pretty slotIdx')
    with (String "_" ("_slot" +:+ pretty slotIdx')) in Heq.
  apply split_at_first_underscore in Heq as [Hsys Hslot];
    [ | apply pretty_Z_no_underscore..].
  apply (inj (String.app "_slot")) in Hslot.
  split; by apply (inj pretty).
Qed.

Lemma string_app_inj_length (a b x y : string) :
  String.length a = String.length b →
  a +:+ x = b +:+ y → a = b ∧ x = y.
Proof.
  revert b. induction a as [|c a IH]; intros [|c' b] Hlen Heq;
    simpl in Hlen; try done.
  change (String c (a +:+ x) = String c' (b +:+ y)) in Heq.
  simplify_eq. destruct (IH b) as [-> ->]; [by simplify_eq | done | done].
Qed.

(** X15.  For dates written with the same number of characters, the
    name of a slot record determines the date, the system and the
    slot: two cells of the schedule never share a document. *)
Theorem rangeKey_injective (date date' : string) (sys sys' slotIdx slotIdx' : Z) :
  String.length date = String.length date' →
  rangeKey date sys slotIdx = rangeKey date' sys' slotIdx' →
  date = date' ∧ sys = sys' ∧ slotIdx = slotIdx'.
Proof.
  intros Hlen Heq.
  apply string_app_inj_length in Heq as [-> Heq]; [ | done].
  split; [done | ].
  apply (rangeKey_same_date date'). unfold rangeKey. by rewrite Heq.
Qed.

Lemma rangeKey_injective_witness :
  "2025-01-10" = "2025-01-10" ∧ (3 : Z) = 3 ∧ (5 : Z) = 5.
Proof.
  apply (rangeKey_injective "2025-01-10" "2025-01-10" 3 3 5 5); reflexivity.
Defined.

(** ** Availability (lines 296-330) *)

Lemma elem_of_foldl_step {A} (step : gset Z → A → gset Z) (P : A → Z → Prop)
    (l : list A) (acc : gset Z) (n : Z) :
  (∀ acc x m, m ∈ step acc x ↔ m ∈ acc ∨ P x m) →
  n ∈ foldl step acc l ↔ n ∈ acc ∨ ∃ x, x ∈ l ∧ P x n.
Proof.
  intros Hstep. revert acc. induction l as [|x l IH]; intros acc; simpl.
  - split; [by left | ]. intros [?|(x & ?%elem_of_nil & _)]; done.
  - rewrite IH, Hstep. split.
    + intros [[?|?]|(y & ? & ?)]; [by left | | ].
      * right. exists x. split; [apply elem_of_cons; by left | done].
      * right. exists y. split; [apply elem_of_cons; by right | done].
    + intros [?|(y & [->|?]%elem_of_cons & ?)]; [by left; left | by left; right | ].
      right. by exists y.
Qed.

(** What makes a system unavailable: the status [maintenance] of a
    system of that number, or a record of the date in a covered slot. *)
Lemma elem_of_systemsUnavailableForRange (systems : list SystemRow.t)
    (allocations : gmap string AllocationRec.t)
    (date inTime outTime : string) (n : Z) :
  n ∈ systemsUnavailableForRange systems allocations date inTime outTime
  ↔ (∃ s, s ∈ systems ∧ SystemRow.systemNumber s = n
          ∧ SystemRow.status s = maintenance)
    ∨ (∃ k rec, allocations !! k = Some rec
                ∧ AllocationRec.date rec = date
                ∧ AllocationRec.slotIdx rec ∈ slotsCovered inTime outTime
                ∧ AllocationRec.systemNumber rec = n).
Proof.
  unfold systemsUnavailableForRange. cbv zeta.
  rewrite (elem_of_foldl_step _
             (fun rec m => AllocationRec.date rec = date
                           ∧ AllocationRec.slotIdx rec ∈ slotsCovered inTime outTime
                           ∧ AllocationRec.systemNumber rec = m)).
  2:{ intros acc rec m. repeat case_bool_decide; set_solver. }
  rewrite (elem_of_foldl_step _
             (fun s m => SystemRow.systemNumber s = m
                         ∧ SystemRow.status s = maintenance)).
  2:{ intros acc s m. case_bool_decide; set_solver. }
  split.
  - intros [[?%not_elem_of_empty|(s & ? & ? & ?)]|(rec & Hrec & ? & ? & ?)];
      [done | left; by exists s | ].
    apply list_elem_of_fmap in Hrec as ([k rec'] & -> & Hk%elem_of_map_to_list).
    right. by exists k, rec'.
  - intros [(s & ? & ? & ?)|(k & rec & Hk & ? & ? & ?)].
    + left. right. by exists s.
    + right. exists rec. split; [ | done].
      apply list_elem_of_fmap. exists (k, rec). split; [done | ].
      by apply elem_of_map_to_list.
Qed.

(** X16.  The free list never names a system that is under
    maintenance, nor one that a record of the date books in a slot the
    window covers; what it lists for the automatic allocation, which
    leaves out the systems with status [reserved], is a sub-list of
    what it lists for the manual one. *)
Theorem freeSystemsForRange_sound (systems : list SystemRow.t)
    (allocations : gmap string AllocationRec.t)
    (date inTime outTime : string) (excludeReservedForAI : bool) :
  (∀ n, n ∈ freeSystemsForRange systems allocations date inTime outTime
              excludeReservedForAI →
        (∃ s, s ∈ systems ∧ SystemRow.systemNumber s = n
              ∧ (excludeReservedForAI = true → SystemRow.status s ≠ reserved))
        ∧ (∀ s, s ∈ systems → SystemRow.systemNumber s = n →
                SystemRow.status s ≠ maintenance)
        ∧ (∀ k rec, allocations !! k = Some rec →
                    AllocationRec.date rec = date →
                    AllocationRec.systemNumber rec = n →
                    AllocationRec.slotIdx rec ∉ slotsCovered inTime outTime))
  ∧ sublist (freeSystemsForRange systems allocations date inTime outTime true)
            (freeSystemsForRange systems allocations date inTime outTime false).
Proof.
  split.
  - intros n (s & -> & [(Hfree & Hres & Hm) Hs]%list_elem_of_filter)%list_elem_of_fmap.
    rewrite elem_of_systemsUnavailableForRange in Hfree. split_and!.
    + exists s. split_and!; [done | done | ]. intros -> ?. by apply Hres.
    + intros s' Hs' Hn Hm'. apply Hfree. left. by exists s'.
    + intros k rec Hk Hdate Hn Hslot. apply Hfree. right. by exists k, rec.
  - unfold freeSystemsForRange. cbv zeta. apply fmap_sublist.
    rewrite (list_filter_iff _
      (fun s => ((true = true ∧ SystemRow.status s = reserved) → False)
                ∧ ((SystemRow.systemNumber s
                    ∉ systemsUnavailableForRange systems allocations date
                        inTime outTime)
                   ∧ ¬ (false = true ∧ SystemRow.status s = reserved)
                   ∧ (SystemRow.status s ≠ maintenance)))).
    + rewrite <- list_filter_filter. apply sublist_filter.
    + intros s. split.
      * intros (? & ? & ?). split_and!; try done. by intros [? _].
      * intros (? & ? & _ & ?). done.
Qed.

Lemma freeSystemsForRange_sound_witness :
  freeSystemsForRange (listen_systems dash_store)
    (listen_allocations "2025-01-10" dash_store) "2025-01-10" "10:00" "12:30" true
  = [1]
  ∧ ∃ s, s ∈ listen_systems dash_store ∧ SystemRow.systemNumber s = 1.
Proof.
  split; [vm_compute; reflexivity | ].
  destruct (proj1 (freeSystemsForRange_sound (listen_systems dash_store)
                     (listen_allocations "2025-01-10" dash_store)
                     "2025-01-10" "10:00" "12:30" true) 1)
    as [(s & Hs & Hn & _) _].
  - vm_compute. apply elem_of_cons. by left.
  - exists s. split; [exact Hs | exact Hn].
Defined.

Lemma systemsUnavailableForRange_no_record (systems : list SystemRow.t)
    (allocations : gmap string AllocationRec.t) (date inTime outTime : string) :
  (∀ k rec, allocations !! k = Some rec → AllocationRec.date rec = date →
            AllocationRec.slotIdx rec ∉ slotsCovered inTime outTime) →
  systemsUnavailableForRange systems allocations date inTime outTime
  = systemsUnavailableForRange systems ∅ date inTime outTime.
Proof.
  intros Hnone. apply set_eq. intros n.
  rewrite !elem_of_systemsUnavailableForRange. split.
  - intros [?|(k & rec & Hk & Hdate & Hslot & _)]; [by left | ].
    by destruct (Hnone k rec).
  - intros [?|(k & rec & Hk & _)]; [by left | ].
    by rewrite lookup_empty in Hk.
Qed.

(** X17.  The dashboard holds the records of the selected date only.
    For a request of another date, and for a window that covers no
    slot of the day, it computes the availability as if nothing were
    booked: whatever the store holds, only the statuses of the systems
    count. *)
Theorem availability_blind_spots (st : DashStore) (systems : list SystemRow.t)
    (selectedDate date inTime outTime : string) (excludeReservedForAI : bool) :
  date ≠ selectedDate ∨ slotsCovered inTime outTime = [] →
  systemsUnavailableForRange systems (listen_allocations selectedDate st)
    date inTime outTime
  = systemsUnavailableForRange systems ∅ date inTime outTime
  ∧ freeSystemsForRange systems (listen_allocations selectedDate st)
      date inTime outTime excludeReservedForAI
    = freeSystemsForRange systems ∅ date inTime outTime excludeReservedForAI.
Proof.
  intros Hblind.
  assert (systemsUnavailableForRange systems (listen_allocations selectedDate st)
            date inTime outTime
          = systemsUnavailableForRange systems ∅ date inTime outTime) as Heq.
  { apply systemsUnavailableForRange_no_record.
    intros k rec [_ Hsel]%map_lookup_filter_Some Hdate Hslot. simpl in Hsel.
    destruct Hblind as [Hother|Hempty].
    - apply Hother. by rewrite <- Hdate, Hsel.
    - rewrite Hempty in Hslot. by apply elem_of_nil in Hslot. }
  split; [done | ]. unfold freeSystemsForRange. cbv zeta. by rewrite Heq.
Qed.

Lemma availability_blind_spots_witness :
  systemsUnavailableForRange (listen_systems dash_store)
    (listen_allocations "2025-01-11" dash_store) "2025-01-10" "10:00" "12:30"
  = systemsUnavailableForRange (listen_systems dash_store) ∅
      "2025-01-10" "10:00" "12:30"
  ∧ freeSystemsForRange (listen_systems dash_store)
      (listen_allocations "2025-01-11" dash_store) "2025-01-10" "10:00" "12:30" false
    = freeSystemsForRange (listen_systems dash_store) ∅
        "2025-01-10" "10:00" "12:30" false.
Proof.
  apply (availability_blind_spots dash_store (listen_systems dash_store)
           "2025-01-11" "2025-01-10" "10:00" "12:30" false).
  left. discriminate.
Defined.

(** ** The slot records of an allocation (lines 356-373) *)

Lemma write_row_lookup (req : PendingRequest.t) (inTime outTime : string)
    (ts i : Z) (systemNumbers : list Z)
    (allocs : gmap string AllocationRec.t) (k : string) :
  let allocs' :=
    foldl (fun acc n => <[ rangeKey (PendingRequest.date req) n i
                          := slot_record req inTime outTime ts i n ]> acc)
          allocs systemNumbers in
  (∃ n, n ∈ systemNumbers ∧ k = rangeKey (PendingRequest.date req) n i
        ∧ allocs' !! k = Some (slot_record req inTime outTime ts i n))
  ∨ ((∀ n, n ∈ systemNumbers → k ≠ rangeKey (PendingRequest.date req) n i)
     ∧ allocs' !! k = allocs !! k).
Proof.
  revert allocs. induction systemNumbers as [|x nums IH]; intros allocs; simpl.
  - right. split; [ | done]. by intros n ?%elem_of_nil.
  - destruct (IH (<[ rangeKey (PendingRequest.date req) x i
                     := slot_record req inTime outTime ts i x ]> allocs))
      as [(n & Hn & -> & Hget)|[Hmiss Hget]].
    + left. exists n. split_and!; [apply elem_of_cons; by right | done | done].
    + destruct (decide (k = rangeKey (PendingRequest.date req) x i)) as [->|Hne].
      * left. exists x. split_and!; [apply elem_of_cons; by left | done | ].
        simpl in Hget. by rewrite Hget, lookup_insert_eq.
      * right. split.
        -- intros n [->|?]%elem_of_cons; [done | by apply Hmiss].
        -- simpl in Hget. by rewrite Hget, lookup_insert_ne.
Qed.

Lemma write_slots_lookup (req : PendingRequest.t) (inTime outTime : string)
    (ts : Z) (span systemNumbers : list Z)
    (allocs : gmap string AllocationRec.t) (k : string) :
  (∃ n i, n ∈ systemNumbers ∧ i ∈ span
          ∧ k = rangeKey (PendingRequest.date req) n i
          ∧ write_slots req inTime outTime ts span systemNumbers allocs !! k
            = Some (slot_record req inTime outTime ts i n))
  ∨ ((∀ n i, n ∈ systemNumbers → i ∈ span →
             k ≠ rangeKey (PendingRequest.date req) n i)
     ∧ write_slots req inTime outTime ts span systemNumbers allocs !! k
       = allocs !! k).
Proof.
  revert allocs. induction span as [|i span IH]; intros allocs.
  - right. split; [ | done]. by intros n i _ ?%elem_of_nil.
  - unfold write_slots in *. simpl.
    destruct (IH (foldl (fun acc n =>
                           <[ rangeKey (PendingRequest.date req) n i
                              := slot_record req inTime outTime ts i n ]> acc)
                        allocs systemNumbers))
      as [(n & j & Hn & Hj & -> & Hget)|[Hmiss Hget]].
    + left. exists n, j. split_and!; [done | apply elem_of_cons; by right | done | done].
    + destruct (write_row_lookup req inTime outTime ts i systemNumbers allocs k)
        as [(n & Hn & -> & Hrow)|[Hmiss' Hrow]]; simpl in Hrow.
      * left. exists n, i.
        split_and!; [done | apply elem_of_cons; by left | done | ].
        by rewrite Hget.
      * right. split.
        -- intros n j Hn [->|Hj]%elem_of_cons; [by apply Hmiss' | by apply Hmiss].
        -- by rewrite Hget.
Qed.

Lemma write_slots_hit (req : PendingRequest.t) (inTime outTime : string)
    (ts : Z) (span systemNumbers : list Z)
    (allocs : gmap string AllocationRec.t) (n i : Z) :
  n ∈ systemNumbers → i ∈ span →
  write_slots req inTime outTime ts span systemNumbers allocs
    !! rangeKey (PendingRequest.date req) n i
  = Some (slot_record req inTime outTime ts i n).
Proof.
  intros Hn Hi.
  destruct (write_slots_lookup req inTime outTime ts span systemNumbers allocs
              (rangeKey (PendingRequest.date req) n i))
    as [(n' & i' & _ & _ & [-> ->]%rangeKey_same_date & Hget)|[Hmiss _]];
    [done | ].
  by destruct (Hmiss n i).
Qed.

Lemma write_slots_miss (req : PendingRequest.t) (inTime outTime : string)
    (ts : Z) (span systemNumbers : list Z)
    (allocs : gmap string AllocationRec.t) (k : string) :
  (∀ n i, n ∈ systemNumbers → i ∈ span →
          k ≠ rangeKey (PendingRequest.date req) n i) →
  write_slots req inTime outTime ts span systemNumbers allocs !! k = allocs !! k.
Proof.
  intros Hmiss.
  destruct (write_slots_lookup req inTime outTime ts span systemNumbers allocs k)
    as [(n & i & Hn & Hi & -> & _)|[_ Hget]]; [ | done].
  by destruct (Hmiss n i).
Qed.

Lemma write_slots_keyed (req : PendingRequest.t) (inTime outTime : string)
    (ts : Z) (span systemNumbers : list Z)
    (allocs : gmap string AllocationRec.t) :
  keyed allocs →
  keyed (write_slots req inTime outTime ts span systemNumbers allocs).
Proof.
  intros Hkeyed k rec Hk.
  destruct (write_slots_lookup req inTime outTime ts span systemNumbers allocs k)
    as [(n & i & _ & _ & -> & Hget)|[_ Hget]]; rewrite Hget in Hk.
  - by simplify_eq.
  - by apply Hkeyed.
Qed.

Lemma writeAllocations_Some (systems : list SystemRow.t) (reviewer : string)
    (ts : Z) (req : PendingRequest.t) (systemNumbers : list Z)
    (slotText : string) (st st' : DashStore) :
  writeAllocations systems reviewer ts req systemNumbers slotText st = Some st' →
  ∃ inTime outTime rest rows reqs,
    split_dash EmptyString slotText = inTime :: outTime :: rest
    ∧ foldl (reserve_system systems req inTime outTime ts)
            (Some (d_systems st)) systemNumbers = Some rows
    ∧ update_pending (PendingRequest.id req)
        (mark_approved systemNumbers reviewer ts) (d_requests st) = Some reqs
    ∧ st' = mkDash rows
              (write_slots req inTime outTime ts (slotsCovered inTime outTime)
                 systemNumbers (d_allocations st))
              reqs.
Proof.
  unfold writeAllocations. intros Hw.
  destruct (split_dash EmptyString slotText) as [|inTime [|outTime rest]];
    [done | done | ].
  cbv zeta in Hw.
  destruct (foldl (reserve_system systems req inTime outTime ts)
              (Some (d_systems st)) systemNumbers) as [rows|] eqn:Hrows;
    [ | done].
  simpl in Hw.
  destruct (update_pending (PendingRequest.id req)
              (mark_approved systemNumbers reviewer ts) (d_requests st))
    as [reqs|] eqn:Hreqs; [ | done].
  simpl in Hw. simplify_eq. by exists inTime, outTime, rest, rows, reqs.
Qed.

(** X18.  A manual or automatic allocation that goes through stores,
    for every system handed out and every slot the window covers, one
    record under the name of that cell, replacing whatever was stored
    there; it leaves every other record as it was, keeps the records
    stored under the names of their cells, and marks the request
    approved with the systems handed out, whatever its status was.
    When the window covers no slot the request is approved all the
    same and no record is written. *)
Theorem writeAllocations_books_every_cell (systems : list SystemRow.t)
    (reviewer : string) (ts : Z) (req : PendingRequest.t)
    (systemNumbers : list Z) (slotText : string) (st st' : DashStore) :
  writeAllocations systems reviewer ts req systemNumbers slotText st = Some st' →
  ∃ inTime outTime rest,
    split_dash EmptyString slotText = inTime :: outTime :: rest
    ∧ (∀ n i, n ∈ systemNumbers → i ∈ slotsCovered inTime outTime →
         d_allocations st' !! rangeKey (PendingRequest.date req) n i
         = Some (slot_record req inTime outTime ts i n))
    ∧ (∀ k, (∀ n i, n ∈ systemNumbers → i ∈ slotsCovered inTime outTime →
                    k ≠ rangeKey (PendingRequest.date req) n i) →
            d_allocations st' !! k = d_allocations st !! k)
    ∧ (slotsCovered inTime outTime = [] → d_allocations st' = d_allocations st)
    ∧ (keyed (d_allocations st) → keyed (d_allocations st'))
    ∧ (∃ r, r ∈ d_requests st'
            ∧ PendingRequest.id r = PendingRequest.id req
            ∧ PendingRequest.status r = Dash.approved
            ∧ PendingRequest.allocatedSystems r = Some systemNumbers
            ∧ PendingRequest.reviewerLoginId r = Some reviewer).
Proof.
  intros (inTime & outTime & rest & rows & reqs & Hsplit & _ & Hreqs & ->)
    %writeAllocations_Some.
  exists inTime, outTime, rest. simpl. split_and!; [done | | | | | ].
  - intros n i. apply write_slots_hit.
  - intros k. apply write_slots_miss.
  - intros Hempty. by rewrite Hempty.
  - apply write_slots_keyed.
  - unfold update_pending in Hreqs.
    destruct (list_find _ (d_requests st)) as [[j r]|] eqn:Hfind; [ | done].
    simplify_eq. apply list_find_Some in Hfind as (Hj & Hid & _).
    exists (mark_approved systemNumbers reviewer ts r). split_and!; try done.
    apply list_elem_of_lookup. exists j.
    apply list_lookup_insert_eq. by eapply lookup_lt_Some.
Qed.

Lemma writeAllocations_books_every_cell_witness :
  ∃ st', writeAllocations (listen_systems dash_store) "A0001" 7 pending_q1 [1; 2]
           "10:00-12:30" dash_store = Some st'
         ∧ d_allocations st' !! rangeKey "2025-01-10" 2 2
           = Some (slot_record pending_q1 "10:00" "12:30" 7 2 2).
Proof.
  destruct (writeAllocations (listen_systems dash_store) "A0001" 7 pending_q1
              [1; 2] "10:00-12:30" dash_store) as [st'|] eqn:Hw;
    [ | vm_compute in Hw; discriminate].
  exists st'. split; [reflexivity | ].
  destruct (writeAllocations_books_every_cell _ _ _ _ _ _ _ _ Hw)
    as (inTime & outTime & rest & Hsplit & Hbook & _).
  vm_compute in Hsplit. injection Hsplit as <- <- _.
  apply (Hbook 2 2).
  - apply elem_of_cons. right. apply elem_of_cons. by left.
  - vm_compute. apply elem_of_cons. by left.
Defined.

(** ** The system documents of an allocation (lines 342-354) *)

Lemma NoDup_fmap_elem_of_inj {A B} (f : A → B) (l : list A) (x y : A) :
  NoDup (f <$> l) → x ∈ l → y ∈ l → f x = f y → x = y.
Proof.
  intros Hnd [i Hi]%list_elem_of_lookup [j Hj]%list_elem_of_lookup Heq.
  assert (i = j) as ->.
  { apply (NoDup_lookup (f <$> l) i j (f x) Hnd).
    - by rewrite list_lookup_fmap, Hi.
    - by rewrite list_lookup_fmap, Hj, Heq. }
  by simplify_eq.
Qed.

Lemma update_system_closed (i : string) (f : SystemRow.t → SystemRow.t)
    (rows : list SystemRow.t) :
  NoDup (SystemRow.id <$> rows) → i ∈ SystemRow.id <$> rows →
  update_system i f rows
  = Some ((fun r => if bool_decide (SystemRow.id r = i) then f r else r) <$> rows).
Proof.
  intros Hnd (row & -> & Hrow)%list_elem_of_fmap. unfold update_system.
  destruct (list_find _ rows) as [[j s]|] eqn:Hfind.
  - apply list_find_Some in Hfind as (Hj & Hid & _). f_equal.
    apply list_eq. intros k. rewrite list_lookup_fmap.
    destruct (decide (k = j)) as [->|Hne].
    + rewrite list_lookup_insert_eq by (by eapply lookup_lt_Some).
      rewrite Hj. simpl. by rewrite bool_decide_eq_true_2.
    + rewrite list_lookup_insert_ne by done.
      destruct (rows !! k) as [r|] eqn:Hk; simpl; [ | done].
      rewrite bool_decide_eq_false_2; [done | ].
      intros Heq. apply Hne.
      apply (NoDup_lookup (SystemRow.id <$> rows) k j (SystemRow.id r) Hnd).
      * by rewrite list_lookup_fmap, Hk.
      * rewrite list_lookup_fmap, Hj. simpl. congruence.
  - apply list_find_None in Hfind. rewrite Forall_forall in Hfind.
    by destruct (Hfind row).
Qed.

Lemma update_system_is_Some (i : string) (f : SystemRow.t → SystemRow.t)
    (rows : list SystemRow.t) :
  is_Some (update_system i f rows) ↔ i ∈ SystemRow.id <$> rows.
Proof.
  unfold update_system.
  destruct (list_find _ rows) as [[j s]|] eqn:Hfind.
  - apply list_find_Some in Hfind as (Hj & Hid & _). split; [ | by eexists].
    intros _. apply list_elem_of_fmap. exists s. split; [done | ].
    by eapply list_elem_of_lookup_2.
  - apply list_find_None in Hfind. rewrite Forall_forall in Hfind. split.
    + by intros [? ?].
    + intros (row & -> & Hrow)%list_elem_of_fmap. by destruct (Hfind row).
Qed.

Lemma update_system_ids (i : string) (f : SystemRow.t → SystemRow.t)
    (rows rows' : list SystemRow.t) :
  (∀ r, SystemRow.id (f r) = SystemRow.id r) →
  update_system i f rows = Some rows' →
  SystemRow.id <$> rows' = SystemRow.id <$> rows.
Proof.
  intros Hf. unfold update_system.
  destruct (list_find _ rows) as [[j s]|] eqn:Hfind; [ | done].
  apply list_find_Some in Hfind as (Hj & _). intros ?. simplify_eq.
  rewrite list_fmap_insert, Hf. apply list_insert_id.
  by rewrite list_lookup_fmap, Hj.
Qed.

Lemma update_numbered_ids (nums : list Z) (f : SystemRow.t → SystemRow.t)
    (rows : list SystemRow.t) :
  (∀ r, SystemRow.id (f r) = SystemRow.id r) →
  SystemRow.id <$> update_numbered nums f rows = SystemRow.id <$> rows.
Proof.
  intros Hf. unfold update_numbered. rewrite <- list_fmap_compose.
  apply list_fmap_ext. intros _ r _. simpl. by case_bool_decide.
Qed.

Lemma update_numbered_numbers (nums : list Z) (f : SystemRow.t → SystemRow.t)
    (rows : list SystemRow.t) :
  (∀ r, SystemRow.systemNumber (f r) = SystemRow.systemNumber r) →
  SystemRow.systemNumber <$> update_numbered nums f rows
  = SystemRow.systemNumber <$> rows.
Proof.
  intros Hf. unfold update_numbered. rewrite <- list_fmap_compose.
  apply list_fmap_ext. intros _ r _. simpl. by case_bool_decide.
Qed.

Lemma update_numbered_registry_ok (nums : list Z) (f : SystemRow.t → SystemRow.t)
    (rows : list SystemRow.t) :
  (∀ r, SystemRow.id (f r) = SystemRow.id r) →
  (∀ r, SystemRow.systemNumber (f r) = SystemRow.systemNumber r) →
  registry_ok rows → registry_ok (update_numbered nums f rows).
Proof.
  intros Hid Hnum [? ?]. split.
  - by rewrite update_numbered_ids.
  - by rewrite update_numbered_numbers.
Qed.

Lemma update_numbered_in_sync (nums : list Z) (f : SystemRow.t → SystemRow.t)
    (systems rows : list SystemRow.t) :
  (∀ r, SystemRow.id (f r) = SystemRow.id r) →
  (∀ r, SystemRow.systemNumber (f r) = SystemRow.systemNumber r) →
  in_sync systems rows → in_sync systems (update_numbered nums f rows).
Proof.
  intros Hid Hnum Hsync. unfold in_sync in *. rewrite Hsync.
  unfold update_numbered. rewrite <- list_fmap_compose.
  erewrite list_fmap_ext; [done | ].
  intros _ r _. simpl. case_bool_decide; [ | done]. by rewrite Hid, Hnum.
Qed.

Lemma listen_systems_in_sync (st : DashStore) :
  in_sync (listen_systems st) (d_systems st).
Proof.
  unfold in_sync, listen_systems. by rewrite merge_sort_Permutation.
Qed.

Lemma in_sync_state (systems rows : list SystemRow.t) (s : SystemRow.t) :
  in_sync systems rows → s ∈ systems →
  ∃ r, r ∈ rows ∧ SystemRow.id r = SystemRow.id s
       ∧ SystemRow.systemNumber r = SystemRow.systemNumber s.
Proof.
  intros Hsync Hs.
  assert ((SystemRow.id s, SystemRow.systemNumber s)
          ∈ (fun s => (SystemRow.id s, SystemRow.systemNumber s)) <$> rows)
    as (r & Heq & Hr)%list_elem_of_fmap.
  { unfold in_sync in Hsync. rewrite <- Hsync.
    apply list_elem_of_fmap. by exists s. }
  exists r. by simplify_eq.
Qed.

Lemma in_sync_store (systems rows : list SystemRow.t) (r : SystemRow.t) :
  in_sync systems rows → r ∈ rows →
  ∃ s, s ∈ systems ∧ SystemRow.id s = SystemRow.id r
       ∧ SystemRow.systemNumber s = SystemRow.systemNumber r.
Proof.
  intros Hsync Hr.
  assert ((SystemRow.id r, SystemRow.systemNumber r)
          ∈ (fun s => (SystemRow.id s, SystemRow.systemNumber s)) <$> systems)
    as (s & Heq & Hs)%list_elem_of_fmap.
  { unfold in_sync in Hsync. rewrite Hsync.
    apply list_elem_of_fmap. by exists r. }
  exists s. by simplify_eq.
Qed.

(** With the state in step with the store, finding a system by its
    number in the state and updating the document of that name rewrites
    the documents of that number. *)
Lemma update_system_numbered (systems rows : list SystemRow.t)
    (f : SystemRow.t → SystemRow.t) (n : Z) :
  registry_ok rows → in_sync systems rows →
  match list_find (fun s => SystemRow.systemNumber s = n) systems with
  | Some (_, sys) =>
      update_system (SystemRow.id sys) f rows = Some (update_numbered [n] f rows)
  | None => update_numbered [n] f rows = rows
  end.
Proof.
  intros [Hids Hnums] Hsync.
  destruct (list_find _ systems) as [[j sys]|] eqn:Hfind.
  - apply list_find_Some in Hfind as (Hj & Hn & _).
    apply list_elem_of_lookup_2 in Hj.
    destruct (in_sync_state _ _ _ Hsync Hj) as (r & Hr & Hid & Hnum).
    rewrite update_system_closed; [ | done | ].
    2:{ apply list_elem_of_fmap. by exists r. }
    f_equal. unfold update_numbered. apply list_fmap_ext. intros k r' Hk.
    apply list_elem_of_lookup_2 in Hk.
    case_bool_decide as Hid'; case_bool_decide as Hnum'; try done.
    + exfalso. apply Hnum'. apply list_elem_of_singleton.
      rewrite <- Hid in Hid'.
      by rewrite (NoDup_fmap_elem_of_inj _ _ _ _ Hids Hk Hr Hid'), Hnum.
    + exfalso. apply Hid'. apply list_elem_of_singleton in Hnum'.
      rewrite <- Hid.
      by rewrite (NoDup_fmap_elem_of_inj _ rows r' r Hnums Hk Hr)
        by (by rewrite Hnum, Hn).
  - apply list_find_None in Hfind. rewrite Forall_forall in Hfind.
    unfold update_numbered. rewrite <- (list_fmap_id rows) at 2.
    apply list_fmap_ext. intros k r Hk. apply list_elem_of_lookup_2 in Hk.
    rewrite bool_decide_eq_false_2; [done | ].
    intros Hn%list_elem_of_singleton.
    destruct (in_sync_store _ _ _ Hsync Hk) as (s & Hs & _ & Hnum).
    apply (Hfind s Hs). by rewrite Hnum.
Qed.

Lemma reserve_system_None (systems : list SystemRow.t) (req : PendingRequest.t)
    (inTime outTime : string) (ts : Z) (nums : list Z) :
  foldl (reserve_system systems req inTime outTime ts) None nums = None.
Proof. by induction nums. Qed.

Lemma reserve_systems_is_Some (systems : list SystemRow.t)
    (req : PendingRequest.t) (inTime outTime : string) (ts : Z)
    (nums : list Z) (rows : list SystemRow.t) :
  is_Some (foldl (reserve_system systems req inTime outTime ts) (Some rows) nums)
  ↔ ∀ n, n ∈ nums →
      ∃ j sys, list_find (fun s => SystemRow.systemNumber s = n) systems
               = Some (j, sys)
               ∧ SystemRow.id sys ∈ SystemRow.id <$> rows.
Proof.
  revert rows. induction nums as [|n nums IH]; intros rows; simpl.
  - split; [ | by eexists]. by intros _ n ?%elem_of_nil.
  - destruct (list_find (fun s => SystemRow.systemNumber s = n) systems)
      as [[j sys]|] eqn:Hfind; simpl.
    + destruct (update_system (SystemRow.id sys)
                  (mark_reserved req inTime outTime ts) rows)
        as [rows'|] eqn:Hupd.
      * rewrite IH. rewrite (update_system_ids _ (mark_reserved req inTime outTime ts) _ _
                             (fun _ => eq_refl) Hupd).
        split.
        -- intros Hall m [->|Hm]%elem_of_cons; [ | by apply Hall].
           exists j, sys. split; [done | ].
           apply (update_system_is_Some _ (mark_reserved req inTime outTime ts)).
           by rewrite Hupd.
        -- intros Hall m Hm. apply Hall, elem_of_cons. by right.
      * rewrite reserve_system_None. split; [by intros [? ?] | ].
        intros Hall. destruct (Hall n) as (j' & sys' & Hfind' & Hin);
          [apply elem_of_cons; by left | ].
        simplify_eq.
        apply (update_system_is_Some _ (mark_reserved req inTime outTime ts))
          in Hin.
        rewrite Hupd in Hin. by destruct Hin.
    + rewrite reserve_system_None. split; [by intros [? ?] | ].
      intros Hall. destruct (Hall n) as (j' & sys' & Hfind' & _);
        [apply elem_of_cons; by left | ].
      by simplify_eq.
Qed.

Lemma update_numbered_cons (n : Z) (nums : list Z) (f : SystemRow.t → SystemRow.t)
    (rows : list SystemRow.t) :
  (∀ r, SystemRow.systemNumber (f r) = SystemRow.systemNumber r) →
  (∀ r, f (f r) = f r) →
  update_numbered nums f (update_numbered [n] f rows)
  = update_numbered (n :: nums) f rows.
Proof.
  intros Hnum Hidem. unfold update_numbered. rewrite <- list_fmap_compose.
  apply list_fmap_ext. intros _ r _. simpl.
  destruct (bool_decide (SystemRow.systemNumber r ∈ [n])) eqn:Hn.
  - apply bool_decide_eq_true_1, list_elem_of_singleton in Hn.
    rewrite Hnum, Hidem.
    rewrite (bool_decide_eq_true_2 (SystemRow.systemNumber r ∈ n :: nums))
      by (apply elem_of_cons; by left).
    by case_bool_decide.
  - apply bool_decide_eq_false_1 in Hn.
    case_bool_decide as H1; case_bool_decide as H2; try done.
    + exfalso. apply H2, elem_of_cons. by right.
    + exfalso. apply elem_of_cons in H2 as [Heq|?]; [ | done].
      by apply Hn, list_elem_of_singleton.
Qed.

Lemma reserve_systems_closed (systems : list SystemRow.t)
    (req : PendingRequest.t) (inTime outTime : string) (ts : Z)
    (nums : list Z) (rows rows' : list SystemRow.t) :
  registry_ok rows → in_sync systems rows →
  foldl (reserve_system systems req inTime outTime ts) (Some rows) nums
  = Some rows' →
  rows' = update_numbered nums (mark_reserved req inTime outTime ts) rows.
Proof.
  revert rows. induction nums as [|n nums IH]; intros rows Hok Hsync; simpl.
  - intros [= <-]. unfold update_numbered.
    rewrite <- (list_fmap_id rows) at 1. apply list_fmap_ext.
    intros _ r _. rewrite bool_decide_eq_false_2; [done | ].
    by intros ?%elem_of_nil.
  - pose proof (update_system_numbered systems rows
                  (mark_reserved req inTime outTime ts) n Hok Hsync) as Hupd.
    destruct (list_find (fun s => SystemRow.systemNumber s = n) systems)
      as [[j sys]|]; simpl.
    + rewrite Hupd. intros Hfold. apply IH in Hfold.
      * by rewrite Hfold, update_numbered_cons.
      * by apply update_numbered_registry_ok.
      * by apply update_numbered_in_sync.
    + by rewrite reserve_system_None.
Qed.

(** X19.  With the state in step with a registry whose documents have
    distinct names and numbers, an allocation that goes through gives
    the status [reserved] and the holder to the documents of the
    systems handed out and to no other; from then on the free list of
    the automatic allocation names none of them, for whatever date and
    window it is asked. *)
Theorem writeAllocations_reserves_for_every_date (reviewer : string) (ts : Z)
    (req : PendingRequest.t) (systemNumbers : list Z) (slotText : string)
    (st st' : DashStore) :
  registry_ok (d_systems st) →
  writeAllocations (listen_systems st) reviewer ts req systemNumbers slotText st
  = Some st' →
  (∃ inTime outTime rest,
     split_dash EmptyString slotText = inTime :: outTime :: rest
     ∧ d_systems st'
       = update_numbered systemNumbers (mark_reserved req inTime outTime ts)
           (d_systems st))
  ∧ ∀ allocations date inTime outTime n,
      n ∈ systemNumbers →
      n ∉ freeSystemsForRange (listen_systems st') allocations date
            inTime outTime true.
Proof.
  intros Hok (inTime & outTime & rest & rows & reqs & Hsplit & Hrows & _ & ->)
    %writeAllocations_Some.
  apply reserve_systems_closed in Hrows;
    [ | done | apply listen_systems_in_sync].
  subst rows. simpl. split; [by exists inTime, outTime, rest | ].
  intros allocations date a b n Hn
    (s & -> & [(_ & Hres & _) Hs]%list_elem_of_filter)%list_elem_of_fmap.
  apply Hres. split; [done | ].
  unfold listen_systems in Hs. rewrite merge_sort_Permutation in Hs.
  simpl in Hs. unfold update_numbered in Hs.
  apply list_elem_of_fmap in Hs as (r & -> & _).
  case_bool_decide as Hr; [done | ]. by destruct Hr.
Qed.

Lemma dash_store_registry_ok : registry_ok (d_systems dash_store).
Proof. split; apply (bool_decide_unpack _); vm_compute; reflexivity. Qed.

Lemma writeAllocations_reserves_for_every_date_witness :
  ∃ st', writeAllocations (listen_systems dash_store) "A0001" 7 pending_q1 [1; 2]
           "10:00-12:30" dash_store = Some st'
         ∧ 1 ∉ freeSystemsForRange (listen_systems st') ∅ "2025-02-01"
                 "08:00" "09:00" true.
Proof.
  destruct (writeAllocations (listen_systems dash_store) "A0001" 7 pending_q1
              [1; 2] "10:00-12:30" dash_store) as [st'|] eqn:Hw;
    [ | vm_compute in Hw; discriminate].
  exists st'. split; [reflexivity | ].
  apply (proj2 (writeAllocations_reserves_for_every_date _ _ _ _ _ _ _
                  dash_store_registry_ok Hw)).
  apply elem_of_cons. by left.
Defined.

(** X20.  What an allocation has booked is unavailable afterwards: on
    the date of the request, with the records of that date at hand, a
    window that shares a slot with the allocated one finds every system
    handed out unavailable, and the free list leaves it out. *)
Theorem booked_cells_are_unavailable (systems : list SystemRow.t)
    (reviewer : string) (ts : Z) (req : PendingRequest.t)
    (systemNumbers : list Z) (slotText : string) (st st' : DashStore) :
  writeAllocations systems reviewer ts req systemNumbers slotText st = Some st' →
  ∃ inTime outTime rest,
    split_dash EmptyString slotText = inTime :: outTime :: rest
    ∧ ∀ systems' inTime' outTime' excludeReservedForAI n i,
        n ∈ systemNumbers →
        i ∈ slotsCovered inTime outTime → i ∈ slotsCovered inTime' outTime' →
        n ∈ systemsUnavailableForRange systems'
              (listen_allocations (PendingRequest.date req) st')
              (PendingRequest.date req) inTime' outTime'
        ∧ n ∉ freeSystemsForRange systems'
                (listen_allocations (PendingRequest.date req) st')
                (PendingRequest.date req) inTime' outTime' excludeReservedForAI.
Proof.
  intros (inTime & outTime & rest & rows & reqs & Hsplit & _ & _ & ->)
    %writeAllocations_Some.
  exists inTime, outTime, rest. split; [done | ].
  intros systems' a b flag n i Hn Hi Hi'.
  assert (n ∈ systemsUnavailableForRange systems'
                (listen_allocations (PendingRequest.date req)
                   (mkDash rows
                      (write_slots req inTime outTime ts
                         (slotsCovered inTime outTime) systemNumbers
                         (d_allocations st)) reqs))
                (PendingRequest.date req) a b) as Hbusy.
  { apply elem_of_systemsUnavailableForRange. right.
    exists (rangeKey (PendingRequest.date req) n i),
           (slot_record req inTime outTime ts i n).
    split_and!; [ | done | done | done].
    apply map_lookup_filter_Some. split; [ | done]. simpl.
    by apply write_slots_hit. }
  split; [done | ].
  intros (s & -> & [(Hfree & _) _]%list_elem_of_filter)%list_elem_of_fmap.
  by apply Hfree.
Qed.

Lemma booked_cells_are_unavailable_witness :
  ∃ st', writeAllocations (listen_systems dash_store) "A0001" 7 pending_q1 [1]
           "10:00-12:30" dash_store = Some st'
         ∧ 1 ∈ systemsUnavailableForRange (listen_systems st')
                 (listen_allocations "2025-01-10" st') "2025-01-10"
                 "12:00" "13:00".
Proof.
  destruct (writeAllocations (listen_systems dash_store) "A0001" 7 pending_q1
              [1] "10:00-12:30" dash_store) as [st'|] eqn:Hw;
    [ | vm_compute in Hw; discriminate].
  exists st'. split; [reflexivity | ].
  destruct (booked_cells_are_unavailable _ _ _ _ _ _ _ _ Hw)
    as (inTime & outTime & rest & Hsplit & Hbusy).
  vm_compute in Hsplit. injection Hsplit as <- <- _.
  apply (Hbusy (listen_systems st') "12:00" "13:00" false 1 4).
  - apply elem_of_cons. by left.
  - vm_compute. apply elem_of_cons. right. apply elem_of_cons. right.
    apply elem_of_cons. by left.
  - vm_compute. apply elem_of_cons. by left.
Defined.

(** ** When an allocation goes through (lines 338, 344-345, 376, 383) *)

Lemma split_dash_nonempty (cur s : string) :
  ∃ a rest, split_dash cur s = a :: rest.
Proof.
  revert cur. induction s as [|c s IH]; intros cur; simpl; [by eexists _, _ | ].
  case_bool_decide; [by eexists _, _ | apply IH].
Qed.

Lemma split_dash_two (cur s : string) :
  (∃ a b rest, split_dash cur s = a :: b :: rest)
  ↔ "-"%char ∈ String.list_ascii_of_string s.
Proof.
  revert cur. induction s as [|c s IH]; intros cur; simpl.
  - split; [by intros (a & b & rest & ?) | by intros ?%elem_of_nil].
  - case_bool_decide as Hc.
    + subst c. split; [intros _; apply elem_of_cons; by left | ].
      intros _. destruct (split_dash_nonempty EmptyString s) as (b & rest & ->).
      by eexists _, _, _.
    + rewrite IH. split; [intros ?; apply elem_of_cons; by right | ].
      by intros [?|?]%elem_of_cons.
Qed.

Lemma update_pending_is_Some (i : string) (f : PendingRequest.t → PendingRequest.t)
    (reqs : list PendingRequest.t) :
  is_Some (update_pending i f reqs) ↔ i ∈ PendingRequest.id <$> reqs.
Proof.
  unfold update_pending.
  destruct (list_find _ reqs) as [[j s]|] eqn:Hfind.
  - apply list_find_Some in Hfind as (Hj & Hid & _). split; [ | by eexists].
    intros _. apply list_elem_of_fmap. exists s. split; [done | ].
    by eapply list_elem_of_lookup_2.
  - apply list_find_None in Hfind. rewrite Forall_forall in Hfind. split.
    + by intros [? ?].
    + intros (r & -> & Hr)%list_elem_of_fmap. by destruct (Hfind r).
Qed.

Lemma writeAllocations_is_Some (systems : list SystemRow.t)
    (reviewer : string) (ts : Z) (req : PendingRequest.t)
    (systemNumbers : list Z) (slotText : string) (st : DashStore) :
  is_Some (writeAllocations systems reviewer ts req systemNumbers slotText st)
  ↔ "-"%char ∈ String.list_ascii_of_string slotText
    ∧ (∀ n, n ∈ systemNumbers →
         ∃ j sys, list_find (fun s => SystemRow.systemNumber s = n) systems
                  = Some (j, sys)
                  ∧ SystemRow.id sys ∈ SystemRow.id <$> d_systems st)
    ∧ PendingRequest.id req ∈ PendingRequest.id <$> d_requests st.
Proof.
  rewrite <- (split_dash_two EmptyString slotText).
  unfold writeAllocations.
  destruct (split_dash EmptyString slotText) as [|inTime [|outTime rest]].
  - split; [by intros [? ?] | by intros [(? & ? & ? & ?) _]].
  - split; [by intros [? ?] | by intros [(? & ? & ? & ?) _]].
  - cbv zeta.
    rewrite <- (reserve_systems_is_Some systems req inTime outTime ts).
    rewrite <- (update_pending_is_Some _
                  (mark_approved systemNumbers reviewer ts)).
    destruct (foldl (reserve_system systems req inTime outTime ts)
                (Some (d_systems st)) systemNumbers) as [rows|]; simpl.
    + destruct (update_pending (PendingRequest.id req)
                  (mark_approved systemNumbers reviewer ts) (d_requests st))
        as [reqs|]; simpl.
      * split; [ | by eexists]. intros _.
        split_and!; [by eexists _, _, _ | by eexists | by eexists].
      * split; [by intros [? ?] | by intros (_ & _ & [? ?])].
    + split; [by intros [? ?] | by intros (_ & [? ?] & _)].
Qed.

Lemma reserve_systems_all_or_one (systems rows : list SystemRow.t)
    (nums : list Z) :
  (∀ n, n ∈ nums →
     ∃ j sys, list_find (fun s => SystemRow.systemNumber s = n) systems
              = Some (j, sys)
              ∧ SystemRow.id sys ∈ SystemRow.id <$> rows)
  ∨ (∃ n, n ∈ nums
          ∧ ∀ j sys, list_find (fun s => SystemRow.systemNumber s = n) systems
                     = Some (j, sys) →
                     SystemRow.id sys ∉ SystemRow.id <$> rows).
Proof.
  induction nums as [|n nums [IH|(m & Hm & IH)]].
  - left. by intros n ?%elem_of_nil.
  - destruct (list_find (fun s => SystemRow.systemNumber s = n) systems)
      as [[j sys]|] eqn:Hfind.
    + destruct (decide (SystemRow.id sys ∈ SystemRow.id <$> rows)) as [Hin|Hout].
      * left. intros m [->|Hm]%elem_of_cons; [by exists j, sys | by apply IH].
      * right. exists n. split; [apply elem_of_cons; by left | ].
        intros j' sys' Hfind'. by simplify_eq.
    + right. exists n. split; [apply elem_of_cons; by left | ].
      intros j' sys' Hfind'. by simplify_eq.
  - right. exists m. split; [apply elem_of_cons; by right | done].
Qed.

(** X21.  An allocation fails, with the batch not committed, exactly
    when the slot text has no dash, a number handed out is not the
    number of a system of the state or the system found has no
    document, or the request has no document. *)
Theorem writeAllocations_fails_iff (systems : list SystemRow.t)
    (reviewer : string) (ts : Z) (req : PendingRequest.t)
    (systemNumbers : list Z) (slotText : string) (st : DashStore) :
  writeAllocations systems reviewer ts req systemNumbers slotText st = None
  ↔ ("-"%char ∉ String.list_ascii_of_string slotText)
    ∨ (∃ n, n ∈ systemNumbers
            ∧ ∀ j sys, list_find (fun s => SystemRow.systemNumber s = n) systems
                       = Some (j, sys) →
                       SystemRow.id sys ∉ SystemRow.id <$> d_systems st)
    ∨ (PendingRequest.id req ∉ PendingRequest.id <$> d_requests st).
Proof.
  rewrite eq_None_not_Some, writeAllocations_is_Some. split.
  - intros Hnot.
    destruct (decide ("-"%char ∈ String.list_ascii_of_string slotText));
      [ | by left].
    destruct (decide (PendingRequest.id req ∈ PendingRequest.id <$> d_requests st));
      [ | by right; right].
    destruct (reserve_systems_all_or_one systems (d_systems st) systemNumbers)
      as [Hall|Hone]; [ | by right; left].
    by destruct Hnot.
  - intros [Hdash|[(n & Hn & Hnone)|Hreq]] (Hd & Hall & Hr); [done | | done].
    destruct (Hall n Hn) as (j & sys & Hfind & Hin). by apply (Hnone j sys).
Qed.

(** ** The status toggles (lines 269-294) *)

Lemma update_numbered_twice (n : Z) (f g : SystemRow.t → SystemRow.t)
    (rows : list SystemRow.t) :
  (∀ r, SystemRow.systemNumber (f r) = SystemRow.systemNumber r) →
  update_numbered [n] g (update_numbered [n] f rows)
  = update_numbered [n] (g ∘ f) rows.
Proof.
  intros Hnum. unfold update_numbered. rewrite <- list_fmap_compose.
  apply list_fmap_ext. intros _ r _. simpl.
  destruct (bool_decide (SystemRow.systemNumber r ∈ [n])) eqn:Hn.
  - by rewrite Hnum, Hn.
  - by rewrite Hn.
Qed.

Lemma toggle_status_closed (on : SystemStatus) (st : DashStore)
    (ts n : Z) (turnOn : bool) :
  registry_ok (d_systems st) →
  toggle_status on (listen_systems st) ts n turnOn st
  = Some (mkDash (update_numbered [n] (toggle_fields on turnOn ts) (d_systems st))
            (d_allocations st) (d_requests st)).
Proof.
  intros Hok. unfold toggle_status.
  pose proof (update_system_numbered (listen_systems st) (d_systems st)
                (toggle_fields on turnOn ts) n Hok (listen_systems_in_sync st))
    as Hupd.
  destruct (list_find _ (listen_systems st)) as [[j sys]|].
  - by rewrite Hupd.
  - rewrite Hupd. by destruct st.
Qed.

(** X22.  With the state in step with the registry, either toggle goes
    through; it rewrites the status, the holder and the time of update
    of the documents of that number and nothing else: the slot records
    and the requests stay as they are, and a number that no system has
    changes nothing. *)
Theorem toggle_rewrites_one_system (on : SystemStatus) (st : DashStore)
    (ts n : Z) (turnOn : bool) :
  registry_ok (d_systems st) →
  ∃ st', toggle_status on (listen_systems st) ts n turnOn st = Some st'
    ∧ d_allocations st' = d_allocations st
    ∧ d_requests st' = d_requests st
    ∧ d_systems st'
      = update_numbered [n] (toggle_fields on turnOn ts) (d_systems st)
    ∧ (n ∉ SystemRow.systemNumber <$> d_systems st → st' = st)
    ∧ registry_ok (d_systems st').
Proof.
  intros Hok. eexists. split; [by apply toggle_status_closed | ].
  simpl. split_and!; try done.
  - intros Hn. destruct st as [rows allocs reqs]. simpl in *. f_equal.
    unfold update_numbered. rewrite <- (list_fmap_id rows) at 2.
    apply list_fmap_ext. intros k r Hk.
    rewrite bool_decide_eq_false_2; [done | ].
    intros Heq%list_elem_of_singleton. apply Hn.
    apply list_elem_of_fmap. exists r. split; [done | ].
    by eapply list_elem_of_lookup_2.
  - by apply update_numbered_registry_ok.
Qed.

Lemma toggle_rewrites_one_system_witness :
  ∃ st', handleMaintenanceToggle (listen_systems dash_store) 9 2 true dash_store
         = Some st'
    ∧ d_allocations st' = d_allocations dash_store.
Proof.
  destruct (toggle_rewrites_one_system maintenance dash_store 9 2 true
              dash_store_registry_ok) as (st' & Htoggle & Hallocs & _).
  exists st'. split; [exact Htoggle | exact Hallocs].
Defined.

(** X23.  Turning a status on and off again leaves the systems of that
    number available and without holder, whatever status and holder
    they had: a reservation made by an allocation is forgotten, while
    its slot records stay in the store. *)
Theorem toggle_round_trip_forgets (on : SystemStatus) (st : DashStore)
    (ts1 ts2 n : Z) :
  registry_ok (d_systems st) →
  ∃ st1,
    toggle_status on (listen_systems st) ts1 n true st = Some st1
    ∧ toggle_status on (listen_systems st1) ts2 n false st1
      = Some (mkDash
                (update_numbered [n]
                   (fun r => SystemRow.mk (SystemRow.id r)
                               (SystemRow.systemNumber r) (SystemRow.type r)
                               available None (SystemRow.createdAt r) (Some ts2))
                   (d_systems st))
                (d_allocations st) (d_requests st)).
Proof.
  intros Hok. eexists. split; [by apply toggle_status_closed | ].
  rewrite toggle_status_closed; simpl.
  - by rewrite update_numbered_twice.
  - by apply update_numbered_registry_ok.
Qed.

Lemma toggle_round_trip_forgets_witness :
  ∃ st1 st2,
    handleReserveToggle (listen_systems dash_store) 8 3 true dash_store = Some st1
    ∧ handleReserveToggle (listen_systems st1) 9 3 false st1 = Some st2
    ∧ SystemRow.status <$> d_systems st2 = [available; available; available].
Proof.
  destruct (toggle_round_trip_forgets reserved dash_store 8 9 3
              dash_store_registry_ok) as (st1 & Hon & Hoff).
  exists st1. eexists. split; [exact Hon | ]. split; [exact Hoff | ].
  vm_compute. reflexivity.
Defined.

(** ** Seeding the registry (lines 232-267) *)

(** X24.  Seeding writes nothing when the registry has a document, so
    seeding twice is seeding once; it never touches the slot records
    or the requests.  On an empty registry it creates the systems 1 to
    33 under distinct names, all available and without holder, the
    first fourteen of type i9 and the others of type i7. *)
Theorem seedSystems_once (ts ts' : Z) (st : DashStore) :
  seedSystems ts' (seedSystems ts st) = seedSystems ts st
  ∧ d_allocations (seedSystems ts st) = d_allocations st
  ∧ d_requests (seedSystems ts st) = d_requests st
  ∧ (d_systems st ≠ [] → seedSystems ts st = st)
  ∧ (d_systems st = [] →
       SystemRow.systemNumber <$> listen_systems (seedSystems ts st) = seqZ 1 33
       ∧ registry_ok (d_systems (seedSystems ts st))
       ∧ ∀ r, r ∈ d_systems (seedSystems ts st) →
           SystemRow.status r = available
           ∧ SystemRow.allocatedTo r = None
           ∧ SystemRow.type r
             = if bool_decide (SystemRow.systemNumber r <= 14) then i9 else i7).
Proof.
  unfold seedSystems.
  destruct (d_systems st) as [|r rows] eqn:Hrows;
    cbn [d_systems d_allocations d_requests].
  - split_and!; try done. intros _. split_and!.
    + vm_compute. reflexivity.
    + split; apply (bool_decide_unpack _); vm_compute; reflexivity.
    + intros r (i & -> & _)%list_elem_of_fmap. done.
  - rewrite Hrows. split_and!; done.
Qed.

Lemma seedSystems_once_witness :
  length (d_systems (seedSystems 5 (mkDash [] ∅ []))) = 33%nat
  ∧ seedSystems 6 dash_store = dash_store.
Proof.
  destruct (seedSystems_once 5 6 (mkDash [] ∅ [])) as (_ & _ & _ & _ & Hnew).
  destruct (Hnew eq_refl) as (Hnums & _).
  destruct (seedSystems_once 6 6 dash_store) as (_ & _ & _ & Hold & _).
  split; [ | by apply Hold].
  vm_compute. reflexivity.
Defined.

(** ** The checks of the manual allocation (lines 409-461, 528-540) *)

Lemma filter_nil_iff {A} (P : A → Prop) `{!∀ x, Decision (P x)} (l : list A) :
  filter P l = [] ↔ ∀ x, x ∈ l → ¬ P x.
Proof.
  split.
  - intros Hnil x Hx HP. by apply (filter_nil_not_elem_of P l x).
  - intros Hnone. destruct (filter P l) as [|x k] eqn:Hf; [done | ].
    assert (x ∈ filter P l) as [HP Hx]%list_elem_of_filter
      by (rewrite Hf; apply elem_of_cons; by left).
    by destruct (Hnone x).
Qed.

Lemma filter_all {A} (P : A → Prop) `{!∀ x, Decision (P x)} (l : list A) :
  (∀ x, x ∈ l → P x) → filter P l = l.
Proof.
  induction l as [|x l IH]; intros Hall; [done | ].
  rewrite filter_cons, decide_True by (apply Hall, elem_of_cons; by left).
  f_equal. apply IH. intros y Hy. apply Hall, elem_of_cons. by right.
Qed.

Lemma slot_pattern_dash (allocTime : string) :
  slot_pattern allocTime = true →
  "-"%char ∈ String.list_ascii_of_string allocTime.
Proof.
  unfold slot_pattern.
  destruct (String.list_ascii_of_string allocTime)
    as [|h1 [|h2 [|c1 [|m1 [|m2 [|d [|h3 [|h4 [|c2 [|m3 [|m4 [|x l]]]]]]]]]]]];
    try done.
  rewrite !andb_true_iff.
  intros [[[[[[_ Hd%bool_decide_eq_true_1] _] _] _] _] _]. subst d.
  do 5 (apply elem_of_cons; right). apply elem_of_cons. by left.
Qed.

(** With the records under the names of their cells and one length of
    date, the record found under the name of a cell of a date is of
    that date. *)
Lemma keyed_cell_date (allocations : gmap string AllocationRec.t)
    (date : string) (n i : Z) (rec : AllocationRec.t) :
  keyed allocations → dated (String.length date) allocations →
  allocations !! rangeKey date n i = Some rec →
  AllocationRec.date rec = date.
Proof.
  intros Hkeyed Hdated Hk.
  pose proof (Hkeyed _ _ Hk) as Heq. pose proof (Hdated _ _ Hk) as Hlen.
  unfold rangeKey in Heq.
  by apply string_app_inj_length in Heq as [-> _].
Qed.

Lemma handleAllocateConfirm_allocated (systems : list SystemRow.t)
    (allocations : gmap string AllocationRec.t) (reviewer : string) (ts : Z)
    (target : PendingRequest.t) (nums : list Z) (allocTime : string)
    (st st' : DashStore) :
  handleAllocateConfirm systems allocations reviewer ts (Some target) nums
    allocTime st = (Some AllocatedManual, st') →
  ∃ inTime outTime rest,
    nums ≠ [] ∧ slot_pattern allocTime = true
    ∧ missing systems nums = []
    ∧ split_dash EmptyString allocTime = inTime :: outTime :: rest
    ∧ maint systems nums = []
    ∧ conflicts allocations (PendingRequest.date target) nums
        (slotsCovered inTime outTime) = []
    ∧ writeAllocations systems reviewer ts target nums allocTime st = Some st'.
Proof.
  unfold handleAllocateConfirm.
  case_bool_decide as Hnums; [done | ].
  destruct (slot_pattern allocTime); [ | done]. simpl.
  case_bool_decide as Hmissing; [done | ].
  destruct (split_dash EmptyString allocTime) as [|inTime [|outTime rest]];
    [done | done | ].
  cbv zeta.
  case_bool_decide as Hmaint; [done | ].
  case_bool_decide as Hconflicts; [done | ].
  destruct (writeAllocations systems reviewer ts target nums allocTime st)
    as [st''|]; [ | done].
  intros [= <-]. exists inTime, outTime, rest.
  split_and!; try done.
  - intros ->. by apply Hnums.
  - by apply nil_length_inv.
  - by apply nil_length_inv.
  - by apply nil_length_inv.
Qed.

(** X25.  A manual allocation for a request of the selected date goes
    through only if no cell it writes has a record: with the records
    under the names of their cells, every record of the store is still
    there afterwards.  The numbers handed out are numbers of systems of
    the state that are not under maintenance. *)
Theorem manual_allocation_keeps_the_records (systems : list SystemRow.t)
    (reviewer : string) (ts : Z) (target : PendingRequest.t)
    (nums : list Z) (allocTime : string) (st st' : DashStore) :
  keyed (d_allocations st) →
  dated (String.length (PendingRequest.date target)) (d_allocations st) →
  handleAllocateConfirm systems
    (listen_allocations (PendingRequest.date target) st) reviewer ts
    (Some target) nums allocTime st = (Some AllocatedManual, st') →
  d_allocations st ⊆ d_allocations st'
  ∧ ∀ n, n ∈ nums →
      ∃ j sys, list_find (fun s => SystemRow.systemNumber s = n) systems
               = Some (j, sys)
               ∧ SystemRow.status sys ≠ maintenance.
Proof.
  intros Hkeyed Hdated
    (inTime & outTime & rest & _ & _ & Hmissing & Hsplit & Hmaint & Hconfl & Hw)
    %handleAllocateConfirm_allocated.
  split.
  - apply writeAllocations_Some in Hw
      as (inTime' & outTime' & rest' & rows & reqs & Hsplit' & _ & _ & ->).
    rewrite Hsplit in Hsplit'. simplify_eq. simpl.
    apply map_subseteq_spec. intros k rec Hk.
    destruct (write_slots_lookup target inTime' outTime' ts
                (slotsCovered inTime' outTime') nums (d_allocations st) k)
      as [(n & i & Hn & Hi & -> & _)|[_ ->]]; [ | done].
    exfalso.
    apply (proj1 (filter_nil_iff _ _) Hconfl n Hn).
    apply Exists_exists. exists i. split; [done | ]. exists rec.
    apply map_lookup_filter_Some. split; [done | ]. simpl.
    by eapply keyed_cell_date.
  - intros n Hn.
    pose proof (proj1 (filter_nil_iff _ _) Hmissing n Hn) as Hsome.
    apply dec_stable, Exists_exists in Hsome as (s & Hs & Hnum).
    destruct (list_find_elem_of (fun s => SystemRow.systemNumber s = n)
                systems s Hs Hnum) as [[j sys] Hfind].
    exists j, sys. split; [done | ].
    pose proof (proj1 (filter_nil_iff _ _) Hmaint n Hn) as Hm.
    unfold under_maintenance in Hm. rewrite Hfind in Hm.
    intros Hstatus. apply Hm. by apply bool_decide_eq_true_2.
Qed.

Lemma dash_store_2_keyed : keyed (d_allocations dash_store_2).
Proof.
  intros k rec Hk. cbn [dash_store_2 dash_store d_allocations] in Hk.
  apply lookup_singleton_Some in Hk as [<- <-]. reflexivity.
Qed.

Lemma dash_store_2_dated : dated 10 (d_allocations dash_store_2).
Proof.
  intros k rec Hk. cbn [dash_store_2 dash_store d_allocations] in Hk.
  apply lookup_singleton_Some in Hk as [<- <-]. reflexivity.
Qed.

Lemma manual_allocation_keeps_the_records_witness :
  ∃ st', handleAllocateConfirm (listen_systems dash_store_2)
           (listen_allocations "2025-01-10" dash_store_2) "A0001" 7
           (Some pending_q2) [1] "10:00-11:00" dash_store_2
         = (Some AllocatedManual, st')
    ∧ d_allocations dash_store_2 ⊆ d_allocations st'.
Proof.
  destruct (handleAllocateConfirm (listen_systems dash_store_2)
              (listen_allocations "2025-01-10" dash_store_2) "A0001" 7
              (Some pending_q2) [1] "10:00-11:00" dash_store_2)
    as [toast st'] eqn:Hconfirm.
  assert (toast = Some AllocatedManual) as ->.
  { apply (f_equal fst) in Hconfirm. vm_compute in Hconfirm. by symmetry. }
  exists st'. split; [reflexivity | ].
  apply (manual_allocation_keeps_the_records (listen_systems dash_store_2)
           "A0001" 7 pending_q2 [1] "10:00-11:00" dash_store_2 st');
    [exact dash_store_2_keyed | exact dash_store_2_dated | exact Hconfirm].
Defined.

(** X26.  For a request of another date than the selected one the
    checks on the cells find nothing, whatever the store holds: no
    number is reported as a conflict and the race guard lets every
    system chosen through. *)
Theorem cell_checks_blind_for_other_dates (st : DashStore)
    (selectedDate date : string) (nums span : list Z) :
  keyed (d_allocations st) →
  dated (String.length date) (d_allocations st) →
  date ≠ selectedDate →
  conflicts (listen_allocations selectedDate st) date nums span = []
  ∧ race_guard (listen_allocations selectedDate st) date nums span = nums.
Proof.
  intros Hkeyed Hdated Hother.
  assert (∀ n, ¬ Exists (fun i => is_Some (listen_allocations selectedDate st
                                            !! rangeKey date n i)) span)
    as Hnone.
  { intros n (i & _ & rec & [Hk Hsel]%map_lookup_filter_Some)%Exists_exists.
    simpl in Hsel. apply Hother. rewrite <- Hsel. symmetry.
    by eapply keyed_cell_date. }
  split.
  - apply filter_nil_iff. intros n _. apply Hnone.
  - apply filter_all. intros n _. apply Hnone.
Qed.

Lemma cell_checks_blind_for_other_dates_witness :
  conflicts (listen_allocations "2025-01-11" dash_store_2) "2025-01-10" [2] [2] = []
  ∧ race_guard (listen_allocations "2025-01-11" dash_store_2) "2025-01-10" [2] [2]
    = [2]
  ∧ conflicts (listen_allocations "2025-01-10" dash_store_2) "2025-01-10" [2] [2]
    = [2].
Proof.
  destruct (cell_checks_blind_for_other_dates dash_store_2 "2025-01-11"
              "2025-01-10" [2] [2] dash_store_2_keyed dash_store_2_dated)
    as [Hconfl Hrace]; [discriminate | ].
  split; [exact Hconfl | ]. split; [exact Hrace | ].
  vm_compute. reflexivity.
Defined.

(** X27.  With the state in step with the registry and a target that
    has a document, a manual allocation that passes the checks is
    written: the message of a failed write is never shown, and some
    message always is. *)
Theorem checked_allocation_is_written (systems : list SystemRow.t)
    (allocations : gmap string AllocationRec.t) (reviewer : string) (ts : Z)
    (target : PendingRequest.t) (nums : list Z) (allocTime : string)
    (st : DashStore) :
  in_sync systems (d_systems st) →
  PendingRequest.id target ∈ PendingRequest.id <$> d_requests st →
  ∃ toast, (handleAllocateConfirm systems allocations reviewer ts (Some target)
              nums allocTime st).1 = Some toast
           ∧ toast ≠ AllocateFailed.
Proof.
  intros Hsync Hreq. unfold handleAllocateConfirm.
  case_bool_decide as Hnums; [by eexists | ].
  destruct (slot_pattern allocTime) eqn:Hpat; [ | by eexists]. simpl.
  case_bool_decide as Hmissing; [by eexists | ].
  pose proof (slot_pattern_dash _ Hpat) as Hdash.
  pose proof (proj2 (split_dash_two EmptyString allocTime) Hdash)
    as (inTime & outTime & rest & Hsplit).
  rewrite Hsplit. cbv zeta.
  case_bool_decide as Hmaint; [by eexists | ].
  case_bool_decide as Hconflicts; [by eexists | ].
  assert (is_Some (writeAllocations systems reviewer ts target nums allocTime st))
    as [st' ->]; [ | by eexists].
  apply writeAllocations_is_Some. split_and!; [done | | done].
  intros n Hn.
  apply nil_length_inv in Hmissing.
  pose proof (proj1 (filter_nil_iff _ _) Hmissing n Hn) as Hsome.
  apply dec_stable, Exists_exists in Hsome as (s & Hs & Hnum).
  destruct (list_find_elem_of (fun s => SystemRow.systemNumber s = n)
              systems s Hs Hnum) as [[j sys] Hfind].
  exists j, sys. split; [done | ].
  apply list_find_Some in Hfind as (Hj%list_elem_of_lookup_2 & _).
  destruct (in_sync_state _ _ _ Hsync Hj) as (r & Hr & Hid & _).
  apply list_elem_of_fmap. by exists r.
Qed.

Lemma checked_allocation_is_written_witness :
  ∃ toast, (handleAllocateConfirm (listen_systems dash_store_2)
              (listen_allocations "2025-01-10" dash_store_2) "A0001" 7
              (Some pending_q2) [2] "10:00-11:00" dash_store_2).1 = Some toast
           ∧ toast ≠ AllocateFailed.
Proof.
  apply (checked_allocation_is_written (listen_systems dash_store_2)
           (listen_allocations "2025-01-10" dash_store_2) "A0001" 7 pending_q2
           [2] "10:00-11:00" dash_store_2).
  - apply listen_systems_in_sync.
  - apply elem_of_cons. right. apply elem_of_cons. by left.
Defined.

(** ** The cells of the schedule (lines 614-634) *)

Lemma slotsCovered_own_slot (i : Z) :
  0 <= i < SLOT_COUNT →
  slotsCovered (fmt (slot_start i)) (fmt (slot_end i)) = [i].
Proof.
  unfold SLOT_COUNT. intros Hi.
  assert (i = 0 ∨ i = 1 ∨ i = 2 ∨ i = 3 ∨ i = 4 ∨ i = 5 ∨ i = 6 ∨ i = 7
          ∨ i = 8 ∨ i = 9 ∨ i = 10 ∨ i = 11 ∨ i = 12 ∨ i = 13) as Hcases by lia.
  destruct_or!; subst i; vm_compute; reflexivity.
Qed.

(** X28.  The schedule and the free list agree.  With the records
    under the names of their cells and no two systems of one number, a
    cell of the selected date is shown free exactly when the free list
    of the manual allocation, asked for the hour of that cell, names
    the system. *)
Theorem grid_agrees_with_free_list (st : DashStore) (systems : list SystemRow.t)
    (selectedDate : string) (sysNum slotIdx : Z) :
  keyed (d_allocations st) →
  NoDup (SystemRow.systemNumber <$> systems) →
  0 <= slotIdx < SLOT_COUNT →
  Cell.kind (cellInfo systems (listen_allocations selectedDate st) selectedDate
               sysNum slotIdx) = cell_available
  ↔ sysNum ∈ freeSystemsForRange systems (listen_allocations selectedDate st)
               selectedDate (fmt (slot_start slotIdx)) (fmt (slot_end slotIdx))
               false.
Proof.
  intros Hkeyed Hnd Hslot. unfold cellInfo, freeSystemsForRange. cbv zeta.
  split.
  - destruct (list_find _ systems) as [[j sys]|] eqn:Hfind; [ | done].
    apply list_find_Some in Hfind as (Hj%list_elem_of_lookup_2 & Hn & _).
    case_bool_decide as Hm; [done | ].
    destruct (listen_allocations selectedDate st
                !! rangeKey selectedDate sysNum slotIdx) eqn:Hrec; [done | ].
    intros _. apply list_elem_of_fmap. exists sys. split; [done | ].
    apply list_elem_of_filter. split; [ | done]. split_and!; [ | by intros [? _] | done].
    rewrite elem_of_systemsUnavailableForRange, slotsCovered_own_slot by done.
    intros [(s & Hs & Hn' & Hm')|(k & rec & Hk & Hdate & Hi & Hnum)].
    + apply Hm. rewrite <- Hm'. f_equal.
      apply (NoDup_fmap_elem_of_inj SystemRow.systemNumber systems); try done.
    + apply list_elem_of_singleton in Hi.
      pose proof Hk as [Hk' _]%map_lookup_filter_Some.
      apply Hkeyed in Hk'. rewrite Hdate, Hi, Hnum, Hn in Hk'. subst k.
      by rewrite Hrec in Hk.
  - intros (s & Hn & [(Hfree & _ & Hm) Hs]%list_elem_of_filter)%list_elem_of_fmap.
    rewrite elem_of_systemsUnavailableForRange, slotsCovered_own_slot in Hfree
      by done.
    destruct (list_find _ systems) as [[j sys]|] eqn:Hfind.
    + apply list_find_Some in Hfind as (Hj%list_elem_of_lookup_2 & Hn' & _).
      case_bool_decide as Hm'.
      { exfalso. apply Hfree. left. exists sys. split_and!; [done | | done].
        congruence. }
      destruct (listen_allocations selectedDate st
                  !! rangeKey selectedDate sysNum slotIdx) as [rec|] eqn:Hrec;
        [ | done].
      exfalso. apply Hfree. right.
      exists (rangeKey selectedDate sysNum slotIdx), rec.
      pose proof Hrec as [Hk Hdate]%map_lookup_filter_Some. simpl in Hdate.
      apply Hkeyed in Hk. rewrite Hdate in Hk.
      apply rangeKey_same_date in Hk as [Hnum Hi].
      split_and!; [done | done | | ].
      * rewrite <- Hi. by apply list_elem_of_singleton.
      * congruence.
    + apply list_find_None in Hfind. rewrite Forall_forall in Hfind.
      by destruct (Hfind s Hs).
Qed.

Lemma grid_agrees_with_free_list_witness :
  Cell.kind (cellInfo (listen_systems dash_store)
               (listen_allocations "2025-01-10" dash_store) "2025-01-10" 1 2)
  = cell_available
  ↔ 1 ∈ freeSystemsForRange (listen_systems dash_store)
          (listen_allocations "2025-01-10" dash_store) "2025-01-10"
          (fmt (slot_start 2)) (fmt (slot_end 2)) false.
Proof.
  apply (grid_agrees_with_free_list dash_store (listen_systems dash_store)
           "2025-01-10" 1 2).
  - exact dash_store_2_keyed.
  - apply (bool_decide_unpack _). vm_compute. reflexivity.
  - unfold SLOT_COUNT. lia.
Defined.

(** ** The overview (lines 575-586) *)

(** X29.  The four counts of the overview add up to the number of
    systems of the state: every system is counted under exactly one
    status.  The total shown is that number, except that 33 is shown
    when there is none. *)
Theorem stats_partition (systems : list SystemRow.t)
    (pendingRequests : list PendingRequest.t) :
  let s := stats systems pendingRequests in
  (Stats.avail s + Stats.occ s + Stats.res s + Stats.mnt s = length systems)%nat
  ∧ (systems ≠ [] → Stats.total s = length systems)
  ∧ (systems = [] → Stats.total s = 33%nat).
Proof.
  simpl. split_and!.
  - unfold count_status. induction systems as [|x l IH]; [done | ].
    rewrite !filter_cons. simpl.
    destruct (SystemRow.status x); simpl;
      repeat (rewrite decide_False by done);
      repeat (rewrite decide_True by done); simpl; lia.
  - intros Hne. rewrite bool_decide_eq_false_2; [done | ].
    by destruct systems.
  - by intros ->.
Qed.

Lemma stats_partition_witness :
  Stats.total (stats (listen_systems dash_store) [pending_q1]) = 3%nat
  ∧ Stats.total (stats [] [pending_q1]) = 33%nat.
Proof.
  destruct (stats_partition (listen_systems dash_store) [pending_q1])
    as (_ & Hsome & _).
  destruct (stats_partition [] [pending_q1]) as (_ & _ & Hnone).
  split; [ | by apply Hnone].
  rewrite Hsome; [vm_compute; reflexivity | ].
  vm_compute. discriminate.
Defined.

(** ** The automatic rejection (lines 559-573) *)

Lemma update_pending_closed (i : string) (f : PendingRequest.t → PendingRequest.t)
    (reqs : list PendingRequest.t) :
  NoDup (PendingRequest.id <$> reqs) → i ∈ PendingRequest.id <$> reqs →
  update_pending i f reqs
  = Some ((fun r => if bool_decide (PendingRequest.id r = i) then f r else r)
            <$> reqs).
Proof.
  intros Hnd (doc & -> & Hdoc)%list_elem_of_fmap. unfold update_pending.
  destruct (list_find _ reqs) as [[j s]|] eqn:Hfind.
  - apply list_find_Some in Hfind as (Hj & Hid & _). f_equal.
    apply list_eq. intros k. rewrite list_lookup_fmap.
    destruct (decide (k = j)) as [->|Hne].
    + rewrite list_lookup_insert_eq by (by eapply lookup_lt_Some).
      rewrite Hj. simpl. by rewrite bool_decide_eq_true_2.
    + rewrite list_lookup_insert_ne by done.
      destruct (reqs !! k) as [r|] eqn:Hk; simpl; [ | done].
      rewrite bool_decide_eq_false_2; [done | ].
      intros Heq. apply Hne.
      apply (NoDup_lookup (PendingRequest.id <$> reqs) k j (PendingRequest.id r) Hnd).
      * by rewrite list_lookup_fmap, Hk.
      * rewrite list_lookup_fmap, Hj. simpl. congruence.
  - apply list_find_None in Hfind. rewrite Forall_forall in Hfind.
    by destruct (Hfind doc).
Qed.

Lemma update_pending_ids (i : string) (f : PendingRequest.t → PendingRequest.t)
    (reqs reqs' : list PendingRequest.t) :
  (∀ r, PendingRequest.id (f r) = PendingRequest.id r) →
  update_pending i f reqs = Some reqs' →
  PendingRequest.id <$> reqs' = PendingRequest.id <$> reqs.
Proof.
  intros Hf. unfold update_pending.
  destruct (list_find _ reqs) as [[j s]|] eqn:Hfind; [ | done].
  apply list_find_Some in Hfind as (Hj & _). intros ?. simplify_eq.
  rewrite list_fmap_insert, Hf. apply list_insert_id.
  by rewrite list_lookup_fmap, Hj.
Qed.

Lemma reject_one_frame (reviewer : string) (ts : PendingRequest.t → Z)
    (st : DashStore) (r : PendingRequest.t) :
  d_systems (reject_one reviewer ts st r) = d_systems st
  ∧ d_allocations (reject_one reviewer ts st r) = d_allocations st
  ∧ PendingRequest.id <$> d_requests (reject_one reviewer ts st r)
    = PendingRequest.id <$> d_requests st.
Proof.
  unfold reject_one.
  destruct (update_pending _ _ (d_requests st)) as [reqs|] eqn:Hupd; [ | done].
  simpl. split_and!; [done | done | ].
  by apply (update_pending_ids (PendingRequest.id r)
              (mark_rejected reviewer (ts r))).
Qed.

Lemma reject_all_frame (reviewer : string) (ts : PendingRequest.t → Z)
    (prs : list PendingRequest.t) (st : DashStore) :
  d_systems (foldl (reject_one reviewer ts) st prs) = d_systems st
  ∧ d_allocations (foldl (reject_one reviewer ts) st prs) = d_allocations st
  ∧ PendingRequest.id <$> d_requests (foldl (reject_one reviewer ts) st prs)
    = PendingRequest.id <$> d_requests st.
Proof.
  revert st. induction prs as [|r prs IH]; intros st; simpl; [done | ].
  destruct (IH (reject_one reviewer ts st r)) as (-> & -> & ->).
  apply reject_one_frame.
Qed.

Lemma reject_all_rejected (reviewer : string) (ts : PendingRequest.t → Z)
    (prs : list PendingRequest.t) (st : DashStore) (k : nat)
    (doc : PendingRequest.t) :
  NoDup (PendingRequest.id <$> d_requests st) →
  d_requests (foldl (reject_one reviewer ts) st prs) !! k = Some doc →
  (PendingRequest.id doc ∈ PendingRequest.id <$> prs
   ∧ PendingRequest.status doc = Dash.rejected)
  ∨ ((PendingRequest.id doc ∉ PendingRequest.id <$> prs)
     ∧ d_requests st !! k = Some doc).
Proof.
  revert st. induction prs as [|r prs IH]; intros st Hnd Hk; simpl in *.
  - right. split; [by intros ?%elem_of_nil | done].
  - destruct (reject_one_frame reviewer ts st r) as (_ & _ & Hids).
    destruct (IH (reject_one reviewer ts st r)) as [[Hin Hst]|[Hout Hk1]];
      [by rewrite Hids | done | | ].
    { left. split; [apply elem_of_cons; by right | done]. }
    assert (PendingRequest.id doc ∈ PendingRequest.id <$> d_requests st) as Hdoc.
    { rewrite <- Hids. apply list_elem_of_fmap. exists doc. split; [done | ].
      by eapply list_elem_of_lookup_2. }
    unfold reject_one in Hk1.
    destruct (decide (PendingRequest.id doc = PendingRequest.id r)) as [Heq|Hne].
    + left. split; [apply elem_of_cons; by left | ].
      rewrite update_pending_closed in Hk1 by (by rewrite <- ?Heq).
      simpl in Hk1. rewrite list_lookup_fmap in Hk1.
      destruct (d_requests st !! k) as [doc0|]; [ | done]. simpl in Hk1.
      case_bool_decide as Hid; by simplify_eq.
    + right. split; [by intros [?|?]%elem_of_cons | ].
      destruct (update_pending _ _ (d_requests st)) as [reqs|] eqn:Hupd;
        [ | done].
      simpl in Hk1.
      assert (PendingRequest.id r ∈ PendingRequest.id <$> d_requests st) as Hr.
      { apply (update_pending_is_Some _ (mark_rejected reviewer (ts r))).
        by rewrite Hupd. }
      rewrite update_pending_closed in Hupd by done. simplify_eq.
      rewrite list_lookup_fmap in Hk1.
      destruct (d_requests st !! k) as [doc0|]; [ | done]. simpl in Hk1.
      case_bool_decide as Hid; by simplify_eq.
Qed.

Lemma all_under_maintenance_none_free (systems : list SystemRow.t)
    (allocations : gmap string AllocationRec.t) (date inTime outTime : string)
    (excludeReservedForAI : bool) :
  Forall (fun s => SystemRow.status s = maintenance) systems →
  freeSystemsForRange systems allocations date inTime outTime
    excludeReservedForAI = [].
Proof.
  intros Hall. unfold freeSystemsForRange. cbv zeta.
  rewrite (proj2 (filter_nil_iff _ systems)); [done | ].
  rewrite Forall_forall in Hall. intros s Hs (_ & _ & Hm). by apply Hm, Hall.
Qed.

(** X30.  The automatic rejection touches the requests only, and it
    does so only when the state has exactly 33 systems, all under
    maintenance, in which case the free list is empty for every date
    and window.  When it fires, with distinct names of the request
    documents, every pending request of the state that has a document
    is rejected. *)
Theorem auto_reject_only_when_nothing_is_free (systems : list SystemRow.t)
    (pendingRequests : list PendingRequest.t) (reviewer : string)
    (ts : PendingRequest.t → Z) (st : DashStore) :
  let st' := auto_reject systems pendingRequests reviewer ts st in
  d_systems st' = d_systems st
  ∧ d_allocations st' = d_allocations st
  ∧ PendingRequest.id <$> d_requests st' = PendingRequest.id <$> d_requests st
  ∧ (st' ≠ st →
       length systems = 33%nat
       ∧ ∀ allocations date inTime outTime excludeReservedForAI,
           freeSystemsForRange systems allocations date inTime outTime
             excludeReservedForAI = [])
  ∧ (length systems = 33%nat →
     Forall (fun s => SystemRow.status s = maintenance) systems →
     NoDup (PendingRequest.id <$> d_requests st) →
     ∀ r doc, r ∈ pendingRequests → doc ∈ d_requests st' →
              PendingRequest.id doc = PendingRequest.id r →
              PendingRequest.status doc = Dash.rejected).
Proof.
  unfold auto_reject. cbv zeta.
  destruct (bool_decide (length systems = 33%nat)) eqn:Hlen; simpl.
  - destruct (bool_decide (Forall _ systems)) eqn:Hall; simpl.
    + apply bool_decide_eq_true_1 in Hlen, Hall.
      destruct (reject_all_frame reviewer ts pendingRequests st)
        as (Hsys & Hallocs & Hids).
      split_and!; try done.
      * intros _. split; [done | ]. intros allocations date a b flag.
        by apply all_under_maintenance_none_free.
      * intros _ _ Hnd r doc Hr [k Hk]%list_elem_of_lookup Hid.
        destruct (reject_all_rejected reviewer ts pendingRequests st k doc Hnd Hk)
          as [[_ Hst]|[Hout _]]; [done | ].
        exfalso. apply Hout. rewrite Hid. apply list_elem_of_fmap. by exists r.
    + apply bool_decide_eq_false_1 in Hall. split_and!; try done.
  - apply bool_decide_eq_false_1 in Hlen. split_and!; try done.
Qed.

Lemma auto_reject_only_when_nothing_is_free_witness :
  ∃ doc, doc ∈ d_requests (auto_reject (listen_systems dash_store_down)
                             [pending_q1; pending_q2] "A0001" (fun _ => 9)
                             dash_store_down)
         ∧ PendingRequest.id doc = "q2"
         ∧ PendingRequest.status doc = Dash.rejected.
Proof.
  exists (mark_rejected "A0001" 9 pending_q2).
  assert (mark_rejected "A0001" 9 pending_q2
          ∈ d_requests (auto_reject (listen_systems dash_store_down)
                          [pending_q1; pending_q2] "A0001" (fun _ => 9)
                          dash_store_down)) as Hdoc.
  { vm_compute. apply elem_of_cons. right. apply elem_of_cons. by left. }
  split; [exact Hdoc | ]. split; [reflexivity | ].
  destruct (auto_reject_only_when_nothing_is_free (listen_systems dash_store_down)
              [pending_q1; pending_q2] "A0001" (fun _ => 9) dash_store_down)
    as (_ & _ & _ & _ & Hfires).
  apply (Hfires) with (r := pending_q2).
  - vm_compute. reflexivity.
  - apply (bool_decide_unpack _). vm_compute. reflexivity.
  - apply (bool_decide_unpack _). vm_compute. reflexivity.
  - apply elem_of_cons. right. apply elem_of_cons. by left.
  - exact Hdoc.
  - reflexivity.
Defined.
